(** * MediaFranca SVG schema validator: a shallow embedding of
      [client/src/lib/mf-schema/tools/validator.py]

    The validator is a Python class whose methods append findings to two
    lists held by the object and abort the run by raising.  The embedding
    keeps that shape: the object is a record, a method is a function from
    the object to an outcome (normal return or raised exception) and the
    updated object, and the decoded metadata is a dynamically typed JSON
    value on which every Python operation the code performs is written
    out, including the cases in which the interpreter raises. *)

From Stdlib Require Import String Ascii List Bool Arith ZArith Lia DecimalString.
From Stdlib Require Import Floats.SpecFloat.
Import ListNotations.
Set Warnings "-register-all".
Local Open Scope string_scope.
Local Open Scope list_scope.

(** ** Python strings

    A [str] is modelled as a [string] whose characters are the code points
    below 256. *)
Module PyStr.

(** [sub in s] on two strings. *)
Fixpoint contains (sub s : string) : bool :=
  if String.prefix sub s then true
  else match s with
       | EmptyString => false
       | String _ s' => contains sub s'
       end.

(** [c.isspace()] for a code point below 256. *)
Definition isspace (c : ascii) : bool :=
  let n := nat_of_ascii c in
  (((9 <=? n) && (n <=? 13)) || ((28 <=? n) && (n <=? 32))
   || (n =? 133) || (n =? 160))%nat.

(** [not s.strip()]: stripping leaves nothing. *)
Definition strip_is_empty (s : string) : bool :=
  forallb isspace (list_ascii_of_string s).

(** [not text or not text.strip()] for an optional text. *)
Definition blank (text : option string) : bool :=
  match text with
  | None => true
  | Some s => strip_is_empty s
  end.

(** [str(i)] for a list index. *)
Definition of_nat (i : nat) : string :=
  NilEmpty.string_of_uint (Nat.to_uint i).

(** [f"{x}"] for an optional string: [None] prints as its name. *)
Definition of_option (x : option string) : string :=
  match x with
  | None => "None"
  | Some s => s
  end.

(** [x == v] for an optional string [x] and a string [v]. *)
Definition eq_opt (x : option string) (v : string) : bool :=
  match x with
  | None => false
  | Some s => s =? v
  end.

(** Truth value of an optional string: [None] and [''] are false. *)
Definition truthy (x : option string) : bool :=
  match x with
  | None => false
  | Some s => negb (s =? "")
  end.

End PyStr.

(** ** Decoded JSON values, as Python objects *)
Inductive json : Type :=
| JNull
| JBool (b : bool)
| JInt (z : Z)
| JFloat (f : spec_float)
| JStr (s : string)
| JArr (items : list json)
| JObj (fields : list (string * json)).

(** Exceptions that travel through the validator: the module's own
    [ValidationError], and any other subclass of [Exception], of which
    only [str(e)] is observed.  The texts given below to the exceptions
    of the interpreter are those of CPython 3.11; nothing proved here
    depends on their wording. *)
Inductive pyexn : Type :=
| ValidationError (msg : string)
| PyException (msg : string).

Module Py.

(** [type(v).__name__] *)
Definition type_name (v : json) : string :=
  match v with
  | JNull => "NoneType"
  | JBool _ => "bool"
  | JInt _ => "int"
  | JFloat _ => "float"
  | JStr _ => "str"
  | JArr _ => "list"
  | JObj _ => "dict"
  end.

(** [bool(v)] *)
Definition truthy (v : json) : bool :=
  match v with
  | JNull => false
  | JBool b => b
  | JInt z => negb (z =? 0)%Z
  | JFloat (S754_zero _) => false
  | JFloat _ => true
  | JStr s => negb (s =? "")
  | JArr items => match items with [] => false | _ => true end
  | JObj fields => match fields with [] => false | _ => true end
  end.

Definition isinstance_dict (v : json) : bool :=
  match v with JObj _ => true | _ => false end.

(** Lookup in a dict; the first binding of a key is the dict's entry. *)
Fixpoint lookup (k : string) (fields : list (string * json)) : option json :=
  match fields with
  | [] => None
  | (k', v) :: rest => if k' =? k then Some v else lookup k rest
  end.

Definition has_key (k : string) (fields : list (string * json)) : bool :=
  match lookup k fields with Some _ => true | None => false end.

(** [d.get(k, default)] on a dict. *)
Definition dict_get (k : string) (default : json)
           (fields : list (string * json)) : json :=
  match lookup k fields with Some v => v | None => default end.

Definition eq_str (k : string) (v : json) : bool :=
  match v with JStr s => s =? k | _ => false end.

Definition TypeError_not_iterable (v : json) : pyexn :=
  PyException ("argument of type '" ++ type_name v ++ "' is not iterable").

(** [k in v] for a string [k]: key of a dict, element of a list,
    substring of a string; [TypeError] on anything else. *)
Definition contains (k : string) (v : json) : pyexn + bool :=
  match v with
  | JObj fields => inr (has_key k fields)
  | JArr items => inr (existsb (eq_str k) items)
  | JStr s => inr (PyStr.contains k s)
  | _ => inl (TypeError_not_iterable v)
  end.

(** [v[k]] for a string [k]. *)
Definition getitem (k : string) (v : json) : pyexn + json :=
  match v with
  | JObj fields =>
      match lookup k fields with
      | Some x => inr x
      | None => inl (PyException ("'" ++ k ++ "'"))
      end
  | JArr _ =>
      inl (PyException "list indices must be integers or slices, not str")
  | JStr _ =>
      inl (PyException "string indices must be integers, not 'str'")
  | _ =>
      inl (PyException ("'" ++ type_name v ++ "' object is not subscriptable"))
  end.

(** The values [for x in v] visits: elements of a list, keys of a dict,
    characters of a string. *)
Definition iter (v : json) : pyexn + list json :=
  match v with
  | JArr items => inr items
  | JObj fields => inr (map (fun kv => JStr (fst kv)) fields)
  | JStr s =>
      inr (map (fun c => JStr (String c EmptyString)) (list_ascii_of_string s))
  | _ => inl (PyException ("'" ++ type_name v ++ "' object is not iterable"))
  end.

(** [v.get(k, default)]: only a dict has the method. *)
Definition get (k : string) (default : json) (v : json) : pyexn + json :=
  match v with
  | JObj fields => inr (dict_get k default fields)
  | _ =>
      inl (PyException ("'" ++ type_name v ++ "' object has no attribute 'get'"))
  end.

Definition hashable (v : json) : bool :=
  match v with
  | JArr _ | JObj _ => false
  | _ => true
  end.

(** [v in ids] for a set of strings: the value is hashed first, and a
    value that is not a string equals no member. *)
Definition in_str_set (v : json) (ids : list string) : pyexn + bool :=
  match v with
  | JStr s => inr (existsb (String.eqb s) ids)
  | JArr _ | JObj _ =>
      inl (PyException ("unhashable type: '" ++ type_name v ++ "'"))
  | _ => inr false
  end.

End Py.

(** ** ElementTree *)
Inductive element : Type :=
| Element (tag : string) (attrib : list (string * string))
          (text : option string) (children : list element).

Module ET.

Definition tag (e : element) : string :=
  match e with Element t _ _ _ => t end.
Definition attrib (e : element) : list (string * string) :=
  match e with Element _ a _ _ => a end.
Definition text (e : element) : option string :=
  match e with Element _ _ x _ => x end.
Definition children (e : element) : list element :=
  match e with Element _ _ _ c => c end.

(** [e.get(name)] *)
Fixpoint assoc (name : string) (a : list (string * string)) : option string :=
  match a with
  | [] => None
  | (k, v) :: rest => if k =? name then Some v else assoc name rest
  end.

Definition get (name : string) (e : element) : option string :=
  assoc name (attrib e).

(** [name in e.attrib] *)
Definition has_attr (name : string) (e : element) : bool :=
  match get name e with Some _ => true | None => false end.

(** [e.find(t)] for a path that is one tag: the first child so tagged. *)
Definition find (t : string) (e : element) : option element :=
  List.find (fun c => tag c =? t) (children e).

(** [e.iter()]: the element and its descendants in document order. *)
Fixpoint iter (e : element) : list element :=
  match e with
  | Element _ _ _ cs =>
      e :: (fix go (l : list element) : list element :=
              match l with
              | [] => []
              | c :: l' => iter c ++ go l'
              end) cs
  end.

(** [e.findall('.//' + t)]: every proper descendant tagged [t], in
    document order. *)
Definition findall_descendants (t : string) (e : element) : list element :=
  filter (fun d => tag d =? t) (flat_map iter (children e)).

End ET.

(** ** The validator's surroundings

    What a run reads from outside the class: the file named by
    [svg_path], the schema file, and the library functions it calls.  A
    run is a function of these. *)
Inductive parse_result : Type :=
| ParseOk (document_root : element)
| ParseError (e : string)
| FileNotFoundError
| ParseOtherException (e : string).

Inductive loads_result : Type :=
| Decoded (v : json)
| JSONDecodeError (e : string)
| LoadsOtherException (e : string).

Inductive schema_verdict : Type :=
| SchemaConforms
| SchemaValidationError (message : string)
| SchemaOtherException (e : string).

Record env : Type := mkEnv {
  svg_path : string;                 (* [str(self.svg_path)] *)
  ET_parse : parse_result;           (* [ET.parse(self.svg_path)] *)
  json_loads : string -> loads_result;
  repr : json -> string;             (* [repr(v)] of a decoded value *)
  JSONSCHEMA_AVAILABLE : bool;
  schema_path : string;              (* [str(self.schema_path)] *)
  schema_path_exists : bool;         (* [self.schema_path.exists()] *)
  schema_load : string + json;       (* [open] and [json.load]; [inl (str e)] *)
  jsonschema_validate : json -> json -> schema_verdict
}.

(** ** The validator object and its methods *)
Record validator : Type := mkValidator {
  tree : option element;
  root : option element;
  metadata : json;                   (* [JNull] is Python's [None] *)
  errors : list string;
  warnings : list string
}.

(** The object as [__init__] leaves it. *)
Definition init : validator := mkValidator None None JNull [] [].

Inductive outcome (A : Type) : Type :=
| Return (a : A)
| Raise (e : pyexn).
Arguments Return {A} a.
Arguments Raise {A} e.

(** A method body: it may change the object, and it returns or raises;
    what it appended before raising stays appended. *)
Definition M (A : Type) : Type := validator -> outcome A * validator.

Definition ret {A} (a : A) : M A := fun s => (Return a, s).

Definition bind {A B} (m : M A) (f : A -> M B) : M B :=
  fun s => match m s with
           | (Return a, s') => f a s'
           | (Raise e, s') => (Raise e, s')
           end.

Definition raise {A} (e : pyexn) : M A := fun s => (Raise e, s).

Declare Scope py_scope.
Delimit Scope py_scope with py.
Notation "x <- c ;; k" := (bind c (fun x => k))
  (at level 61, c at next level, right associativity) : py_scope.
Notation "c ;; k" := (bind c (fun _ => k))
  (at level 61, right associativity) : py_scope.
Local Open Scope py_scope.

Definition lift {A} (r : pyexn + A) : M A :=
  match r with
  | inl e => raise e
  | inr a => ret a
  end.

Definition errors_append (msg : string) : M unit :=
  fun s => (Return tt,
            mkValidator (tree s) (root s) (metadata s)
                        (errors s ++ [msg]) (warnings s)).

Definition warnings_append (msg : string) : M unit :=
  fun s => (Return tt,
            mkValidator (tree s) (root s) (metadata s)
                        (errors s) (warnings s ++ [msg])).

Definition set_tree_and_root (t : element) : M unit :=
  fun s => (Return tt,
            mkValidator (Some t) (Some t) (metadata s) (errors s) (warnings s)).

Definition set_metadata (v : json) : M unit :=
  fun s => (Return tt,
            mkValidator (tree s) (root s) v (errors s) (warnings s)).

Definition self_metadata : M json := fun s => (Return (metadata s), s).

(** [self.root.<attr>]: an [AttributeError] while [self.root] is [None]. *)
Definition self_root (attr : string) : M element :=
  fun s => match root s with
           | Some r => (Return r, s)
           | None =>
               (Raise (PyException
                  ("'NoneType' object has no attribute '" ++ attr ++ "'")), s)
           end.

Definition when (b : bool) (m : M unit) : M unit :=
  if b then m else ret tt.

(** [for x in l: body] *)
Fixpoint for_each {A} (body : A -> M unit) (l : list A) : M unit :=
  match l with
  | [] => ret tt
  | x :: l' => body x ;; for_each body l'
  end.

(** [for i, x in enumerate(l): body], counting from [i]. *)
Fixpoint for_enumerate {A} (body : nat -> A -> M unit) (i : nat) (l : list A)
  : M unit :=
  match l with
  | [] => ret tt
  | x :: l' => body i x ;; for_enumerate body (S i) l'
  end.

Definition NS_svg : string := "http://www.w3.org/2000/svg".

(** The tag a path [svg:<local>] resolves to under [NS]. *)
Definition svg (local : string) : string := "{" ++ NS_svg ++ "}" ++ local.

(** [e.find('svg:x', NS)], and [e.find('x')] when that is [None]. *)
Definition find_svg_or_plain (local : string) (e : element) : option element :=
  match ET.find (svg local) e with
  | Some x => Some x
  | None => ET.find local e
  end.

(** [root.findall('.//svg:g', NS)], and [root.findall('.//g')] when that
    list is empty. *)
Definition find_groups (r : element) : list element :=
  match ET.findall_descendants (svg "g") r with
  | [] => ET.findall_descendants "g" r
  | groups => groups
  end.

(** [expected_value and actual_value != expected_value] *)
Definition differs_from_expected (expected : option string) (actual : string)
  : bool :=
  match expected with
  | None => false
  | Some ev => negb (ev =? "") && negb (actual =? ev)
  end.

Section Methods.

Variable E : env.

(** [str(v)], as an f-string formats a decoded value. *)
Definition str (v : json) : string :=
  match v with
  | JStr s => s
  | _ => repr E v
  end.

Definition _parse_svg : M unit :=
  match ET_parse E with
  | ParseOk t => set_tree_and_root t
  | ParseError e => raise (ValidationError ("XML parsing error: " ++ e))
  | FileNotFoundError =>
      raise (ValidationError ("File not found: " ++ svg_path E))
  | ParseOtherException e => raise (PyException e)
  end ;;
  r <- self_root "tag" ;;
  if negb (ET.tag r =? svg "svg") && negb (ET.tag r =? "svg")
  then raise (ValidationError
                ("Root element must be <svg>, found: " ++ ET.tag r))
  else ret tt.

Definition _check_root_attributes : M unit :=
  let required_attrs := [("role", Some "img"); ("aria-labelledby", None)] in
  r <- self_root "get" ;;
  for_each
    (fun '(attr, expected_value) =>
       match ET.get attr r with
       | None =>
           errors_append ("Missing required attribute on <svg>: " ++ attr)
       | Some actual_value =>
           when (differs_from_expected expected_value actual_value)
             (errors_append
                ("Incorrect value for <svg> attribute '" ++ attr ++ "': "
                 ++ "expected '" ++ PyStr.of_option expected_value
                 ++ "', found '" ++ actual_value ++ "'"))
       end)
    required_attrs ;;
  when (negb (ET.has_attr "xmlns" r))
    (when (negb (PyStr.contains NS_svg (ET.tag r)))
       (warnings_append "SVG namespace not explicitly declared")).

Definition _check_title_and_desc : M unit :=
  r <- self_root "find" ;;
  let title := find_svg_or_plain "title" r in
  let desc := find_svg_or_plain "desc" r in
  match title with
  | None => errors_append "Missing required <title> element"
  | Some title =>
      when (PyStr.blank (ET.text title))
        (errors_append "<title> element is empty") ;;
      when (negb (PyStr.truthy (ET.get "id" title)))
        (warnings_append "<title> should have an 'id' attribute")
  end ;;
  match desc with
  | None => errors_append "Missing required <desc> element"
  | Some desc =>
      when (PyStr.blank (ET.text desc))
        (errors_append "<desc> element is empty") ;;
      when (negb (PyStr.truthy (ET.get "id" desc)))
        (warnings_append "<desc> should have an 'id' attribute")
  end.

Definition _validate_metadata_basic : M unit :=
  let required_fields :=
    ["version"; "utterance"; "nsm"; "concepts"; "provenance"] in
  for_each
    (fun field =>
       m <- self_metadata ;;
       present <- lift (Py.contains field m) ;;
       when (negb present)
         (errors_append ("Missing required metadata field: " ++ field)))
    required_fields ;;
  m <- self_metadata ;;
  has_concepts <- lift (Py.contains "concepts" m) ;;
  when has_concepts
    (concepts <- lift (Py.getitem "concepts" m) ;;
     match concepts with
     | JArr [] => errors_append "metadata.concepts array is empty"
     | JArr items =>
         for_enumerate
           (fun i concept =>
              if negb (Py.isinstance_dict concept)
              then errors_append
                     ("metadata.concepts[" ++ PyStr.of_nat i
                      ++ "] must be an object")
              else
                for_each
                  (fun req_field =>
                     present <- lift (Py.contains req_field concept) ;;
                     when (negb present)
                       (errors_append
                          ("Missing required field '" ++ req_field
                           ++ "' in metadata.concepts[" ++ PyStr.of_nat i
                           ++ "]")))
                  ["role"; "label"] ;;
                is_implicit <- lift (Py.get "implicit" (JBool false) concept) ;;
                has_id <- lift (Py.contains "id" concept) ;;
                when (negb (Py.truthy is_implicit) && negb has_id)
                  (role <- lift (Py.get "role" (JStr "unknown") concept) ;;
                   errors_append
                     ("Missing required field 'id' in metadata.concepts["
                      ++ PyStr.of_nat i ++ "] (role: " ++ str role ++ "). "
                      ++ "Explicit concepts must have an 'id' field.")))
           0 items
     | _ => errors_append "metadata.concepts must be an array"
     end).

Definition _validate_metadata_schema : M unit :=
  if negb (schema_path_exists E)
  then warnings_append ("Schema file not found: " ++ schema_path E) ;;
       _validate_metadata_basic
  else
    match schema_load E with
    | inl e =>
        warnings_append ("Could not load schema: " ++ e) ;;
        _validate_metadata_basic
    | inr schema =>
        m <- self_metadata ;;
        match jsonschema_validate E m schema with
        | SchemaConforms => ret tt
        | SchemaValidationError message =>
            errors_append ("Metadata schema validation error: " ++ message)
        | SchemaOtherException e =>
            errors_append ("Metadata validation error: " ++ e)
        end
    end.

Definition _extract_and_validate_metadata : M unit :=
  r <- self_root "find" ;;
  match find_svg_or_plain "metadata" r with
  | None => raise (ValidationError "Missing required <metadata> element")
  | Some metadata_elem =>
      let metadata_id := ET.get "id" metadata_elem in
      when (negb (PyStr.eq_opt metadata_id "mf-accessibility"))
        (warnings_append
           ("<metadata> id should be 'mf-accessibility', found: "
            ++ PyStr.of_option metadata_id)) ;;
      match ET.text metadata_elem with
      | None => raise (ValidationError "<metadata> element is empty")
      | Some metadata_text =>
          if PyStr.strip_is_empty metadata_text
          then raise (ValidationError "<metadata> element is empty")
          else
            match json_loads E metadata_text with
            | Decoded v => set_metadata v
            | JSONDecodeError e =>
                raise (ValidationError ("Invalid JSON in <metadata>: " ++ e))
            | LoadsOtherException e => raise (PyException e)
            end ;;
            if JSONSCHEMA_AVAILABLE E
            then _validate_metadata_schema
            else
              warnings_append
                "Skipping JSON schema validation (jsonschema not installed)" ;;
              _validate_metadata_basic
      end
  end.

Definition _check_embedded_stylesheet : M unit :=
  r <- self_root "find" ;;
  match find_svg_or_plain "defs" r with
  | None =>
      warnings_append
        "No <defs> element found; embedded stylesheet recommended"
  | Some defs =>
      match find_svg_or_plain "style" defs with
      | None =>
          warnings_append
            "No <style> element in <defs>; embedded stylesheet recommended"
      | Some style =>
          let style_text :=
            match ET.text style with Some t => t | None => "" end in
          for_each
            (fun cls =>
               when (negb (PyStr.contains cls style_text))
                 (warnings_append
                    ("Embedded stylesheet should define class '" ++ cls ++ "'")))
            [".f"; ".k"] ;;
          when (negb (PyStr.contains "@media (prefers-contrast: high)"
                                     style_text))
            (warnings_append
               "Embedded stylesheet should include '@media (prefers-contrast: high)'") ;;
          when (negb (PyStr.contains "@media (forced-colors: active)"
                                     style_text))
            (warnings_append
               "Embedded stylesheet should include '@media (forced-colors: active)'")
      end
  end.

(** [group.get('id', f'(unnamed group {i})')] *)
Definition group_id_of (i : nat) (group : element) : string :=
  match ET.get "id" group with
  | Some x => x
  | None => "(unnamed group " ++ PyStr.of_nat i ++ ")"
  end.

(** One turn of the loop over the groups. *)
Definition check_group (i : nat) (group : element) : M unit :=
  let group_id := group_id_of i group in
  let data_concept := ET.get "data-concept" group in
  when (match data_concept with None => true | Some _ => false end)
    (when (PyStr.eq_opt (ET.get "role" group) "group")
       (warnings_append
          ("Group '" ++ group_id
           ++ "' has role='group' but no data-concept attribute"))) ;;
  when (PyStr.truthy data_concept)
    (let required_attrs :=
       [("role", Some "group"); ("tabindex", Some "0"); ("aria-label", None)] in
     for_each
       (fun '(attr, expected_value) =>
          match ET.get attr group with
          | None =>
              errors_append
                ("Semantic group '" ++ group_id
                 ++ "' missing required attribute: " ++ attr)
          | Some actual_value =>
              when (differs_from_expected expected_value actual_value)
                (errors_append
                   ("Semantic group '" ++ group_id ++ "' attribute '" ++ attr
                    ++ "': " ++ "expected '" ++ PyStr.of_option expected_value
                    ++ "', found '" ++ actual_value ++ "'"))
          end)
       required_attrs).

Definition _check_semantic_groups : M unit :=
  r <- self_root "findall" ;;
  match find_groups r with
  | [] =>
      warnings_append "No <g> elements found; semantic grouping recommended"
  | groups => for_enumerate check_group 0 groups
  end.

(** [{g.get('id') for g in groups if g.get('id')}]; only membership in
    the set is ever asked. *)
Definition group_ids_of (groups : list element) : list string :=
  flat_map
    (fun g => match ET.get "id" g with
              | Some x => if x =? "" then [] else [x]
              | None => []
              end)
    groups.

(** One turn of the loop over the concepts. *)
Definition check_concept (group_ids : list string) (concept : json) : M unit :=
  concept_id <- lift (Py.get "id" JNull concept) ;;
  is_implicit <- lift (Py.get "implicit" (JBool false) concept) ;;
  if Py.truthy is_implicit
  then
    when (Py.truthy concept_id)
      (warnings_append
         ("Concept '" ++ str concept_id
          ++ "' is marked as implicit but has an 'id' field. "
          ++ "Implicit concepts typically don't have corresponding SVG groups."))
  else if negb (Py.truthy concept_id)
  then
    role <- lift (Py.get "role" (JStr "unknown") concept) ;;
    errors_append
      ("Concept with role '" ++ str role
       ++ "' is not marked as implicit but has no 'id' field")
  else
    present <- lift (Py.in_str_set concept_id group_ids) ;;
    when (negb present)
      (errors_append
         ("Metadata concept '" ++ str concept_id
          ++ "' has no corresponding <g> element in the SVG")).

Definition _check_concept_group_correspondence : M unit :=
  m <- self_metadata ;;
  if negb (Py.truthy m) then ret tt
  else
    has_concepts <- lift (Py.contains "concepts" m) ;;
    if negb has_concepts then ret tt
    else
      r <- self_root "findall" ;;
      let group_ids := group_ids_of (find_groups r) in
      concepts <- lift (Py.getitem "concepts" m) ;;
      items <- lift (Py.iter concepts) ;;
      for_each (check_concept group_ids) items.

(** The body of the [try] in [validate]. *)
Definition validate_body : M unit :=
  _parse_svg ;;
  _check_root_attributes ;;
  _check_title_and_desc ;;
  _extract_and_validate_metadata ;;
  _check_embedded_stylesheet ;;
  _check_semantic_groups ;;
  _check_concept_group_correspondence.

(** The two [except] clauses. *)
Definition handle (e : pyexn) : M unit :=
  match e with
  | ValidationError msg => errors_append msg
  | PyException msg => errors_append ("Unexpected error: " ++ msg)
  end.

Definition result : Type := bool * list string * list string.

(** [validate]: the returned triple and the object the run leaves. *)
Definition validate (self : validator) : result * validator :=
  let s0 := mkValidator (tree self) (root self) (metadata self) [] [] in
  let s1 :=
    match validate_body s0 with
    | (Return _, s) => s
    | (Raise e, s) => snd (handle e s)
    end in
  let is_valid := (length (errors s1) =? 0)%nat in
  ((is_valid, errors s1, warnings s1), s1).

End Methods.

(** ** Reading a run

    Notions used to state what a run does: the findings a method adds to
    the object, and the parts of the input that decide the path taken. *)

Definition is_valid_of (res : result) : bool := fst (fst res).
Definition errors_of (res : result) : list string := snd (fst res).
Definition warnings_of (res : result) : list string := snd res.

(** The object with [es] and [ws] appended to its two lists. *)
Definition add_findings (es ws : list string) (s : validator) : validator :=
  mkValidator (tree s) (root s) (metadata s) (errors s ++ es) (warnings s ++ ws).

Definition with_metadata (v : json) (s : validator) : validator :=
  mkValidator (tree s) (root s) v (errors s) (warnings s).

(** The object once [_parse_svg] has stored the tree [t]. *)
Definition loaded (t : element) (s : validator) : validator :=
  mkValidator (Some t) (Some t) (metadata s) (errors s) (warnings s).

(** The object at the start of a run: both lists rebound to [[]]. *)
Definition fresh (self : validator) : validator :=
  mkValidator (tree self) (root self) (metadata self) [] [].

(** The root test of [_parse_svg]. *)
Definition is_svg_root (r : element) : bool :=
  (ET.tag r =? svg "svg") || (ET.tag r =? "svg").

(** The warning [_extract_and_validate_metadata] gives for the id of the
    metadata element, if any. *)
Definition metadata_id_warning (metadata_elem : element) : list string :=
  if PyStr.eq_opt (ET.get "id" metadata_elem) "mf-accessibility" then []
  else [("<metadata> id should be 'mf-accessibility', found: "
         ++ PyStr.of_option (ET.get "id" metadata_elem))%string].

(** What [handle] appends for an exception. *)
Definition exn_entry (e : pyexn) : string :=
  match e with
  | ValidationError msg => msg
  | PyException msg => "Unexpected error: " ++ msg
  end.

(** A method that, on every object with property [P], returns [a] and
    appends [es] and [ws], whatever else the object holds. *)
Definition emits_on {A} (P : validator -> Prop) (m : M A) (a : A)
           (es ws : list string) : Prop :=
  forall s, P s -> m s = (Return a, add_findings es ws s).

Definition safe_on {A} (P : validator -> Prop) (m : M A) : Prop :=
  exists a es ws, emits_on P m a es ws.

(** A property of the object that appending findings does not change. *)
Definition stable (P : validator -> Prop) : Prop :=
  forall es ws s, P s -> P (add_findings es ws s).

Definition has_root (r : element) (s : validator) : Prop := root s = Some r.

Definition has_metadata (v : json) (s : validator) : Prop := metadata s = v.

Abbreviation emits r := (emits_on (has_root r)).
Abbreviation safe r := (safe_on (has_root r)).

(** A method that changes the object by appending only, whether it returns
    or raises. *)
Definition appends {A} (m : M A) : Prop :=
  forall s, exists es ws, snd (m s) = add_findings es ws s.

(** No document: the file does not parse, or its root is not [svg]. *)
Definition no_document (E : env) : Prop :=
  match ET_parse E with
  | ParseOk t => is_svg_root t = false
  | _ => True
  end.

(** The exception [_parse_svg] raises when there is no document. *)
Definition no_document_exn (E : env) : pyexn :=
  match ET_parse E with
  | ParseOk t =>
      ValidationError ("Root element must be <svg>, found: " ++ ET.tag t)
  | ParseError e => ValidationError ("XML parsing error: " ++ e)
  | FileNotFoundError => ValidationError ("File not found: " ++ svg_path E)
  | ParseOtherException e => PyException e
  end.

(** The strategy chosen once the metadata is decoded. *)
Definition schema_stage (E : env) : M unit :=
  if JSONSCHEMA_AVAILABLE E
  then _validate_metadata_schema E
  else
    warnings_append
      "Skipping JSON schema validation (jsonschema not installed)" ;;
    _validate_metadata_basic E.

(** What [_check_root_attributes] and [_check_title_and_desc] add for a
    document with root [r]. *)
Definition root_and_title_findings (r : element) : validator :=
  snd ((_check_root_attributes ;; _check_title_and_desc)
         (mkValidator (Some r) (Some r) JNull [] [])).

Definition after_metadata (E : env) : M unit :=
  _check_embedded_stylesheet ;;
  _check_semantic_groups ;;
  _check_concept_group_correspondence E.

(** The object when the run reaches the metadata step. *)
Definition at_metadata (r : element) (s0 : validator) : validator :=
  add_findings (errors (root_and_title_findings r))
               (warnings (root_and_title_findings r)) (loaded r s0).

(** The three ways in which the metadata stops the run, with the error
    raised and the warning given before it. *)
Inductive metadata_fatal (E : env) (r : element) : string -> list string -> Prop :=
| metadata_absent :
    find_svg_or_plain "metadata" r = None ->
    metadata_fatal E r "Missing required <metadata> element" []
| metadata_empty el :
    find_svg_or_plain "metadata" r = Some el ->
    PyStr.blank (ET.text el) = true ->
    metadata_fatal E r "<metadata> element is empty" (metadata_id_warning el)
| metadata_undecodable el t e :
    find_svg_or_plain "metadata" r = Some el ->
    ET.text el = Some t -> PyStr.strip_is_empty t = false ->
    json_loads E t = JSONDecodeError e ->
    metadata_fatal E r ("Invalid JSON in <metadata>: " ++ e)
                   (metadata_id_warning el).

(** The second object is the first with entries appended to its lists
    and, possibly, other metadata. *)
Definition grows (s s' : validator) : Prop :=
  tree s' = tree s /\ root s' = root s
  /\ (exists es, errors s' = errors s ++ es)
  /\ (exists ws, warnings s' = warnings s ++ ws).

Definition growing {A} (m : M A) : Prop := forall s, grows s (snd (m s)).

(** Two ends of the [try] that [validate] cannot tell apart: the same
    outcome and the same two lists. *)
Definition same_report (x y : outcome unit * validator) : Prop :=
  fst x = fst y
  /\ errors (snd x) = errors (snd y)
  /\ warnings (snd x) = warnings (snd y).

(** The entries the correspondence loop visits when the metadata is an
    object whose [concepts] is an array. *)
Definition concepts_of (m : json) : list json :=
  match m with
  | JObj fields =>
      match Py.lookup "concepts" fields with
      | Some (JArr items) => items
      | _ => []
      end
  | _ => []
  end.

(** An entry of [concepts] shaped as the data model has it: an object
    whose [id], if it has one, is not itself an array or an object. *)
Definition concept_record (c : json) : bool :=
  match c with
  | JObj cf => Py.hashable (Py.dict_get "id" JNull cf)
  | _ => false
  end.

(** ** Sample documents and surroundings *)
Module Samples.

Definition dq : string := String (ascii_of_nat 34) EmptyString.

(** A JSON string literal without escapes. *)
Definition q (s : string) : string := dq ++ s ++ dq.

Definition title_el : element :=
  Element (svg "title") [("id", "title")] (Some "Bed") [].

Definition desc_el : element :=
  Element (svg "desc") [("id", "desc")] (Some "A bed") [].

Definition metadata_el (payload : string) : element :=
  Element (svg "metadata") [("id", "mf-accessibility")] (Some payload) [].

Definition group (attrs : list (string * string)) : element :=
  Element (svg "g") attrs None [].

Definition bed_group : element :=
  group [("id", "bed"); ("data-concept", "bed"); ("role", "group");
         ("tabindex", "0"); ("aria-label", "bed")].

(** A document whose root, title and description meet every rule. *)
Definition document (rest : list element) : element :=
  Element (svg "svg") [("role", "img"); ("aria-labelledby", "title desc")]
          None (title_el :: desc_el :: rest).

(** [json.loads] on the payloads of the samples. *)
Fixpoint loads (table : list (string * loads_result)) (payload : string)
  : loads_result :=
  match table with
  | [] => LoadsOtherException "payload outside the samples"
  | (t, res) :: rest => if t =? payload then res else loads rest payload
  end.

(** Surroundings in which the schema file holds the schema [{}], which
    every instance satisfies. *)
Definition surroundings (parse : parse_result)
           (table : list (string * loads_result)) (available : bool) : env :=
  mkEnv "pictogram.svg" parse (loads table) (fun _ => "<repr>") available
        "schemas/metadata.schema.json" true (inr (JObj []))
        (fun _ _ => SchemaConforms).

Definition not_json : string * loads_result :=
  ("not json", JSONDecodeError "Expecting value: line 1 column 1 (char 0)").

(** No metadata element, no [defs], and a group without [aria-label]. *)
Definition no_metadata_doc : element :=
  document [group [("id", "foo"); ("data-concept", "foo"); ("role", "group");
                   ("tabindex", "0")]].

Definition no_metadata_env : env := surroundings (ParseOk no_metadata_doc) [] true.

Definition bad_json_doc : element := document [metadata_el "not json"; bed_group].

Definition bad_json_env : env := surroundings (ParseOk bad_json_doc) [not_json] true.

Definition missing_file_env : env := surroundings FileNotFoundError [] true.

End Samples.

(** *** Samples with decodable metadata *)
Module Decodable.
Import Samples.

Definition bed_payload : string :=
  "{" ++ q "version" ++ ": " ++ q "1.0.0" ++ ", "
  ++ q "utterance" ++ ": " ++ q "bed" ++ ", "
  ++ q "nsm" ++ ": {}, "
  ++ q "concepts" ++ ": [{" ++ q "role" ++ ": " ++ q "theme" ++ ", "
  ++ q "label" ++ ": " ++ q "bed" ++ ", " ++ q "id" ++ ": " ++ q "bed" ++ "}], "
  ++ q "provenance" ++ ": {}}".

Definition bed_metadata : json :=
  JObj [("version", JStr "1.0.0"); ("utterance", JStr "bed"); ("nsm", JObj []);
        ("concepts",
         JArr [JObj [("role", JStr "theme"); ("label", JStr "bed");
                     ("id", JStr "bed")]]);
        ("provenance", JObj [])].

Definition bed : string * loads_result := (bed_payload, Decoded bed_metadata).

(** The group of the concept, with an [aria-label] that is empty. *)
Definition empty_label_group : element :=
  group [("id", "bed"); ("data-concept", "bed"); ("role", "group");
         ("tabindex", "0"); ("aria-label", "")].

Definition empty_label_doc : element :=
  document [metadata_el bed_payload; empty_label_group].

Definition empty_label_env : env :=
  surroundings (ParseOk empty_label_doc) [bed] true.

(** A group without id that fails all three requirements, next to the
    group of the concept. *)
Definition incomplete_group : element :=
  group [("data-concept", "pillow"); ("role", "presentation")].

Definition incomplete_doc : element :=
  document [metadata_el bed_payload; incomplete_group; bed_group].

Definition incomplete_env : env :=
  surroundings (ParseOk incomplete_doc) [bed] true.

(** A group whose [data-concept] is the empty string, with neither
    [tabindex] nor [aria-label]. *)
Definition untagged_group : element :=
  group [("id", "frame"); ("data-concept", ""); ("role", "group")].

Definition untagged_doc : element :=
  document [metadata_el bed_payload; bed_group; untagged_group].

Definition untagged_env : env :=
  surroundings (ParseOk untagged_doc) [bed] true.

End Decodable.

(** *** Samples for the basic strategy *)
Module Basic.
Import Samples.

(** The payload [{}] decodes to the empty object. *)
Definition empty_object : string * loads_result := ("{}", Decoded (JObj [])).

Definition empty_object_doc : element := document [metadata_el "{}"; bed_group].

(** [jsonschema] is not installed. *)
Definition empty_object_env : env :=
  surroundings (ParseOk empty_object_doc) [empty_object] false.

End Basic.

(** *** Samples for the correspondence check *)
Module Concepts.
Import Samples.

Definition field (k v : string) : string := q k ++ ": " ++ v.

Definition payload_with (concepts : string) : string :=
  "{" ++ field "version" (q "1.0.0") ++ ", " ++ field "utterance" (q "sleep")
  ++ ", " ++ field "nsm" "{}" ++ ", " ++ field "concepts" ("[" ++ concepts ++ "]")
  ++ ", " ++ field "provenance" "{}" ++ "}".

Definition metadata_with (concepts : list json) : json :=
  JObj [("version", JStr "1.0.0"); ("utterance", JStr "sleep");
        ("nsm", JObj []); ("concepts", JArr concepts); ("provenance", JObj [])].

(** [{"role": "theme", "label": "bed", "id": "bed"}] *)
Definition bed_text : string :=
  "{" ++ field "role" (q "theme") ++ ", " ++ field "label" (q "bed") ++ ", "
  ++ field "id" (q "bed") ++ "}".
Definition bed_fields : list (string * json) :=
  [("role", JStr "theme"); ("label", JStr "bed"); ("id", JStr "bed")].

(** [{"role": "agent", "label": "sleeper", "implicit": true, "id": "sleeper"}] *)
Definition sleeper_text : string :=
  "{" ++ field "role" (q "agent") ++ ", " ++ field "label" (q "sleeper") ++ ", "
  ++ field "implicit" "true" ++ ", " ++ field "id" (q "sleeper") ++ "}".
Definition sleeper_fields : list (string * json) :=
  [("role", JStr "agent"); ("label", JStr "sleeper"); ("implicit", JBool true);
   ("id", JStr "sleeper")].


(** [{"role": "instrument", "label": "pillow", "id": "pillow"}] *)
Definition pillow_text : string :=
  "{" ++ field "role" (q "instrument") ++ ", " ++ field "label" (q "pillow")
  ++ ", " ++ field "id" (q "pillow") ++ "}".
Definition pillow_fields : list (string * json) :=
  [("role", JStr "instrument"); ("label", JStr "pillow"); ("id", JStr "pillow")].

(** A document with the bed group only, and the given concepts. *)
Definition doc_with (concepts : string) : element :=
  document [metadata_el (payload_with concepts); bed_group].

Definition env_with (concepts : string) (decoded : list json) (available : bool)
  : env :=
  surroundings (ParseOk (doc_with concepts))
               [(payload_with concepts, Decoded (metadata_with decoded))]
               available.


(** The first two of them only. *)
Definition stray_text : string := bed_text ++ ", " ++ sleeper_text.
Definition stray : list json := [JObj bed_fields; JObj sleeper_fields].
Definition stray_env : env := env_with stray_text stray true.

(** An explicit concept whose id no group carries. *)
Definition unmatched_text : string := bed_text ++ ", " ++ pillow_text.
Definition unmatched : list json := [JObj bed_fields; JObj pillow_fields].
Definition unmatched_env : env := env_with unmatched_text unmatched true.

Definition bed_only_env : env := env_with bed_text [JObj bed_fields] true.

End Concepts.

(** *** Samples for the checks on title, description and stylesheet *)
Module Structure.
Import Samples.

(** A document without title. *)
Definition untitled_doc : element :=
  Element (svg "svg") [("role", "img"); ("aria-labelledby", "title desc")]
          None [desc_el; bed_group].

Definition style_text : string :=
  ".f { fill: #000; } .k { stroke: #000; } "
  ++ "@media (prefers-contrast: high) { .k { stroke-width: 3; } } "
  ++ "@media (forced-colors: active) { .f { fill: CanvasText; } }".

Definition defs_el (text : string) : element :=
  Element (svg "defs") [] None [Element (svg "style") [] (Some text) []].

(** A document with the recommended stylesheet. *)
Definition styled_doc : element := document [defs_el style_text; bed_group].

End Structure.

(** A group that the semantic-group check accepts: it has no
    [data-concept], or an empty one, or it has the three attributes. *)
Definition group_complete (g : element) : Prop :=
  PyStr.truthy (ET.get "data-concept" g) = false
  \/ (ET.get "role" g = Some "group" /\ ET.get "tabindex" g = Some "0"
      /\ ET.get "aria-label" g <> None).

(** *** A sample that mixes namespaced and plain groups *)
Module Mixed.
Import Samples.

(** A plain [g] with a [data-concept] and nothing else. *)
Definition plain_group : element :=
  Element "g" [("id", "pillow"); ("data-concept", "pillow")] None [].

Definition mixed_doc : element :=
  document [metadata_el Decodable.bed_payload; bed_group; plain_group].

End Mixed.

(** A method that, on every object with property [P], ends with outcome
    [o], having appended [es] and [ws]. *)
Definition yields_on {A} (P : validator -> Prop) (m : M A) (o : outcome A)
           (es ws : list string) : Prop :=
  forall s, P s -> m s = (o, add_findings es ws s).

(** The object holds the document with root [r] and the decoded
    metadata [m]. *)
Definition has_doc (r : element) (m : json) (s : validator) : Prop :=
  root s = Some r /\ metadata s = m.

(** A concept the correspondence check accepts: an object that is
    implicit, or whose id is a non-empty string among the group ids. *)
Definition concept_passes (ids : list string) (c : json) : Prop :=
  exists cf,
    c = JObj cf
    /\ (Py.truthy (Py.dict_get "implicit" (JBool false) cf) = true
        \/ exists x, Py.lookup "id" cf = Some (JStr x) /\ x <> "" /\ In x ids).

(** Decoded metadata the correspondence check accepts: it is falsy, or
    does not hold ["concepts"], or what it holds under that key can be
    iterated and every entry is accepted. *)
Definition concepts_pass (ids : list string) (m : json) : Prop :=
  Py.truthy m = false
  \/ Py.contains "concepts" m = inr false
  \/ exists v items,
      Py.contains "concepts" m = inr true
      /\ Py.getitem "concepts" m = inr v
      /\ Py.iter v = inr items
      /\ Forall (concept_passes ids) items.

(** The root, the title and the description meet the required rules. *)
Definition head_complete (r : element) : Prop :=
  (ET.get "role" r = Some "img" /\ ET.get "aria-labelledby" r <> None)
  /\ (exists title, find_svg_or_plain "title" r = Some title
                    /\ PyStr.blank (ET.text title) = false)
  /\ (exists desc, find_svg_or_plain "desc" r = Some desc
                   /\ PyStr.blank (ET.text desc) = false).

(** The basic strategy is the one that runs: [jsonschema] is missing, or
    the schema file is, or it cannot be loaded. *)
Definition basic_in_force (E : env) : Prop :=
  JSONSCHEMA_AVAILABLE E = false
  \/ schema_path_exists E = false
  \/ exists e, schema_load E = inl e.


(** An entry of [concepts] the basic strategy accepts: an object with a
    role and a label, and with an id unless it is implicit. *)
Definition basic_concept_ok (c : json) : Prop :=
  exists cf,
    c = JObj cf
    /\ Py.has_key "role" cf = true /\ Py.has_key "label" cf = true
    /\ (Py.truthy (Py.dict_get "implicit" (JBool false) cf) = true
        \/ Py.has_key "id" cf = true).

(** A metadata object the basic strategy accepts: the five fields are
    there, and [concepts] is a non-empty array of accepted entries. *)
Definition basic_accepts (fields : list (string * json)) : Prop :=
  Forall (fun field => Py.has_key field fields = true)
         ["version"; "utterance"; "nsm"; "concepts"; "provenance"]
  /\ exists c items,
      Py.lookup "concepts" fields = Some (JArr (c :: items))
      /\ Forall basic_concept_ok (c :: items).

(** *** A sample whose metadata is a number *)
Module Scalar.
Import Samples.




End Scalar.

(** *** Samples without a usable schema *)
Module Fallback.
Import Samples.

(** The bed pictogram where [jsonschema] is not installed. *)
Definition bed_env : env :=
  Concepts.env_with Concepts.bed_text [JObj Concepts.bed_fields] false.

(** The same where [jsonschema] is installed and the schema file is
    missing. *)
Definition missing_schema_env : env :=
  mkEnv "pictogram.svg" (ParseOk (Concepts.doc_with Concepts.bed_text))
        (loads [(Concepts.payload_with Concepts.bed_text,
                 Decoded (Concepts.metadata_with [JObj Concepts.bed_fields]))])
        (fun _ => "<repr>") true
        "schemas/metadata.schema.json" false
        (inl "[Errno 2] No such file or directory")
        (fun _ _ => SchemaConforms).

End Fallback.

(** ** The command line

    What the program prints is kept as the list of the calls to [print],
    each with the text it was given; [print()] gives the empty text. *)

(** [s * n] *)
Fixpoint times (s : string) (n : nat) : string :=
  match n with
  | O => ""
  | S n' => s ++ times s n'
  end.

Definition newline : string := String (ascii_of_nat 10) EmptyString.

(** The two status marks, U+2713 and U+2717, lie outside the code points
    of [ascii]; each is held as the three bytes of its UTF-8 form. *)
Definition check_mark : string :=
  String (ascii_of_nat 226)
    (String (ascii_of_nat 156) (String (ascii_of_nat 147) EmptyString)).

Definition ballot_x : string :=
  String (ascii_of_nat 226)
    (String (ascii_of_nat 156) (String (ascii_of_nat 151) EmptyString)).

(** Truth value of a list: [[]] is false. *)
Definition nonempty {A} (l : list A) : bool :=
  match l with
  | [] => false
  | _ => true
  end.

(** [for i, x in enumerate(items, start): print(f"  {i}. {x}")] *)
Fixpoint print_numbered (start : nat) (items : list string) : list string :=
  match items with
  | [] => []
  | x :: rest =>
      ("  " ++ PyStr.of_nat start ++ ". " ++ x)%string
      :: print_numbered (S start) rest
  end.

Definition print_results (svg_path : string) (is_valid : bool)
           (errors warnings : list string) : list string :=
  [(newline ++ times "=" 70)%string;
   "MediaFranca SVG Schema Validation Results";
   times "=" 70;
   ("File: " ++ svg_path)%string;
   ("Status: " ++ (if is_valid then check_mark ++ " VALID"
                   else ballot_x ++ " INVALID"))%string;
   (times "=" 70 ++ newline)%string]
  ++ (if nonempty errors
      then [("Errors (" ++ PyStr.of_nat (length errors) ++ "):")%string;
            times "-" 70]
           ++ print_numbered 1 errors ++ [""]
      else [])
  ++ (if nonempty warnings
      then [("Warnings (" ++ PyStr.of_nat (length warnings) ++ "):")%string;
            times "-" 70]
           ++ print_numbered 1 warnings ++ [""]
      else [])
  ++ (if negb (nonempty errors) && negb (nonempty warnings)
      then ["No errors or warnings. This SVG is fully conformant!"; ""]
      else []).

(** What [main] reads besides the surroundings of the validator: the
    answer of [args.svg_file.exists()], and the flag [--quiet].  The path
    of the file and the one given by [--schema] are those of the
    surroundings. *)
Record args : Type := mkArgs {
  svg_file_exists : bool;            (* [args.svg_file.exists()] *)
  quiet : bool                       (* [args.quiet] *)
}.

(** What a call of [main] leaves: the texts printed on the two streams
    and the value returned, which [sys.exit] makes the exit code. *)
Record process : Type := mkProcess {
  stdout : list string;
  stderr : list string;
  exit_code : Z
}.

(** [main], from the point where [parse_args] has returned.  The two
    lines the module prints when it is imported without [jsonschema] come
    before the call and are not part of what [main] prints. *)
Definition main (E : env) (a : args) : process :=
  if negb (svg_file_exists a)
  then mkProcess [] [("Error: File not found: " ++ svg_path E)%string] 2
  else
    let '(is_valid, errors, warnings) := fst (validate E init) in
    let warnings := if quiet a then [] else warnings in
    mkProcess (print_results (svg_path E) is_valid errors warnings) []
              (if is_valid then 0 else 1).

(** *** A sample call *)
Module Calls.

Definition loud : args := mkArgs true false.

Definition hushed : args := mkArgs true true.

End Calls.

(** *** A sample with a concept that is not an object *)
Module Stray.
Import Samples.

(** The bed concept followed by the number 7. *)
Definition number_text : string := Concepts.bed_text ++ ", 7".
Definition with_number : list json := [JObj Concepts.bed_fields; JInt 7].
Definition with_number_env : env :=
  Concepts.env_with number_text with_number true.

(** The number 7 followed by the pillow concept, which no group carries. *)
Definition number_first_text : string := "7, " ++ Concepts.pillow_text.
Definition number_first : list json := [JInt 7; JObj Concepts.pillow_fields].
Definition number_first_env : env :=
  Concepts.env_with number_first_text number_first true.


(** [{"role": "place", "label": "room", "id": ""}] *)
Definition empty_id_text : string :=
  "{" ++ Concepts.field "role" (q "place") ++ ", "
  ++ Concepts.field "label" (q "room") ++ ", "
  ++ Concepts.field "id" (q "") ++ "}".
Definition empty_id_fields : list (string * json) :=
  [("role", JStr "place"); ("label", JStr "room"); ("id", JStr "")].

(** The bed concept followed by the explicit concept with an empty id. *)
Definition empty_id_env : env :=
  Concepts.env_with (Concepts.bed_text ++ ", " ++ empty_id_text)
                    [JObj Concepts.bed_fields; JObj empty_id_fields] true.



End Stray.

(** ** General facts about methods *)

Lemma add_findings_nil s : add_findings [] [] s = s.
Proof. destruct s; unfold add_findings; simpl. now rewrite !app_nil_r. Qed.

Lemma add_findings_add es ws es' ws' s :
  add_findings es' ws' (add_findings es ws s)
  = add_findings (es ++ es') (ws ++ ws') s.
Proof. unfold add_findings; simpl. now rewrite !app_assoc. Qed.

Lemma errors_append_eq msg s :
  errors_append msg s = (Return tt, add_findings [msg] [] s).
Proof. unfold errors_append, add_findings. now rewrite app_nil_r. Qed.

Lemma warnings_append_eq msg s :
  warnings_append msg s = (Return tt, add_findings [] [msg] s).
Proof. unfold warnings_append, add_findings. now rewrite app_nil_r. Qed.

Section Safe.

Variable P : validator -> Prop.
Hypothesis P_stable : stable P.

Lemma safe_ret {A} (a : A) : safe_on P (ret a).
Proof.
  exists a, [], []. intros s _. unfold ret. now rewrite add_findings_nil.
Qed.

Lemma safe_bind {A B} (m : M A) (f : A -> M B) :
  safe_on P m -> (forall a, safe_on P (f a)) -> safe_on P (bind m f).
Proof.
  intros (a & es & ws & Hm) Hf.
  destruct (Hf a) as (b & es' & ws' & Hfa).
  exists b, (es ++ es'), (ws ++ ws'). intros s Hs.
  unfold bind. rewrite (Hm s Hs).
  rewrite (Hfa (add_findings es ws s) (P_stable es ws s Hs)).
  now rewrite add_findings_add.
Qed.

Lemma safe_bind_emits {A B} (m : M A) (f : A -> M B) a es ws :
  emits_on P m a es ws -> safe_on P (f a) -> safe_on P (bind m f).
Proof.
  intros Hm (b & es' & ws' & Hfa).
  exists b, (es ++ es'), (ws ++ ws'). intros s Hs.
  unfold bind. rewrite (Hm s Hs).
  rewrite (Hfa (add_findings es ws s) (P_stable es ws s Hs)).
  now rewrite add_findings_add.
Qed.

Lemma safe_errors_append msg : safe_on P (errors_append msg).
Proof. exists tt, [msg], []. intros s _. apply errors_append_eq. Qed.

Lemma safe_warnings_append msg : safe_on P (warnings_append msg).
Proof. exists tt, [], [msg]. intros s _. apply warnings_append_eq. Qed.

Lemma safe_lift {A} (a : A) : safe_on P (lift (inr a)).
Proof. apply safe_ret. Qed.

Lemma safe_self_root r attr :
  (forall s, P s -> root s = Some r) -> safe_on P (self_root attr).
Proof.
  intros HP. exists r, [], []. intros s Hs. unfold self_root.
  rewrite (HP s Hs). now rewrite add_findings_nil.
Qed.

Lemma safe_when b (m : M unit) : safe_on P m -> safe_on P (when b m).
Proof. destruct b; simpl; [trivial | intros _; apply safe_ret]. Qed.

Lemma safe_for_each {A} (body : A -> M unit) l :
  (forall x, In x l -> safe_on P (body x)) -> safe_on P (for_each body l).
Proof.
  induction l as [|x l IH]; intros Hbody; simpl.
  - apply safe_ret.
  - apply safe_bind; [apply Hbody; now left | intros _].
    apply IH. intros y Hy. apply Hbody. now right.
Qed.

Lemma safe_for_enumerate {A} (body : nat -> A -> M unit) l :
  (forall i x, In x l -> safe_on P (body i x)) ->
  forall i, safe_on P (for_enumerate body i l).
Proof.
  induction l as [|x l IH]; intros Hbody i; simpl.
  - apply safe_ret.
  - apply safe_bind; [apply Hbody; now left | intros _].
    apply IH. intros j y Hy. apply Hbody. now right.
Qed.

Lemma safe_appends_on {A} (m : M A) s :
  safe_on P m -> P s ->
  exists a es ws, m s = (Return a, add_findings es ws s).
Proof. intros (a & es & ws & H) Hs. exists a, es, ws. now apply H. Qed.

Lemma safe_keeps_error {A} (m : M A) s x :
  safe_on P m -> P s -> In x (errors s) -> In x (errors (snd (m s))).
Proof.
  intros Hm Hs Hx. destruct (safe_appends_on m s Hm Hs) as (a & es & ws & ->).
  apply in_or_app. now left.
Qed.

Lemma bind_emits {A B} (m : M A) (f : A -> M B) a es ws s :
  emits_on P m a es ws -> P s -> bind m f s = f a (add_findings es ws s).
Proof. intros Hm Hs. unfold bind. now rewrite (Hm s Hs). Qed.

(** An entry that one turn of a loop appends is in the list when the loop
    ends, provided no turn raises. *)
Lemma for_each_reports {A} (body : A -> M unit) l x msg :
  (forall y, In y l -> safe_on P (body y)) -> In x l ->
  (forall s, P s -> In msg (errors (snd (body x s)))) ->
  forall s, P s -> In msg (errors (snd (for_each body l s))).
Proof.
  induction l as [|y l IH]; intros Hsafe Hin Hx; [destruct Hin | ].
  intros s Hs. cbn [for_each]. unfold bind.
  destruct (safe_appends_on (body y) s (Hsafe y (or_introl eq_refl)) Hs)
    as ([] & es & ws & Hy).
  pose proof (Hx s Hs) as Hxs. rewrite Hy.
  assert (Hrest : safe_on P (for_each body l)).
  { apply safe_for_each. intros z Hz. apply Hsafe. now right. }
  destruct Hin as [-> | Hin].
  - rewrite Hy in Hxs. cbn [snd] in Hxs.
    apply safe_keeps_error; [exact Hrest | now apply P_stable | exact Hxs].
  - apply IH; [ | exact Hin | exact Hx | now apply P_stable].
    intros z Hz. apply Hsafe. now right.
Qed.

(** The same for a turn that is reached: the turns before it return, and
    the turns after it may raise. *)
Lemma for_each_reaches {A} (body : A -> M unit) before x after :
  (forall y, In y before -> safe_on P (body y)) ->
  forall s, P s ->
            exists s1,
              P s1
              /\ for_each body (before ++ x :: after) s
                 = bind (body x) (fun _ => for_each body after) s1.
Proof.
  induction before as [|y before IH]; intros Hsafe s Hs.
  - exists s. split; [exact Hs | reflexivity].
  - cbn [app for_each]. unfold bind at 1.
    destruct (safe_appends_on (body y) s (Hsafe y (or_introl eq_refl)) Hs)
      as ([] & es & ws & ->).
    apply IH; [ | now apply P_stable].
    intros z Hz. apply Hsafe. now right.
Qed.


Lemma for_enumerate_reports {A} (body : nat -> A -> M unit) l msg :
  (forall i y, safe_on P (body i y)) ->
  forall i x k,
    nth_error l i = Some x ->
    (forall s, P s -> In msg (errors (snd (body (k + i) x s)))) ->
    forall s, P s -> In msg (errors (snd (for_enumerate body k l s))).
Proof.
  intros Hsafe. induction l as [|y l IH]; intros i x k Hnth Hx s Hs.
  - now destruct i.
  - cbn [for_enumerate]. unfold bind.
    destruct (safe_appends_on (body k y) s (Hsafe k y) Hs)
      as ([] & es & ws & Hy).
    rewrite Hy. destruct i as [|i]; cbn [nth_error] in Hnth.
    + injection Hnth as ->. rewrite Nat.add_0_r in Hx.
      pose proof (Hx s Hs) as Hxs. rewrite Hy in Hxs. cbn [snd] in Hxs.
      apply safe_keeps_error; [ | now apply P_stable | exact Hxs].
      apply safe_for_enumerate. intros; apply Hsafe.
    + apply (IH i x (S k) Hnth); [ | now apply P_stable].
      intros s' Hs'. rewrite Nat.add_succ_comm. now apply Hx.
Qed.

End Safe.

Lemma stable_has_root r : stable (has_root r).
Proof. intros es ws s H. exact H. Qed.

Lemma stable_has_metadata v : stable (has_metadata v).
Proof. intros es ws s H. exact H. Qed.

Lemma emits_self_metadata v :
  emits_on (has_metadata v) self_metadata v [] [].
Proof.
  intros s Hs. unfold self_metadata. rewrite Hs. now rewrite add_findings_nil.
Qed.

Lemma safe_self_root_has_root r attr : safe r (self_root attr).
Proof. apply (safe_self_root _ r). now intros s Hs. Qed.

Lemma appends_ret {A} (a : A) : appends (ret a).
Proof. intros s. exists [], []. simpl. now rewrite add_findings_nil. Qed.

Lemma appends_raise {A} e : appends (@raise A e).
Proof. intros s. exists [], []. simpl. now rewrite add_findings_nil. Qed.

Lemma appends_lift {A} (x : pyexn + A) : appends (lift x).
Proof. destruct x; [apply appends_raise | apply appends_ret]. Qed.

Lemma appends_bind {A B} (m : M A) (f : A -> M B) :
  appends m -> (forall a, appends (f a)) -> appends (bind m f).
Proof.
  intros Hm Hf s. unfold bind.
  destruct (Hm s) as (es & ws & H1).
  destruct (m s) as [[a|e] s1]; simpl in H1; subst s1.
  - destruct (Hf a (add_findings es ws s)) as (es' & ws' & H2).
    exists (es ++ es'), (ws ++ ws'). rewrite H2. apply add_findings_add.
  - now exists es, ws.
Qed.

Lemma appends_errors_append msg : appends (errors_append msg).
Proof. intros s. exists [msg], []. now rewrite errors_append_eq. Qed.

Lemma appends_warnings_append msg : appends (warnings_append msg).
Proof. intros s. exists [], [msg]. now rewrite warnings_append_eq. Qed.

Lemma appends_self_root attr : appends (self_root attr).
Proof.
  intros s. exists [], []. unfold self_root.
  destruct (root s); simpl; now rewrite add_findings_nil.
Qed.

Lemma appends_self_metadata : appends self_metadata.
Proof. intros s. exists [], []. simpl. now rewrite add_findings_nil. Qed.

Lemma appends_when b (m : M unit) : appends m -> appends (when b m).
Proof. destruct b; simpl; [trivial | intros _; apply appends_ret]. Qed.

Lemma appends_for_each {A} (body : A -> M unit) l :
  (forall x, appends (body x)) -> appends (for_each body l).
Proof.
  intros Hbody. induction l as [|x l IH]; simpl.
  - apply appends_ret.
  - apply appends_bind; [apply Hbody | intros _; exact IH].
Qed.

Lemma appends_for_enumerate {A} (body : nat -> A -> M unit) l :
  (forall i x, appends (body i x)) -> forall i, appends (for_enumerate body i l).
Proof.
  intros Hbody. induction l as [|x l IH]; intros i; simpl.
  - apply appends_ret.
  - apply appends_bind; [apply Hbody | intros _; apply IH].
Qed.

Create HintDb safe_db.
Create HintDb appends_db.
#[local] Hint Resolve safe_ret safe_errors_append safe_warnings_append
  safe_lift safe_self_root_has_root safe_when stable_has_root
  stable_has_metadata : safe_db.
#[local] Hint Resolve appends_ret appends_raise appends_lift
  appends_errors_append appends_warnings_append appends_self_root
  appends_self_metadata appends_when : appends_db.

(** Break a method body along its binds, loops and case distinctions. *)
Ltac safe_step :=
  match goal with
  | |- safe_on _ (bind _ _) =>
      apply safe_bind; [solve [auto with safe_db] | | intros ? ]
  | |- safe_on _ (for_each _ _) =>
      apply safe_for_each; [solve [auto with safe_db] | intros ? _ ]
  | |- safe_on _ (for_enumerate _ _ _) =>
      apply safe_for_enumerate; [solve [auto with safe_db] | intros ? ? _ ]
  | |- safe_on _ (when _ _) => apply safe_when
  | |- safe_on _ (match ?x with _ => _ end) => destruct x
  | |- safe_on _ _ => solve [auto with safe_db]
  end.

Ltac appends_step :=
  match goal with
  | |- appends (bind _ _) => apply appends_bind; [ | intros ? ]
  | |- appends (for_each _ _) => apply appends_for_each; intros ?
  | |- appends (for_enumerate _ _ _) => apply appends_for_enumerate; intros ? ?
  | |- appends (when _ _) => apply appends_when
  | |- appends (match ?x with _ => _ end) => destruct x
  | |- appends _ => solve [auto with appends_db]
  end.

Lemma safe_check_root_attributes r : safe r _check_root_attributes.
Proof. unfold _check_root_attributes. repeat safe_step. Qed.

Lemma safe_check_title_and_desc r : safe r _check_title_and_desc.
Proof. unfold _check_title_and_desc. repeat safe_step. Qed.

Lemma safe_check_embedded_stylesheet r : safe r _check_embedded_stylesheet.
Proof. unfold _check_embedded_stylesheet. repeat safe_step. Qed.

Lemma safe_check_group r i g : safe r (check_group i g).
Proof. unfold check_group. repeat safe_step. Qed.

Lemma safe_check_semantic_groups r : safe r _check_semantic_groups.
Proof.
  unfold _check_semantic_groups.
  apply safe_bind; [auto with safe_db | auto with safe_db | intros r'].
  destruct (find_groups r'); [auto with safe_db | ].
  apply safe_for_enumerate; [auto with safe_db | ].
  intros; apply safe_check_group.
Qed.

Lemma appends_validate_metadata_basic E : appends (_validate_metadata_basic E).
Proof. unfold _validate_metadata_basic. repeat appends_step. Qed.

Lemma appends_validate_metadata_schema E : appends (_validate_metadata_schema E).
Proof.
  pose proof (appends_validate_metadata_basic E).
  unfold _validate_metadata_schema. repeat appends_step; assumption.
Qed.

Lemma appends_check_concept E ids c : appends (check_concept E ids c).
Proof. unfold check_concept. repeat appends_step. Qed.

Lemma appends_check_concept_group_correspondence E :
  appends (_check_concept_group_correspondence E).
Proof.
  unfold _check_concept_group_correspondence.
  apply appends_bind; [auto with appends_db | intros m].
  destruct (negb (Py.truthy m)); [auto with appends_db | ].
  apply appends_bind; [auto with appends_db | intros h].
  destruct (negb h); [auto with appends_db | ].
  repeat (apply appends_bind; [auto with appends_db | intros ?]).
  apply appends_for_each. intros; apply appends_check_concept.
Qed.

Arguments ET.get : simpl never.
Arguments find_svg_or_plain : simpl never.
Arguments find_groups : simpl never.
Arguments PyStr.of_nat : simpl never.
Arguments String.append : simpl never.

(** ** How a run proceeds *)

Lemma bind_self_root {B} r attr (f : element -> M B) s :
  root s = Some r -> bind (self_root attr) f s = f r s.
Proof. intros Hs. unfold bind, self_root. now rewrite Hs. Qed.

Lemma bind_assoc {A B C} (m : M A) (f : A -> M B) (g : B -> M C) s :
  bind (bind m f) g s = bind m (fun a => bind (f a) g) s.
Proof. unfold bind. destruct (m s) as [[a|e] s1]; reflexivity. Qed.

Lemma appends_errors {A} (m : M A) s :
  appends m -> exists es, errors (snd (m s)) = errors s ++ es.
Proof. intros H. destruct (H s) as (es & ws & ->). now exists es. Qed.

Lemma appends_keeps_error {A} (m : M A) s x :
  appends m -> In x (errors s) -> In x (errors (snd (m s))).
Proof.
  intros H Hx. destruct (appends_errors m s H) as (es & ->).
  apply in_or_app. now left.
Qed.

Lemma appends_keeps_warning {A} (m : M A) s x :
  appends m -> In x (warnings s) -> In x (warnings (snd (m s))).
Proof.
  intros H Hx. destruct (H s) as (es & ws & ->). simpl.
  apply in_or_app. now left.
Qed.

(** *** [_parse_svg] *)

Lemma parse_svg_ok E t s :
  ET_parse E = ParseOk t -> is_svg_root t = true ->
  _parse_svg E s = (Return tt, loaded t s).
Proof.
  intros Hp Hr. unfold _parse_svg. rewrite Hp.
  unfold bind, set_tree_and_root, self_root. cbn [root].
  unfold is_svg_root in Hr.
  destruct (ET.tag t =? svg "svg"), (ET.tag t =? "svg"); try discriminate;
    reflexivity.
Qed.

Lemma parse_svg_raises E s :
  no_document E ->
  exists s', _parse_svg E s = (Raise (no_document_exn E), s')
             /\ errors s' = errors s /\ warnings s' = warnings s.
Proof.
  unfold no_document, no_document_exn, _parse_svg. intros H.
  destruct (ET_parse E) as [t|e| |e]; unfold bind, raise;
    try (eexists; split; [reflexivity | split; reflexivity]).
  unfold set_tree_and_root, self_root. cbn [root].
  unfold is_svg_root in H. apply orb_false_iff in H as [-> ->]. cbn [negb andb].
  eexists; split; [reflexivity | split; reflexivity].
Qed.

(** *** [validate] around its [try] *)

Lemma validate_returned E self s :
  validate_body E (fresh self) = (Return tt, s) ->
  fst (validate E self) = ((length (errors s) =? 0)%nat, errors s, warnings s).
Proof. intros H. unfold validate. fold (fresh self). now rewrite H. Qed.

Lemma validate_raised E self e s :
  validate_body E (fresh self) = (Raise e, s) ->
  fst (validate E self) = (false, errors s ++ [exn_entry e], warnings s).
Proof.
  intros H. unfold validate. fold (fresh self). rewrite H.
  destruct e as [msg|msg]; cbn [handle exn_entry snd fst];
    rewrite errors_append_eq; cbn [snd add_findings errors warnings];
    rewrite app_nil_r, length_app, Nat.add_comm; reflexivity.
Qed.

(** *** [_extract_and_validate_metadata] *)

Lemma when_warnings_append b w s :
  when b (warnings_append w) s
  = (Return tt, add_findings [] (if b then [w] else []) s).
Proof.
  destruct b; simpl; [apply warnings_append_eq | now rewrite add_findings_nil].
Qed.

Lemma metadata_id_warning_step {B} el (f : unit -> M B) s :
  bind (when (negb (PyStr.eq_opt (ET.get "id" el) "mf-accessibility"))
          (warnings_append
             ("<metadata> id should be 'mf-accessibility', found: "
              ++ PyStr.of_option (ET.get "id" el)))) f s
  = f tt (add_findings [] (metadata_id_warning el) s).
Proof.
  unfold bind. rewrite when_warnings_append. unfold metadata_id_warning.
  now destruct (PyStr.eq_opt (ET.get "id" el) "mf-accessibility").
Qed.

Lemma extract_absent E r s :
  root s = Some r -> find_svg_or_plain "metadata" r = None ->
  _extract_and_validate_metadata E s
  = (Raise (ValidationError "Missing required <metadata> element"), s).
Proof.
  intros Hs Hf. unfold _extract_and_validate_metadata.
  rewrite (bind_self_root r) by assumption. now rewrite Hf.
Qed.

Lemma extract_empty E r s el :
  root s = Some r -> find_svg_or_plain "metadata" r = Some el ->
  PyStr.blank (ET.text el) = true ->
  _extract_and_validate_metadata E s
  = (Raise (ValidationError "<metadata> element is empty"),
     add_findings [] (metadata_id_warning el) s).
Proof.
  intros Hs Hf Hb. unfold _extract_and_validate_metadata.
  rewrite (bind_self_root r) by assumption. rewrite Hf.
  rewrite metadata_id_warning_step.
  destruct (ET.text el) as [t|]; [ | reflexivity].
  cbn [PyStr.blank] in Hb. now rewrite Hb.
Qed.

Lemma extract_undecodable E r s el t e :
  root s = Some r -> find_svg_or_plain "metadata" r = Some el ->
  ET.text el = Some t -> PyStr.strip_is_empty t = false ->
  json_loads E t = JSONDecodeError e ->
  _extract_and_validate_metadata E s
  = (Raise (ValidationError ("Invalid JSON in <metadata>: " ++ e)),
     add_findings [] (metadata_id_warning el) s).
Proof.
  intros Hs Hf Ht Hb Hj. unfold _extract_and_validate_metadata.
  rewrite (bind_self_root r) by assumption. rewrite Hf.
  rewrite metadata_id_warning_step. rewrite Ht, Hb.
  unfold bind at 1. now rewrite Hj.
Qed.

Lemma extract_decoded E r s el t v :
  root s = Some r -> find_svg_or_plain "metadata" r = Some el ->
  ET.text el = Some t -> PyStr.strip_is_empty t = false ->
  json_loads E t = Decoded v ->
  _extract_and_validate_metadata E s
  = schema_stage E (with_metadata v (add_findings [] (metadata_id_warning el) s)).
Proof.
  intros Hs Hf Ht Hb Hj. unfold _extract_and_validate_metadata.
  rewrite (bind_self_root r) by assumption. rewrite Hf.
  rewrite metadata_id_warning_step. rewrite Ht, Hb.
  unfold bind at 1. rewrite Hj. reflexivity.
Qed.

Lemma appends_schema_stage E : appends (schema_stage E).
Proof.
  pose proof (appends_validate_metadata_basic E).
  pose proof (appends_validate_metadata_schema E).
  unfold schema_stage. repeat appends_step; assumption.
Qed.

(** *** The checks that precede the metadata *)

Lemma root_and_title_emit r :
  emits r (_check_root_attributes ;; _check_title_and_desc) tt
        (errors (root_and_title_findings r))
        (warnings (root_and_title_findings r)).
Proof.
  assert (Hsafe : safe r (_check_root_attributes ;; _check_title_and_desc)).
  { apply safe_bind; [apply stable_has_root | | intros _].
    - apply safe_check_root_attributes.
    - apply safe_check_title_and_desc. }
  destruct Hsafe as ([] & es & ws & H).
  unfold root_and_title_findings. rewrite H by reflexivity. exact H.
Qed.

Lemma validate_body_parsed E r s0 :
  ET_parse E = ParseOk r -> is_svg_root r = true ->
  validate_body E s0
  = (_extract_and_validate_metadata E ;; after_metadata E) (at_metadata r s0).
Proof.
  intros Hp Hr. unfold validate_body.
  unfold bind at 1. rewrite (parse_svg_ok E r s0 Hp Hr).
  pose proof (root_and_title_emit r) as H.
  change ((_check_root_attributes ;; _check_title_and_desc ;;
           _extract_and_validate_metadata E ;; after_metadata E) (loaded r s0)
          = (_extract_and_validate_metadata E ;; after_metadata E)
              (at_metadata r s0)).
  rewrite <- (bind_assoc _check_root_attributes).
  now rewrite (bind_emits (has_root r) _ _ tt _ _ _ H).
Qed.

Lemma extract_fatal E r msg ws s :
  metadata_fatal E r msg ws -> root s = Some r ->
  _extract_and_validate_metadata E s
  = (Raise (ValidationError msg), add_findings [] ws s).
Proof.
  intros H Hs. destruct H.
  - rewrite add_findings_nil. now apply extract_absent with (r := r).
  - now apply extract_empty with (r := r).
  - now apply extract_undecodable with (r := r) (t := t).
Qed.

Lemma validate_metadata_fatal E self r msg ws :
  ET_parse E = ParseOk r -> is_svg_root r = true ->
  metadata_fatal E r msg ws ->
  fst (validate E self)
  = (false, errors (root_and_title_findings r) ++ [msg],
     warnings (root_and_title_findings r) ++ ws).
Proof.
  intros Hp Hr Hf.
  rewrite (validate_raised E self (ValidationError msg)
             (add_findings [] ws (at_metadata r (fresh self)))).
  - cbn. now rewrite app_nil_r.
  - rewrite (validate_body_parsed E r _ Hp Hr). unfold bind at 1.
    now rewrite (extract_fatal E r msg ws _ Hf).
Qed.

(** *** Findings are never removed *)

Lemma grows_trans s1 s2 s3 : grows s1 s2 -> grows s2 s3 -> grows s1 s3.
Proof.
  intros (Ht & Hr & (es & He) & (ws & Hw)) (Ht' & Hr' & (es' & He') & (ws' & Hw')).
  repeat split; try congruence.
  - exists (es ++ es'). now rewrite He', He, app_assoc.
  - exists (ws ++ ws'). now rewrite Hw', Hw, app_assoc.
Qed.

Lemma grows_add_findings es ws s : grows s (add_findings es ws s).
Proof. repeat split; [now exists es | now exists ws]. Qed.

Lemma grows_with_metadata v s : grows s (with_metadata v s).
Proof.
  repeat split; [exists [] | exists []]; simpl; now rewrite app_nil_r.
Qed.

Lemma appends_growing {A} (m : M A) : appends m -> growing m.
Proof. intros H s. destruct (H s) as (es & ws & ->). apply grows_add_findings. Qed.

Lemma growing_bind {A B} (m : M A) (f : A -> M B) :
  growing m -> (forall a, growing (f a)) -> growing (bind m f).
Proof.
  intros Hm Hf s. unfold bind. specialize (Hm s).
  destruct (m s) as [[a|e] s1]; simpl in Hm.
  - apply (grows_trans _ s1); [assumption | apply Hf].
  - assumption.
Qed.

Lemma growing_extract_and_validate_metadata E :
  growing (_extract_and_validate_metadata E).
Proof.
  unfold _extract_and_validate_metadata.
  apply growing_bind; [apply appends_growing, appends_self_root | intros r].
  destruct (find_svg_or_plain "metadata" r) as [el|];
    [ | apply appends_growing, appends_raise].
  apply growing_bind;
    [apply appends_growing, appends_when, appends_warnings_append | intros _].
  destruct (ET.text el) as [t|]; [ | apply appends_growing, appends_raise].
  destruct (PyStr.strip_is_empty t); [apply appends_growing, appends_raise | ].
  apply growing_bind.
  - destruct (json_loads E t); try apply appends_growing, appends_raise.
    intros s. apply grows_with_metadata.
  - intros _. apply appends_growing. apply (appends_schema_stage E).
Qed.

Lemma validate_keeps_error E self x :
  In x (errors (snd (validate_body E (fresh self)))) ->
  In x (errors_of (fst (validate E self))).
Proof.
  destruct (validate_body E (fresh self)) as [[[]|e] s] eqn:Hbody; cbn [snd];
    intros Hx.
  - rewrite (validate_returned E self s Hbody). exact Hx.
  - rewrite (validate_raised E self e s Hbody). unfold errors_of. cbn [fst snd].
    apply in_or_app. now left.
Qed.

Lemma validate_keeps_warning E self x :
  In x (warnings (snd (validate_body E (fresh self)))) ->
  In x (warnings_of (fst (validate E self))).
Proof.
  destruct (validate_body E (fresh self)) as [[[]|e] s] eqn:Hbody; cbn [snd];
    intros Hx.
  - rewrite (validate_returned E self s Hbody). exact Hx.
  - rewrite (validate_raised E self e s Hbody). exact Hx.
Qed.

(** ** Properties of a run *)

(** C1 as worded fails: in a document without a metadata element, the
    semantic-group check would report the group without [aria-label] and
    the stylesheet check the missing [defs], but the run has stopped
    before either and the report holds the metadata error alone. *)
Lemma C1_structural_checks_skipped :
  find_svg_or_plain "metadata" Samples.no_metadata_doc = None
  /\ In "Semantic group 'foo' missing required attribute: aria-label"
        (errors (snd (_check_semantic_groups
                        (loaded Samples.no_metadata_doc init))))
  /\ In "No <defs> element found; embedded stylesheet recommended"
        (warnings (snd (_check_embedded_stylesheet
                          (loaded Samples.no_metadata_doc init))))
  /\ fst (validate Samples.no_metadata_env init)
     = (false, ["Missing required <metadata> element"], []).
Proof.
  split; [reflexivity | ].
  split; [vm_compute; tauto | ].
  split; [vm_compute; tauto | ].
  reflexivity.
Qed.

(** C1, amended: when the metadata element is absent, empty or
    undecodable, the run stops at the metadata step.  The report is
    invalid and holds the errors of the root-attribute and
    title/description checks followed by the one metadata error, and the
    warnings of those checks followed by the warning on the metadata id,
    if any; the stylesheet and semantic-group checks add nothing. *)
Theorem C1_metadata_failure_stops_the_run E self r :
  ET_parse E = ParseOk r -> is_svg_root r = true ->
  let before := root_and_title_findings r in
  (find_svg_or_plain "metadata" r = None ->
   fst (validate E self)
   = (false, errors before ++ ["Missing required <metadata> element"],
      warnings before))
  /\ (forall el,
        find_svg_or_plain "metadata" r = Some el ->
        PyStr.blank (ET.text el) = true ->
        fst (validate E self)
        = (false, errors before ++ ["<metadata> element is empty"],
           warnings before ++ metadata_id_warning el))
  /\ (forall el t e,
        find_svg_or_plain "metadata" r = Some el ->
        ET.text el = Some t -> PyStr.strip_is_empty t = false ->
        json_loads E t = JSONDecodeError e ->
        fst (validate E self)
        = (false,
           errors before ++ [("Invalid JSON in <metadata>: " ++ e)%string],
           warnings before ++ metadata_id_warning el)).
Proof.
  intros Hp Hr. cbv zeta. split; [ | split].
  - intros Hf.
    rewrite (validate_metadata_fatal E self r _ _ Hp Hr
               (metadata_absent E r Hf)).
    now rewrite app_nil_r.
  - intros el Hf Hblank.
    apply (validate_metadata_fatal E self r _ _ Hp Hr).
    now apply metadata_empty.
  - intros el t e Hf Ht Hb Hj.
    apply (validate_metadata_fatal E self r _ _ Hp Hr).
    now apply metadata_undecodable with (t := t).
Qed.

Lemma C1_metadata_failure_stops_the_run_witness :
  fst (validate Samples.no_metadata_env init)
  = (false,
     errors (root_and_title_findings Samples.no_metadata_doc)
     ++ ["Missing required <metadata> element"],
     warnings (root_and_title_findings Samples.no_metadata_doc))
  /\ fst (validate Samples.bad_json_env init)
     = (false,
        errors (root_and_title_findings Samples.bad_json_doc)
        ++ [("Invalid JSON in <metadata>: "
             ++ "Expecting value: line 1 column 1 (char 0)")%string],
        warnings (root_and_title_findings Samples.bad_json_doc)
        ++ metadata_id_warning (Samples.metadata_el "not json")).
Proof.
  split.
  - apply (proj1 (C1_metadata_failure_stops_the_run
                    Samples.no_metadata_env init Samples.no_metadata_doc
                    eq_refl eq_refl)).
    reflexivity.
  - apply (proj2 (proj2 (C1_metadata_failure_stops_the_run
                           Samples.bad_json_env init Samples.bad_json_doc
                           eq_refl eq_refl))
             (Samples.metadata_el "not json") "not json").
    + reflexivity.
    + reflexivity.
    + reflexivity.
    + reflexivity.
Defined.

(** C2: [validate] always returns its triple.  Whatever the body of the
    [try] does on whatever input, the triple is made of the two lists as
    the body left them; an exception raised anywhere in the body, of
    either kind, ends the run as one more entry of [errors].  When no
    document is obtained (the file is missing, unreadable or malformed,
    or its root is not [svg]) the report holds exactly one error, which
    says so, and no warning. *)
Theorem C2_validate_returns_a_report E self :
  (exists o s,
      validate_body E (fresh self) = (o, s)
      /\ fst (validate E self)
         = (match o with
            | Return _ => (length (errors s) =? 0)%nat
            | Raise _ => false
            end,
            errors s ++ match o with
                        | Return _ => []
                        | Raise e => [exn_entry e]
                        end,
            warnings s))
  /\ (no_document E ->
      fst (validate E self)
      = (false,
         [match ET_parse E with
          | ParseOk t =>
              ("Root element must be <svg>, found: " ++ ET.tag t)%string
          | ParseError e => ("XML parsing error: " ++ e)%string
          | FileNotFoundError => ("File not found: " ++ svg_path E)%string
          | ParseOtherException e => ("Unexpected error: " ++ e)%string
          end],
         [])).
Proof.
  split.
  - destruct (validate_body E (fresh self)) as [[[]|e] s] eqn:Hbody.
    + exists (Return tt), s. split; [reflexivity | ].
      rewrite (validate_returned E self s Hbody). now rewrite app_nil_r.
    + exists (Raise e), s. split; [reflexivity | ].
      apply (validate_raised E self e s Hbody).
  - intros Hno.
    destruct (parse_svg_raises E (fresh self) Hno) as (s & Hp & He & Hw).
    rewrite (validate_raised E self (no_document_exn E) s).
    + rewrite He, Hw. unfold no_document_exn.
      now destruct (ET_parse E).
    + unfold validate_body. unfold bind at 1. now rewrite Hp.
Qed.

Lemma C2_validate_returns_a_report_witness :
  no_document Samples.missing_file_env
  /\ fst (validate Samples.missing_file_env init)
     = (false, ["File not found: pictogram.svg"], []).
Proof.
  split.
  - exact I.
  - apply (proj2 (C2_validate_returns_a_report Samples.missing_file_env init)).
    exact I.
Defined.

(** C3: the returned [is_valid] is computed from the returned [errors]
    alone: it is true exactly when that list is empty, whatever the
    warnings are. *)
Theorem C3_is_valid_iff_no_errors E self :
  let res := fst (validate E self) in
  is_valid_of res = (length (errors_of res) =? 0)%nat
  /\ (is_valid_of res = true <-> errors_of res = []).
Proof.
  cbv zeta. unfold validate, is_valid_of, errors_of. cbn [fst snd].
  split; [reflexivity | ].
  rewrite Nat.eqb_eq. apply length_zero_iff_nil.
Qed.

(** C7: in a document whose root, title and description raise no error,
    metadata text that is not decodable JSON gives an invalid report
    whose only error is the decoding error; nothing is added by schema
    validation or by the correspondence check. *)
Theorem C7_undecodable_metadata_is_the_only_error E self r el t e :
  ET_parse E = ParseOk r -> is_svg_root r = true ->
  errors (root_and_title_findings r) = [] ->
  find_svg_or_plain "metadata" r = Some el ->
  ET.text el = Some t -> PyStr.strip_is_empty t = false ->
  json_loads E t = JSONDecodeError e ->
  is_valid_of (fst (validate E self)) = false
  /\ errors_of (fst (validate E self))
     = [("Invalid JSON in <metadata>: " ++ e)%string]
  /\ length (errors_of (fst (validate E self))) = 1.
Proof.
  intros Hp Hr Hpre Hf Ht Hb Hj.
  rewrite (validate_metadata_fatal E self r _ _ Hp Hr
             (metadata_undecodable E r el t e Hf Ht Hb Hj)).
  rewrite Hpre. repeat split.
Qed.

Lemma C7_undecodable_metadata_is_the_only_error_witness :
  is_valid_of (fst (validate Samples.bad_json_env init)) = false
  /\ errors_of (fst (validate Samples.bad_json_env init))
     = [("Invalid JSON in <metadata>: "
         ++ "Expecting value: line 1 column 1 (char 0)")%string]
  /\ length (errors_of (fst (validate Samples.bad_json_env init))) = 1.
Proof.
  apply (C7_undecodable_metadata_is_the_only_error
           Samples.bad_json_env init Samples.bad_json_doc
           (Samples.metadata_el "not json") "not json").
  - reflexivity.
  - reflexivity.
  - reflexivity.
  - reflexivity.
  - reflexivity.
  - reflexivity.
  - reflexivity.
Defined.

(** *** Semantic groups *)

Lemma differs_from_expected_true ev a :
  ev <> "" -> a <> ev -> differs_from_expected (Some ev) a = true.
Proof.
  intros H1 H2. unfold differs_from_expected.
  apply String.eqb_neq in H1, H2. now rewrite H1, H2.
Qed.

Lemma errors_append_reports msg s : In msg (errors (snd (errors_append msg s))).
Proof. cbn. apply in_or_app. right. now left. Qed.

(** What one turn of the loop over the groups reports for a group with a
    non-empty [data-concept]. *)
Lemma check_group_reports r i g s :
  PyStr.truthy (ET.get "data-concept" g) = true -> root s = Some r ->
  let report := errors (snd (check_group i g s)) in
  let group_id := group_id_of i g in
  (ET.get "role" g = None ->
   In ("Semantic group '" ++ group_id ++ "' missing required attribute: role")%string
      report)
  /\ (forall v, ET.get "role" g = Some v -> v <> "group" ->
      In ("Semantic group '" ++ group_id
          ++ "' attribute 'role': expected 'group', found '" ++ v ++ "'")%string
         report)
  /\ (ET.get "tabindex" g = None ->
      In ("Semantic group '" ++ group_id
          ++ "' missing required attribute: tabindex")%string report)
  /\ (forall v, ET.get "tabindex" g = Some v -> v <> "0" ->
      In ("Semantic group '" ++ group_id
          ++ "' attribute 'tabindex': expected '0', found '" ++ v ++ "'")%string
         report)
  /\ (ET.get "aria-label" g = None ->
      In ("Semantic group '" ++ group_id
          ++ "' missing required attribute: aria-label")%string report).
Proof.
  intros Hdc Hs. cbv zeta. unfold check_group.
  destruct (ET.get "data-concept" g) as [d|] eqn:Hd; [ | discriminate].
  rewrite Hdc. cbn [when]. unfold bind at 1. cbn [ret].
  repeat split.
  - intros H. apply (for_each_reports (has_root r) (stable_has_root r)) with (x := ("role", Some "group"));
      [intros [a ex] _; repeat safe_step | cbn; tauto | | exact Hs].
    intros s' _. rewrite H. apply errors_append_reports.
  - intros v H Hv. apply (for_each_reports (has_root r) (stable_has_root r)) with (x := ("role", Some "group"));
      [intros [a ex] _; repeat safe_step | cbn; tauto | | exact Hs].
    intros s' _. rewrite H.
    rewrite differs_from_expected_true by (assumption || discriminate).
    apply errors_append_reports.
  - intros H. apply (for_each_reports (has_root r) (stable_has_root r)) with (x := ("tabindex", Some "0"));
      [intros [a ex] _; repeat safe_step | cbn; tauto | | exact Hs].
    intros s' _. rewrite H. apply errors_append_reports.
  - intros v H Hv. apply (for_each_reports (has_root r) (stable_has_root r)) with (x := ("tabindex", Some "0"));
      [intros [a ex] _; repeat safe_step | cbn; tauto | | exact Hs].
    intros s' _. rewrite H.
    rewrite differs_from_expected_true by (assumption || discriminate).
    apply errors_append_reports.
  - intros H. apply (for_each_reports (has_root r) (stable_has_root r)) with (x := ("aria-label", None));
      [intros [a ex] _; repeat safe_step | cbn; tauto | | exact Hs].
    intros s' _. rewrite H. apply errors_append_reports.
Qed.

(** An error of one turn is an error of [_check_semantic_groups]. *)
Lemma check_semantic_groups_reports r i g msg :
  nth_error (find_groups r) i = Some g ->
  (forall s, root s = Some r -> In msg (errors (snd (check_group i g s)))) ->
  forall s, root s = Some r -> In msg (errors (snd (_check_semantic_groups s))).
Proof.
  intros Hnth Hg s Hs. unfold _check_semantic_groups.
  rewrite (bind_self_root r) by assumption.
  destruct (find_groups r) as [|g0 gs] eqn:Hgroups; [now destruct i | ].
  apply (for_enumerate_reports (has_root r) (stable_has_root r)) with (i := i) (x := g);
    [intros; apply safe_check_group | exact Hnth | exact Hg | exact Hs].
Qed.

(** An error of [_check_semantic_groups] is in the report of a run whose
    metadata step returns. *)
Lemma validate_reports_group_error E self r msg :
  ET_parse E = ParseOk r -> is_svg_root r = true ->
  fst (_extract_and_validate_metadata E (at_metadata r (fresh self)))
  = Return tt ->
  (forall s, root s = Some r -> In msg (errors (snd (_check_semantic_groups s)))) ->
  In msg (errors_of (fst (validate E self))).
Proof.
  intros Hp Hr Hx Hg. apply validate_keeps_error.
  rewrite (validate_body_parsed E r _ Hp Hr). unfold bind at 1.
  pose proof (growing_extract_and_validate_metadata E
                (at_metadata r (fresh self))) as (_ & Hroot & _).
  destruct (_extract_and_validate_metadata E (at_metadata r (fresh self)))
    as [o s1]. cbn [fst snd] in Hx, Hroot. subst o.
  assert (Hs1 : root s1 = Some r) by (rewrite Hroot; reflexivity).
  unfold after_metadata.
  destruct (safe_check_embedded_stylesheet r) as ([] & es & ws & Hstyle).
  rewrite (bind_emits (has_root r) _ _ tt es ws s1 Hstyle Hs1).
  set (s2 := add_findings es ws s1).
  assert (Hs2 : root s2 = Some r) by exact Hs1.
  unfold bind.
  destruct (safe_appends_on (has_root r) _check_semantic_groups s2
              (safe_check_semantic_groups r) Hs2) as ([] & es' & ws' & Hgr).
  pose proof (Hg s2 Hs2) as Hin. rewrite Hgr in *. cbn [snd] in Hin.
  apply appends_keeps_error;
    [apply appends_check_concept_group_correspondence | exact Hin].
Qed.

(** C6 as worded fails.  A group that carries [data-concept], the right
    [role] and [tabindex], and an [aria-label] that is present but empty
    gets no error: the document is valid.  So is a document with a group
    whose [data-concept] is empty and that has neither [tabindex] nor
    [aria-label].  And in a document without metadata the group without
    [aria-label] is not reported, the run having stopped before. *)
Lemma C6_empty_aria_label_is_accepted :
  (find_groups Decodable.empty_label_doc = [Decodable.empty_label_group]
   /\ ET.get "data-concept" Decodable.empty_label_group = Some "bed"
   /\ ET.get "aria-label" Decodable.empty_label_group = Some ""
   /\ fst (validate Decodable.empty_label_env init)
      = (true, [],
         ["No <defs> element found; embedded stylesheet recommended"]))
  /\ (In Decodable.untagged_group (find_groups Decodable.untagged_doc)
      /\ ET.get "data-concept" Decodable.untagged_group = Some ""
      /\ ET.get "tabindex" Decodable.untagged_group = None
      /\ ET.get "aria-label" Decodable.untagged_group = None
      /\ errors_of (fst (validate Decodable.untagged_env init)) = [])
  /\ (ET.get "data-concept"
             (Samples.group [("id", "foo"); ("data-concept", "foo");
                             ("role", "group"); ("tabindex", "0")])
      = Some "foo"
      /\ find_groups Samples.no_metadata_doc
         = [Samples.group [("id", "foo"); ("data-concept", "foo");
                           ("role", "group"); ("tabindex", "0")]]
      /\ errors_of (fst (validate Samples.no_metadata_env init))
         = ["Missing required <metadata> element"]).
Proof.
  split; [ | split].
  - repeat split.
  - split; [right; left; reflexivity | repeat split].
  - repeat split.
Qed.

(** C6, amended: in a run whose metadata step returns, so that the
    semantic-group check is reached, every group element the check visits
    that carries a non-empty [data-concept] gets an error for a [role]
    that is missing or not ["group"], for a [tabindex] that is missing or
    not ["0"], and for a missing [aria-label] (its value is not looked at).
    Each error names the group's [id] attribute, or ["(unnamed group i)"]
    with the group's index [i] when it has none. *)
Theorem C6_incomplete_semantic_group_is_reported E self r i g :
  ET_parse E = ParseOk r -> is_svg_root r = true ->
  fst (_extract_and_validate_metadata E (at_metadata r (fresh self)))
  = Return tt ->
  nth_error (find_groups r) i = Some g ->
  PyStr.truthy (ET.get "data-concept" g) = true ->
  let report := errors_of (fst (validate E self)) in
  let group_id :=
    match ET.get "id" g with
    | Some x => x
    | None => ("(unnamed group " ++ PyStr.of_nat i ++ ")")%string
    end in
  (ET.get "role" g = None ->
   In ("Semantic group '" ++ group_id ++ "' missing required attribute: role")%string
      report)
  /\ (forall v, ET.get "role" g = Some v -> v <> "group" ->
      In ("Semantic group '" ++ group_id
          ++ "' attribute 'role': expected 'group', found '" ++ v ++ "'")%string
         report)
  /\ (ET.get "tabindex" g = None ->
      In ("Semantic group '" ++ group_id
          ++ "' missing required attribute: tabindex")%string report)
  /\ (forall v, ET.get "tabindex" g = Some v -> v <> "0" ->
      In ("Semantic group '" ++ group_id
          ++ "' attribute 'tabindex': expected '0', found '" ++ v ++ "'")%string
         report)
  /\ (ET.get "aria-label" g = None ->
      In ("Semantic group '" ++ group_id
          ++ "' missing required attribute: aria-label")%string report).
Proof.
  intros Hp Hr Hx Hnth Hdc. cbv zeta.
  fold (group_id_of i g).
  assert (Hrep : forall msg,
             (forall s, root s = Some r ->
                        In msg (errors (snd (check_group i g s)))) ->
             In msg (errors_of (fst (validate E self)))).
  { intros msg Hmsg.
    apply (validate_reports_group_error E self r msg Hp Hr Hx).
    now apply (check_semantic_groups_reports r i g). }
  repeat split.
  - intros H. apply Hrep. intros s Hs.
    destruct (check_group_reports r i g s Hdc Hs) as (H1 & _). exact (H1 H).
  - intros v H Hv. apply Hrep. intros s Hs.
    destruct (check_group_reports r i g s Hdc Hs) as (_ & H2 & _).
    exact (H2 v H Hv).
  - intros H. apply Hrep. intros s Hs.
    destruct (check_group_reports r i g s Hdc Hs) as (_ & _ & H3 & _).
    exact (H3 H).
  - intros v H Hv. apply Hrep. intros s Hs.
    destruct (check_group_reports r i g s Hdc Hs) as (_ & _ & _ & H4 & _).
    exact (H4 v H Hv).
  - intros H. apply Hrep. intros s Hs.
    destruct (check_group_reports r i g s Hdc Hs) as (_ & _ & _ & _ & H5).
    exact (H5 H).
Qed.

Lemma C6_incomplete_semantic_group_is_reported_witness :
  let report := errors_of (fst (validate Decodable.incomplete_env init)) in
  In "Semantic group '(unnamed group 0)' attribute 'role': expected 'group', found 'presentation'"
     report
  /\ In "Semantic group '(unnamed group 0)' missing required attribute: tabindex"
        report
  /\ In "Semantic group '(unnamed group 0)' missing required attribute: aria-label"
        report.
Proof.
  destruct (C6_incomplete_semantic_group_is_reported
              Decodable.incomplete_env init Decodable.incomplete_doc
              0 Decodable.incomplete_group)
    as (_ & Hrole & Htabindex & _ & Hlabel).
  - reflexivity.
  - reflexivity.
  - reflexivity.
  - reflexivity.
  - reflexivity.
  - repeat split.
    + apply (Hrole "presentation"); [reflexivity | discriminate].
    + apply Htabindex. reflexivity.
    + apply Hlabel. reflexivity.
Defined.

(** C10: for a group whose [data-concept] is present and empty, the turn
    of the loop over the groups changes nothing: the completeness check
    is skipped and the warning for [role="group"] without [data-concept]
    is not given, whatever the group's other attributes are; the loop
    goes on to the next group with the object as it was. *)
Theorem C10_empty_data_concept_gives_no_finding i g :
  ET.get "data-concept" g = Some "" ->
  (forall s, check_group i g s = (Return tt, s))
  /\ (forall rest s,
        for_enumerate check_group i (g :: rest) s
        = for_enumerate check_group (S i) rest s).
Proof.
  intros H.
  assert (Hturn : forall s, check_group i g s = (Return tt, s)).
  { intros s. unfold check_group. rewrite H. reflexivity. }
  split; [exact Hturn | ].
  intros rest s. cbn [for_enumerate]. unfold bind. now rewrite Hturn.
Qed.

Lemma C10_empty_data_concept_gives_no_finding_witness :
  ET.get "data-concept" Decodable.untagged_group = Some ""
  /\ check_group 0 Decodable.untagged_group init = (Return tt, init).
Proof.
  split.
  - reflexivity.
  - apply (proj1 (C10_empty_data_concept_gives_no_finding
                    0 Decodable.untagged_group eq_refl)).
Defined.

(** *** The basic strategy *)

Lemma appends_check_embedded_stylesheet : appends _check_embedded_stylesheet.
Proof. unfold _check_embedded_stylesheet. repeat appends_step. Qed.

Lemma appends_check_semantic_groups : appends _check_semantic_groups.
Proof. unfold _check_semantic_groups, check_group. repeat appends_step. Qed.

Lemma appends_after_metadata E : appends (after_metadata E).
Proof.
  unfold after_metadata.
  apply appends_bind; [apply appends_check_embedded_stylesheet | intros _].
  apply appends_bind; [apply appends_check_semantic_groups | intros _].
  apply appends_check_concept_group_correspondence.
Qed.

Lemma bind_keeps_error {A B} (m : M A) (f : A -> M B) s x :
  (forall a, appends (f a)) ->
  In x (errors (snd (m s))) -> In x (errors (snd (bind m f s))).
Proof.
  intros Hf Hx. unfold bind. destruct (m s) as [[a|e] s1]; cbn [snd] in *.
  - now apply appends_keeps_error.
  - exact Hx.
Qed.

Lemma bind_keeps_warning {A B} (m : M A) (f : A -> M B) s x :
  (forall a, appends (f a)) ->
  In x (warnings (snd (m s))) -> In x (warnings (snd (bind m f s))).
Proof.
  intros Hf Hx. unfold bind. destruct (m s) as [[a|e] s1]; cbn [snd] in *.
  - now apply appends_keeps_warning.
  - exact Hx.
Qed.

(** The basic strategy on a decoded object reports each required field
    the object lacks. *)
Lemma basic_reports_missing_field E fields field s :
  metadata s = JObj fields ->
  In field ["version"; "utterance"; "nsm"; "concepts"; "provenance"] ->
  Py.lookup field fields = None ->
  In ("Missing required metadata field: " ++ field)%string
     (errors (snd (_validate_metadata_basic E s))).
Proof.
  intros Hm Hin Hlook. unfold _validate_metadata_basic.
  apply bind_keeps_error.
  { intros _. repeat appends_step. }
  apply (for_each_reports (has_metadata (JObj fields))
           (stable_has_metadata _)) with (x := field);
    [ | exact Hin | | exact Hm].
  - intros y _.
    apply (safe_bind_emits _ (stable_has_metadata _) _ _ _ _ _
             (emits_self_metadata (JObj fields))).
    cbn [Py.contains lift]. repeat safe_step.
  - intros s' Hs'. unfold bind, self_metadata. rewrite Hs'.
    cbn [Py.contains lift ret]. unfold Py.has_key. rewrite Hlook.
    cbn [negb when]. apply errors_append_reports.
Qed.

(** C9: when [jsonschema] is not available, the basic strategy runs in
    its place (the run says so in a warning) and, for a decoded metadata
    object, the report holds an error for each of the five required
    top-level fields that the object lacks, [provenance] among them. *)
Theorem C9_basic_strategy_reports_missing_field E self r el t fields field :
  JSONSCHEMA_AVAILABLE E = false ->
  ET_parse E = ParseOk r -> is_svg_root r = true ->
  find_svg_or_plain "metadata" r = Some el ->
  ET.text el = Some t -> PyStr.strip_is_empty t = false ->
  json_loads E t = Decoded (JObj fields) ->
  In field ["version"; "utterance"; "nsm"; "concepts"; "provenance"] ->
  Py.lookup field fields = None ->
  In "Skipping JSON schema validation (jsonschema not installed)"
     (warnings_of (fst (validate E self)))
  /\ In ("Missing required metadata field: " ++ field)%string
        (errors_of (fst (validate E self))).
Proof.
  intros Havail Hp Hr Hf Ht Hb Hj Hin Hlook. split.
  - apply validate_keeps_warning. rewrite (validate_body_parsed E r _ Hp Hr).
    apply bind_keeps_warning; [intros _; apply appends_after_metadata | ].
    rewrite (extract_decoded E r _ el t (JObj fields)) by (assumption || reflexivity).
    unfold schema_stage. rewrite Havail.
    apply bind_keeps_warning;
      [intros _; apply appends_validate_metadata_basic | ].
    rewrite warnings_append_eq. cbn [snd add_findings warnings].
    apply in_or_app. right. now left.
  - apply validate_keeps_error. rewrite (validate_body_parsed E r _ Hp Hr).
    apply bind_keeps_error; [intros _; apply appends_after_metadata | ].
    rewrite (extract_decoded E r _ el t (JObj fields)) by (assumption || reflexivity).
    unfold schema_stage. rewrite Havail.
    unfold bind at 1. rewrite warnings_append_eq.
    now apply basic_reports_missing_field with (fields := fields).
Qed.

Lemma C9_basic_strategy_reports_missing_field_witness :
  In "Skipping JSON schema validation (jsonschema not installed)"
     (warnings_of (fst (validate Basic.empty_object_env init)))
  /\ In ("Missing required metadata field: " ++ "provenance")%string
        (errors_of (fst (validate Basic.empty_object_env init))).
Proof.
  apply (C9_basic_strategy_reports_missing_field
           Basic.empty_object_env init Basic.empty_object_doc
           (Samples.metadata_el "{}") "{}" [] "provenance").
  - reflexivity.
  - reflexivity.
  - reflexivity.
  - reflexivity.
  - reflexivity.
  - reflexivity.
  - reflexivity.
  - simpl. tauto.
  - reflexivity.
Defined.

(** *** What a run reads of the object it starts from *)

Lemma same_report_refl x : same_report x x.
Proof. repeat split. Qed.

Lemma validate_of_body E self self' :
  same_report (validate_body E (fresh self)) (validate_body E (fresh self')) ->
  fst (validate E self) = fst (validate E self').
Proof.
  intros (Ho & He & Hw).
  destruct (validate_body E (fresh self)) as [[[]|e] s] eqn:H1;
    destruct (validate_body E (fresh self')) as [[[]|e'] s'] eqn:H2;
    cbn [fst snd] in Ho, He, Hw; try discriminate.
  - rewrite (validate_returned E self s H1), (validate_returned E self' s' H2).
    now rewrite He, Hw.
  - injection Ho as <-.
    rewrite (validate_raised E self e s H1), (validate_raised E self' e s' H2).
    now rewrite He, Hw.
Qed.

Lemma extract_loads_exception E r s el t e :
  root s = Some r -> find_svg_or_plain "metadata" r = Some el ->
  ET.text el = Some t -> PyStr.strip_is_empty t = false ->
  json_loads E t = LoadsOtherException e ->
  _extract_and_validate_metadata E s
  = (Raise (PyException e), add_findings [] (metadata_id_warning el) s).
Proof.
  intros Hs Hf Ht Hb Hj. unfold _extract_and_validate_metadata.
  rewrite (bind_self_root r) by assumption. rewrite Hf.
  rewrite metadata_id_warning_step. rewrite Ht, Hb.
  unfold bind at 1. now rewrite Hj.
Qed.

(** From the metadata step on, the run does not depend on the metadata
    the object held before: the step raises before reading it, or
    replaces it. *)
Lemma metadata_step_forgets E r (k : unit -> M unit) s v :
  root s = Some r ->
  same_report (bind (_extract_and_validate_metadata E) k (with_metadata v s))
              (bind (_extract_and_validate_metadata E) k s).
Proof.
  intros Hs.
  assert (Hs' : root (with_metadata v s) = Some r) by exact Hs.
  unfold bind at 1 2.
  destruct (find_svg_or_plain "metadata" r) as [el|] eqn:Hf.
  - destruct (PyStr.blank (ET.text el)) eqn:Hblank.
    + rewrite (extract_empty E r _ el Hs' Hf Hblank),
        (extract_empty E r _ el Hs Hf Hblank). repeat split.
    + destruct (ET.text el) as [t|] eqn:Ht; [ | discriminate].
      cbn [PyStr.blank] in Hblank.
      destruct (json_loads E t) as [d|e|e] eqn:Hj.
      * rewrite (extract_decoded E r _ el t d Hs' Hf Ht Hblank Hj),
          (extract_decoded E r _ el t d Hs Hf Ht Hblank Hj).
        apply same_report_refl.
      * rewrite (extract_undecodable E r _ el t e Hs' Hf Ht Hblank Hj),
          (extract_undecodable E r _ el t e Hs Hf Ht Hblank Hj). repeat split.
      * rewrite (extract_loads_exception E r _ el t e Hs' Hf Ht Hblank Hj),
          (extract_loads_exception E r _ el t e Hs Hf Ht Hblank Hj).
        repeat split.
  - rewrite (extract_absent E r _ Hs' Hf), (extract_absent E r _ Hs Hf).
    repeat split.
Qed.

(** The report of a run is a function of the surroundings alone: the
    tree, the root and the metadata the object holds from [__init__] or
    from an earlier run are overwritten before they are read, and the two
    lists are rebound. *)
Lemma validate_forgets E self self' :
  fst (validate E self) = fst (validate E self').
Proof.
  apply validate_of_body.
  destruct (ET_parse E) as [t|e| |e] eqn:Hp.
  - destruct (is_svg_root t) eqn:Hr.
    + rewrite !(validate_body_parsed E t _ Hp Hr).
      change (at_metadata t (fresh self))
        with (with_metadata (metadata self) (at_metadata t (fresh self'))).
      now apply (metadata_step_forgets E t).
    + unfold validate_body, _parse_svg. rewrite Hp.
      unfold bind, set_tree_and_root, self_root. cbn [root].
      unfold is_svg_root in Hr. apply orb_false_iff in Hr as [-> ->].
      repeat split.
  - unfold validate_body, _parse_svg. rewrite Hp. repeat split.
  - unfold validate_body, _parse_svg. rewrite Hp. repeat split.
  - unfold validate_body, _parse_svg. rewrite Hp. repeat split.
Qed.

(** C8: a second run of [validate] on the same object, in unchanged
    surroundings, returns the triple the first run returned: the same
    verdict and the same errors and warnings, entry by entry.  More
    generally the triple does not depend on what the object held when
    the run began. *)
Theorem C8_validate_twice_gives_the_same_report E self :
  (let '(first, self_after) := validate E self in
   let '(second, _) := validate E self_after in
   second = first)
  /\ (forall other, fst (validate E other) = fst (validate E self)).
Proof.
  split.
  - destruct (validate E self) as [first self_after] eqn:H1.
    destruct (validate E self_after) as [second self_after'] eqn:H2.
    change second with (fst (second, self_after')).
    change first with (fst (first, self_after)).
    rewrite <- H1, <- H2. apply validate_forgets.
  - intros other. apply validate_forgets.
Qed.

(** *** One concept *)



Lemma existsb_eqb_In x ids : existsb (String.eqb x) ids = true <-> In x ids.
Proof.
  rewrite existsb_exists. split.
  - intros (y & Hy & Heq). apply String.eqb_eq in Heq. now subst.
  - intros H. exists x. split; [exact H | apply String.eqb_refl].
Qed.

(** An explicit concept whose id is truthy, can be hashed and is in no
    group: a value that is not a string equals no member of the set. *)
Lemma check_concept_absent E ids cf s :
  Py.truthy (Py.dict_get "implicit" (JBool false) cf) = false ->
  Py.truthy (Py.dict_get "id" JNull cf) = true ->
  Py.hashable (Py.dict_get "id" JNull cf) = true ->
  (forall x, Py.dict_get "id" JNull cf = JStr x -> ~ In x ids) ->
  check_concept E ids (JObj cf) s
  = (Return tt,
     add_findings
       [("Metadata concept '" ++ str E (Py.dict_get "id" JNull cf)
         ++ "' has no corresponding <g> element in the SVG")%string] [] s).
Proof.
  intros Himp Hid Hhash Hnot.
  unfold check_concept. cbn [Py.get lift].
  unfold bind, ret. rewrite Himp, Hid. cbn [negb].
  destruct (Py.dict_get "id" JNull cf) as [ | | | |x| | ];
    try discriminate Hhash; cbn [Py.in_str_set lift ret negb when];
    try apply errors_append_eq.
  destruct (existsb (String.eqb x) ids) eqn:Hex.
  - apply existsb_eqb_In in Hex. now destruct (Hnot x eq_refl).
  - cbn [negb when]. apply errors_append_eq.
Qed.

Lemma safe_check_concept E P ids c :
  stable P -> concept_record c = true -> safe_on P (check_concept E ids c).
Proof.
  intros HP Hc. destruct c as [ | | | | |items|cf]; try discriminate.
  cbn [concept_record] in Hc. unfold check_concept. cbn [Py.get lift].
  apply (safe_bind_emits P HP _ _ (Py.dict_get "id" JNull cf) [] []).
  { intros s _. unfold ret. now rewrite add_findings_nil. }
  apply (safe_bind_emits P HP _ _ (Py.dict_get "implicit" (JBool false) cf) [] []).
  { intros s _. unfold ret. now rewrite add_findings_nil. }
  destruct (Py.truthy (Py.dict_get "implicit" (JBool false) cf)).
  - apply safe_when. now apply safe_warnings_append.
  - destruct (Py.truthy (Py.dict_get "id" JNull cf)); cbn [negb].
    + destruct (Py.dict_get "id" JNull cf); try discriminate;
        cbn [Py.in_str_set lift];
        (apply safe_bind; [exact HP | now apply safe_ret | intros ?];
         apply safe_when; now apply safe_errors_append).
    + apply safe_bind; [exact HP | now apply safe_ret | intros ?].
      now apply safe_errors_append.
Qed.

(** *** The schema step on a decoded object never raises *)

Lemma emits_ret {A} P (a : A) : emits_on P (ret a) a [] [].
Proof. intros s _. unfold ret. now rewrite add_findings_nil. Qed.

Lemma safe_validate_metadata_basic E fields :
  safe_on (has_metadata (JObj fields)) (_validate_metadata_basic E).
Proof.
  set (P := has_metadata (JObj fields)).
  assert (HP : stable P) by apply stable_has_metadata.
  unfold _validate_metadata_basic.
  apply safe_bind; [exact HP | | intros _].
  - apply safe_for_each; [exact HP | intros field _].
    apply (safe_bind_emits P HP _ _ _ _ _ (emits_self_metadata (JObj fields))).
    cbn [Py.contains lift]. repeat safe_step.
  - apply (safe_bind_emits P HP _ _ _ _ _ (emits_self_metadata (JObj fields))).
    cbn [Py.contains lift].
    apply (safe_bind_emits P HP _ _ _ _ _ (emits_ret P _)).
    unfold Py.has_key.
    destruct (Py.lookup "concepts" fields) as [concepts|] eqn:Hlook;
      cbn [when]; [ | now apply safe_ret].
    cbn [Py.getitem]. rewrite Hlook. cbn [lift].
    apply (safe_bind_emits P HP _ _ _ _ _ (emits_ret P _)).
    destruct concepts as [ | | | | |items|cf];
      try (now apply safe_errors_append).
    destruct items as [|c0 items]; [now apply safe_errors_append | ].
    apply safe_for_enumerate; [exact HP | intros i concept _].
    destruct concept; cbn [Py.isinstance_dict negb];
      try (now apply safe_errors_append).
    cbn [Py.contains Py.get lift].
    apply safe_bind; [exact HP | | intros _].
    + apply safe_for_each; [exact HP | intros req_field _].
      apply safe_bind; [exact HP | now apply safe_ret | intros present].
      apply safe_when. now apply safe_errors_append.
    + apply safe_bind; [exact HP | now apply safe_ret | intros is_implicit].
      apply safe_bind; [exact HP | now apply safe_ret | intros has_id].
      apply safe_when.
      apply safe_bind; [exact HP | now apply safe_ret | intros role].
      now apply safe_errors_append.
Qed.

Lemma safe_validate_metadata_schema E fields :
  safe_on (has_metadata (JObj fields)) (_validate_metadata_schema E).
Proof.
  set (P := has_metadata (JObj fields)).
  assert (HP : stable P) by apply stable_has_metadata.
  pose proof (safe_validate_metadata_basic E fields) as Hbasic.
  unfold _validate_metadata_schema.
  destruct (negb (schema_path_exists E)).
  - apply safe_bind; [exact HP | now apply safe_warnings_append | now intros _].
  - destruct (schema_load E) as [e|schema].
    + apply safe_bind;
        [exact HP | now apply safe_warnings_append | now intros _].
    + apply (safe_bind_emits P HP _ _ _ _ _ (emits_self_metadata (JObj fields))).
      destruct (jsonschema_validate E (JObj fields) schema);
        [now apply safe_ret | now apply safe_errors_append
         | now apply safe_errors_append].
Qed.

Lemma safe_schema_stage E fields :
  safe_on (has_metadata (JObj fields)) (schema_stage E).
Proof.
  unfold schema_stage. destruct (JSONSCHEMA_AVAILABLE E).
  - apply safe_validate_metadata_schema.
  - apply safe_bind; [apply stable_has_metadata | | intros _].
    + apply safe_warnings_append.
    + apply safe_validate_metadata_basic.
Qed.

(** A document whose metadata decodes to an object reaches the checks
    after the metadata step, with that object stored. *)
Lemma metadata_step_returns E r s el t fields :
  root s = Some r -> find_svg_or_plain "metadata" r = Some el ->
  ET.text el = Some t -> PyStr.strip_is_empty t = false ->
  json_loads E t = Decoded (JObj fields) ->
  exists s1,
    _extract_and_validate_metadata E s = (Return tt, s1)
    /\ root s1 = Some r /\ metadata s1 = JObj fields.
Proof.
  intros Hs Hf Ht Hb Hj.
  rewrite (extract_decoded E r s el t (JObj fields) Hs Hf Ht Hb Hj).
  set (s0 := with_metadata (JObj fields)
               (add_findings [] (metadata_id_warning el) s)).
  destruct (safe_schema_stage E fields) as ([] & es & ws & H).
  exists (add_findings es ws s0). split; [now apply H | ].
  split; [exact Hs | reflexivity].
Qed.

(** *** The correspondence check *)

Lemma bind_self_metadata {B} (f : json -> M B) s :
  bind self_metadata f s = f (metadata s) s.
Proof. reflexivity. Qed.

(** On an object whose [concepts] is an array, the check is the loop
    over the entries of the array. *)
Lemma correspondence_is_the_loop E r fields items s :
  root s = Some r -> metadata s = JObj fields ->
  Py.lookup "concepts" fields = Some (JArr items) ->
  _check_concept_group_correspondence E s
  = for_each (check_concept E (group_ids_of (find_groups r))) items s.
Proof.
  intros Hs Hm Hlook. unfold _check_concept_group_correspondence.
  rewrite bind_self_metadata, Hm.
  destruct fields as [|kv fields']; [discriminate | ].
  cbn [Py.truthy negb Py.contains]. unfold Py.has_key. rewrite Hlook.
  cbn [lift]. unfold bind at 1. cbn [ret negb].
  rewrite (bind_self_root r) by assumption.
  cbn [Py.getitem]. rewrite Hlook. cbn [lift Py.iter].
  reflexivity.
Qed.

(** The object when the run reaches the correspondence check. *)
Lemma run_reaches_correspondence E self r el t fields :
  ET_parse E = ParseOk r -> is_svg_root r = true ->
  find_svg_or_plain "metadata" r = Some el ->
  ET.text el = Some t -> PyStr.strip_is_empty t = false ->
  json_loads E t = Decoded (JObj fields) ->
  exists s3,
    root s3 = Some r /\ metadata s3 = JObj fields
    /\ validate_body E (fresh self) = _check_concept_group_correspondence E s3.
Proof.
  intros Hp Hr Hf Ht Hb Hj.
  rewrite (validate_body_parsed E r _ Hp Hr).
  destruct (metadata_step_returns E r (at_metadata r (fresh self)) el t fields)
    as (s1 & Hx & Hs1 & Hm1); try assumption; [reflexivity | ].
  unfold bind at 1. rewrite Hx. unfold after_metadata.
  destruct (safe_check_embedded_stylesheet r) as ([] & es & ws & Hstyle).
  rewrite (bind_emits (has_root r) _ _ tt es ws s1 Hstyle Hs1).
  destruct (safe_check_semantic_groups r) as ([] & es' & ws' & Hgroups).
  rewrite (bind_emits (has_root r) _ _ tt es' ws' (add_findings es ws s1)
             Hgroups Hs1).
  exists (add_findings es' ws' (add_findings es ws s1)).
  split; [exact Hs1 | split; [exact Hm1 | reflexivity]].
Qed.

(** An error or a warning of the turn of the loop for one concept is in
    the report, when the entries before it in the array are shaped as the
    data model has them, so that the loop reaches the concept. *)
Lemma validate_reports_concept E self r el t fields before c after :
  ET_parse E = ParseOk r -> is_svg_root r = true ->
  find_svg_or_plain "metadata" r = Some el ->
  ET.text el = Some t -> PyStr.strip_is_empty t = false ->
  json_loads E t = Decoded (JObj fields) ->
  Py.lookup "concepts" fields = Some (JArr (before ++ c :: after)) ->
  Forall (fun x => concept_record x = true) before ->
  let ids := group_ids_of (find_groups r) in
  (forall msg,
      (forall s, In msg (errors (snd (check_concept E ids c s)))) ->
      In msg (errors_of (fst (validate E self))))
  /\ (forall msg,
         (forall s, In msg (warnings (snd (check_concept E ids c s)))) ->
         In msg (warnings_of (fst (validate E self)))).
Proof.
  intros Hp Hr Hf Ht Hb Hj Hlook Hwf. cbv zeta.
  destruct (run_reaches_correspondence E self r el t fields Hp Hr Hf Ht Hb Hj)
    as (s3 & Hs3 & Hm3 & Hbody).
  rewrite (correspondence_is_the_loop E r fields _ s3 Hs3 Hm3 Hlook) in Hbody.
  set (ids := group_ids_of (find_groups r)) in *.
  destruct (for_each_reaches (has_root r) (stable_has_root r)
              (check_concept E ids) before c after) with (s := s3)
    as (s1 & _ & Hloop); [ | exact Hs3 | ].
  { intros y Hy. apply safe_check_concept; [apply stable_has_root | ].
    rewrite Forall_forall in Hwf. now apply Hwf. }
  rewrite Hloop in Hbody.
  assert (Hrest : forall u : unit,
             appends (for_each (check_concept E ids) after)).
  { intros _. apply appends_for_each. intros; apply appends_check_concept. }
  split; intros msg Hmsg.
  - apply validate_keeps_error. rewrite Hbody.
    apply bind_keeps_error; [exact Hrest | apply Hmsg].
  - apply validate_keeps_warning. rewrite Hbody.
    apply bind_keeps_warning; [exact Hrest | apply Hmsg].
Qed.





(** A stray id on an implicit concept, with nothing else amiss, leaves the
    document valid. *)
Lemma stray_id_alone_keeps_the_document_valid :
  fst (validate Concepts.stray_env init)
  = (true, [],
     ["No <defs> element found; embedded stylesheet recommended";
      "Concept 'sleeper' is marked as implicit but has an 'id' field. Implicit concepts typically don't have corresponding SVG groups."]).
Proof. vm_compute. reflexivity. Qed.

(** *** A valid report *)

Lemma app_same_nil {A} (l l' : list A) : l ++ l' = l -> l' = [].
Proof.
  intros H. apply (app_inv_head l). now rewrite app_nil_r.
Qed.

(** A loop that returns without a new error: no turn raised, and no turn
    added an error. *)
Lemma for_each_returned_clean {A} (body : A -> M unit) l :
  (forall x, appends (body x)) ->
  forall s s',
    for_each body l s = (Return tt, s') -> errors s' = errors s ->
    forall x, In x l ->
              exists sx sx', body x sx = (Return tt, sx')
                             /\ errors sx' = errors sx.
Proof.
  intros Happ. induction l as [|y l IH]; intros s s' Hrun Herr x Hin;
    [destruct Hin | ].
  cbn [for_each] in Hrun. unfold bind in Hrun.
  destruct (body y s) as [[[]|e] s1] eqn:Hy; [ | discriminate].
  destruct (appends_errors (body y) s (Happ y)) as (es1 & H1).
  rewrite Hy in H1. cbn [snd] in H1.
  destruct (appends_errors (for_each body l) s1
              (appends_for_each body l Happ)) as (es2 & H2).
  rewrite Hrun in H2. cbn [snd] in H2.
  assert (Hnil : es1 ++ es2 = []).
  { apply (app_same_nil (errors s)). now rewrite app_assoc, <- H1, <- H2. }
  apply app_eq_nil in Hnil as [-> ->]. rewrite app_nil_r in H1, H2.
  destruct Hin as [<- | Hin].
  - now exists s, s1.
  - apply (IH s1 s' Hrun H2 x Hin).
Qed.

(** A turn of the loop over the concepts that returns without a new
    error: the entry is an object and, unless implicit, its id is a
    string in the set of group ids. *)
Lemma check_concept_clean E ids c s s' :
  check_concept E ids c s = (Return tt, s') -> errors s' = errors s ->
  exists cf,
    c = JObj cf
    /\ (Py.truthy (Py.dict_get "implicit" (JBool false) cf) = false ->
        exists x, Py.lookup "id" cf = Some (JStr x) /\ In x ids).
Proof.
  intros Hrun Herr.
  destruct c as [ | | | | |items|cf]; try discriminate.
  exists cf. split; [reflexivity | intros Himp].
  unfold check_concept in Hrun. cbn [Py.get lift] in Hrun.
  unfold bind, ret in Hrun. rewrite Himp in Hrun.
  assert (Hno : forall msg, errors_append msg s <> (Return tt, s')).
  { intros msg H. rewrite errors_append_eq in H. injection H as <-.
    cbn [add_findings errors] in Herr. apply app_same_nil in Herr.
    discriminate. }
  destruct (Py.truthy (Py.dict_get "id" JNull cf)) eqn:Hid;
    cbn [negb] in Hrun; [ | now apply Hno in Hrun].
  unfold Py.dict_get in Hrun, Hid.
  destruct (Py.lookup "id" cf) as [v|]; [ | discriminate].
  destruct v as [ | | | |x|items|cf']; cbn [Py.in_str_set lift] in Hrun;
    try discriminate;
    try (unfold ret in Hrun; cbn [negb when] in Hrun; now apply Hno in Hrun).
  unfold ret in Hrun.
  destruct (existsb (String.eqb x) ids) eqn:Hex; cbn [negb when] in Hrun;
    [ | now apply Hno in Hrun].
  exists x. split; [reflexivity | now apply existsb_eqb_In].
Qed.

Lemma group_ids_of_In x groups :
  In x (group_ids_of groups)
  <-> x <> "" /\ exists g, In g groups /\ ET.get "id" g = Some x.
Proof.
  unfold group_ids_of. rewrite in_flat_map. split.
  - intros (g & Hg & Hx). destruct (ET.get "id" g) as [y|] eqn:Hid;
      [ | destruct Hx].
    destruct (y =? "") eqn:Hy; [destruct Hx | ].
    destruct Hx as [<- | []]. apply String.eqb_neq in Hy.
    split; [exact Hy | now exists g].
  - intros (Hx & g & Hg & Hid). exists g. split; [exact Hg | ].
    rewrite Hid. apply String.eqb_neq in Hx. rewrite Hx. now left.
Qed.

(** The elements the checks call groups are descendants of the root
    tagged [g], with or without the namespace. *)
Lemma find_groups_are_groups r g :
  In g (find_groups r) ->
  In g (flat_map ET.iter (ET.children r))
  /\ (ET.tag g = svg "g" \/ ET.tag g = "g").
Proof.
  unfold find_groups, ET.findall_descendants.
  destruct (filter (fun d => ET.tag d =? svg "g")
                   (flat_map ET.iter (ET.children r))) as [|g0 gs] eqn:Hns.
  - intros H. apply filter_In in H as [H1 H2]. apply String.eqb_eq in H2.
    now split; [ | right].
  - rewrite <- Hns. intros H. apply filter_In in H as [H1 H2].
    apply String.eqb_eq in H2. now split; [ | left].
Qed.

Lemma valid_run_returned E self :
  is_valid_of (fst (validate E self)) = true ->
  exists s, validate_body E (fresh self) = (Return tt, s) /\ errors s = [].
Proof.
  intros Hvalid.
  destruct (validate_body E (fresh self)) as [[[]|e] s] eqn:Hbody.
  - rewrite (validate_returned E self s Hbody) in Hvalid.
    unfold is_valid_of in Hvalid. cbn [fst] in Hvalid.
    apply Nat.eqb_eq, length_zero_iff_nil in Hvalid. now exists s.
  - rewrite (validate_raised E self e s Hbody) in Hvalid. discriminate.
Qed.

(** C4 as worded fails on its converse.  An explicit concept whose id
    no group carries gets no error that quotes the id when an entry
    before it in the array is a number: the loop raises on the number
    and the report holds that one error.  And an explicit concept whose
    id is the empty string, which no group carries either, is reported
    as having no id, not as lacking its element. *)
Lemma C4_unmatched_concept_without_its_error :
  (concepts_of (Concepts.metadata_with Stray.number_first)
   = [JInt 7; JObj Concepts.pillow_fields]
   /\ Py.truthy (Py.dict_get "implicit" (JBool false) Concepts.pillow_fields)
      = false
   /\ Py.lookup "id" Concepts.pillow_fields = Some (JStr "pillow")
   /\ group_ids_of (find_groups (Concepts.doc_with Stray.number_first_text))
      = ["bed"]
   /\ fst (validate Stray.number_first_env init)
      = (false,
         ["Unexpected error: 'int' object has no attribute 'get'"],
         ["No <defs> element found; embedded stylesheet recommended"]))
  /\ (Py.truthy (Py.dict_get "implicit" (JBool false) Stray.empty_id_fields)
      = false
      /\ Py.lookup "id" Stray.empty_id_fields = Some (JStr "")
      /\ fst (validate Stray.empty_id_env init)
         = (false,
            ["Concept with role 'place' is not marked as implicit but has no 'id' field"],
            ["No <defs> element found; embedded stylesheet recommended"])).
Proof. vm_compute. repeat split. Qed.

(** C4, amended: for a document whose metadata decodes.  If the report
    is valid, every entry of the [concepts] array is an object and every
    entry that is not implicit has a string id carried by a group
    element of the document (a descendant of the root tagged [g]): the
    ids of the explicit concepts are among the ids of the groups.
    Conversely, an explicit concept that the correspondence loop reaches
    (the entries before it being objects whose id is not a list or an
    object), whose id is truthy and can be hashed, and whose id no group
    carries gets an error that quotes the id and says that it has no
    corresponding [g] element. *)
Theorem C4_explicit_concepts_have_groups E self r el t m :
  ET_parse E = ParseOk r -> is_svg_root r = true ->
  find_svg_or_plain "metadata" r = Some el ->
  ET.text el = Some t -> PyStr.strip_is_empty t = false ->
  json_loads E t = Decoded m ->
  (is_valid_of (fst (validate E self)) = true ->
   forall c, In c (concepts_of m) ->
     exists cf,
       c = JObj cf
       /\ (Py.truthy (Py.dict_get "implicit" (JBool false) cf) = false ->
           exists x g,
             Py.lookup "id" cf = Some (JStr x)
             /\ ET.get "id" g = Some x
             /\ In g (find_groups r)
             /\ In g (flat_map ET.iter (ET.children r))
             /\ (ET.tag g = svg "g" \/ ET.tag g = "g")))
  /\ (forall before cf after,
        concepts_of m = before ++ JObj cf :: after ->
        Forall (fun c => concept_record c = true) before ->
        Py.truthy (Py.dict_get "implicit" (JBool false) cf) = false ->
        let concept_id := Py.dict_get "id" JNull cf in
        Py.truthy concept_id = true -> Py.hashable concept_id = true ->
        (forall x g, concept_id = JStr x -> In g (find_groups r) ->
                     ET.get "id" g <> Some x) ->
        In ("Metadata concept '" ++ str E concept_id
            ++ "' has no corresponding <g> element in the SVG")%string
           (errors_of (fst (validate E self)))).
Proof.
  intros Hp Hr Hf Ht Hb Hj.
  assert (Hshape : forall c, In c (concepts_of m) ->
                             exists fields, m = JObj fields
                                            /\ Py.lookup "concepts" fields
                                               = Some (JArr (concepts_of m))).
  { intros c Hc. destruct m as [ | | | | | |fields]; try destruct Hc.
    exists fields. split; [reflexivity | ]. cbn [concepts_of] in *.
    destruct (Py.lookup "concepts" fields) as [[ | | | | |items| ]|];
      try destruct Hc. reflexivity. }
  split.
  - intros Hvalid c Hc.
    destruct (Hshape c Hc) as (fields & -> & Hlook).
    set (items := concepts_of (JObj fields)) in *.
    destruct (valid_run_returned E self Hvalid) as (s & Hbody & Herr).
    destruct (run_reaches_correspondence E self r el t fields
                Hp Hr Hf Ht Hb Hj) as (s3 & Hs3 & Hm3 & Hrun).
    rewrite Hrun in Hbody.
    rewrite (correspondence_is_the_loop E r fields items s3 Hs3 Hm3 Hlook)
      in Hbody.
    set (ids := group_ids_of (find_groups r)) in *.
    assert (Happ : forall y, appends (check_concept E ids y))
      by (intros; apply appends_check_concept).
    destruct (appends_errors (for_each (check_concept E ids) items) s3
                (appends_for_each _ items Happ)) as (es & Hes).
    rewrite Hbody in Hes. cbn [snd] in Hes. rewrite Herr in Hes.
    symmetry in Hes. apply app_eq_nil in Hes as [Hes3 _].
    assert (Hsame : errors s = errors s3) by congruence.
    destruct (for_each_returned_clean (check_concept E ids) items Happ
                s3 s Hbody Hsame c Hc) as (sx & sx' & Hturn & Hclean).
    destruct (check_concept_clean E ids c sx sx' Hturn Hclean)
      as (cf & -> & Hid).
    exists cf. split; [reflexivity | intros Himp].
    destruct (Hid Himp) as (x & Hx & Hin).
    apply group_ids_of_In in Hin as (_ & g & Hg & Hgid).
    destruct (find_groups_are_groups r g Hg) as (Hdesc & Htag).
    exists x, g. repeat split; assumption.
  - intros before cf after Hitems Hwf Himp concept_id Hid Hhash Hnone.
    assert (Hc : In (JObj cf) (concepts_of m))
      by (rewrite Hitems; apply in_or_app; right; now left).
    destruct (Hshape _ Hc) as (fields & -> & Hlook).
    rewrite Hitems in Hlook.
    destruct (validate_reports_concept E self r el t fields before (JObj cf)
                after Hp Hr Hf Ht Hb Hj Hlook Hwf) as (Herr & _).
    apply Herr. intros s.
    rewrite (check_concept_absent E _ cf s Himp Hid Hhash).
    + cbn [snd add_findings errors]. apply in_or_app. right. now left.
    + intros x Hx Hin. apply group_ids_of_In in Hin as (_ & g & Hg & Hgid).
      now apply (Hnone x g Hx Hg).
Qed.

Lemma C4_explicit_concepts_have_groups_witness :
  (exists x g,
      Py.lookup "id" Concepts.bed_fields = Some (JStr x)
      /\ ET.get "id" g = Some x
      /\ In g (find_groups (Concepts.doc_with Concepts.bed_text))
      /\ In g (flat_map ET.iter
                        (ET.children (Concepts.doc_with Concepts.bed_text)))
      /\ (ET.tag g = svg "g" \/ ET.tag g = "g"))
  /\ In "Metadata concept 'pillow' has no corresponding <g> element in the SVG"
        (errors_of (fst (validate Concepts.unmatched_env init))).
Proof.
  split.
  - assert (Hvalid : is_valid_of (fst (validate Concepts.bed_only_env init))
                     = true) by (vm_compute; reflexivity).
    assert (Hj : json_loads Concepts.bed_only_env
                            (Concepts.payload_with Concepts.bed_text)
                 = Decoded (Concepts.metadata_with [JObj Concepts.bed_fields]))
      by (vm_compute; reflexivity).
    destruct (proj1 (C4_explicit_concepts_have_groups
                       Concepts.bed_only_env init
                       (Concepts.doc_with Concepts.bed_text)
                       (Samples.metadata_el
                          (Concepts.payload_with Concepts.bed_text))
                       (Concepts.payload_with Concepts.bed_text)
                       (Concepts.metadata_with [JObj Concepts.bed_fields])
                       eq_refl eq_refl eq_refl eq_refl eq_refl Hj)
                    Hvalid (JObj Concepts.bed_fields) (or_introl eq_refl))
      as (cf & Hcf & Hgroup).
    injection Hcf as <-. apply Hgroup. reflexivity.
  - assert (Hj : json_loads Concepts.unmatched_env
                            (Concepts.payload_with Concepts.unmatched_text)
                 = Decoded (Concepts.metadata_with Concepts.unmatched))
      by (vm_compute; reflexivity).
    assert (Hwf : Forall (fun c => concept_record c = true)
                         [JObj Concepts.bed_fields])
      by (repeat constructor).
    assert (Hnone : forall x g,
               Py.dict_get "id" JNull Concepts.pillow_fields = JStr x ->
               In g (find_groups (Concepts.doc_with Concepts.unmatched_text)) ->
               ET.get "id" g <> Some x).
    { vm_compute. intros x g [= <-] [<- | []]. discriminate. }
    exact (proj2 (C4_explicit_concepts_have_groups
                    Concepts.unmatched_env init
                    (Concepts.doc_with Concepts.unmatched_text)
                    (Samples.metadata_el
                       (Concepts.payload_with Concepts.unmatched_text))
                    (Concepts.payload_with Concepts.unmatched_text)
                    (Concepts.metadata_with Concepts.unmatched)
                    eq_refl eq_refl eq_refl eq_refl eq_refl Hj)
                 [JObj Concepts.bed_fields] Concepts.pillow_fields []
                 eq_refl Hwf eq_refl eq_refl eq_refl Hnone).
Defined.

(** ** Further properties of the checks *)

(** *** The findings of a method, computed along its body *)

Section Emits.

Variable P : validator -> Prop.
Hypothesis P_stable : stable P.

Lemma emits_bind {A B} (m : M A) (f : A -> M B) a b es ws es' ws' :
  emits_on P m a es ws -> emits_on P (f a) b es' ws' ->
  emits_on P (bind m f) b (es ++ es') (ws ++ ws').
Proof.
  intros Hm Hf s Hs. unfold bind. rewrite (Hm s Hs).
  rewrite (Hf (add_findings es ws s) (P_stable es ws s Hs)).
  now rewrite add_findings_add.
Qed.

Lemma emits_errors_append msg : emits_on P (errors_append msg) tt [msg] [].
Proof. intros s _. apply errors_append_eq. Qed.

Lemma emits_warnings_append msg : emits_on P (warnings_append msg) tt [] [msg].
Proof. intros s _. apply warnings_append_eq. Qed.

Lemma emits_self_root_on r attr :
  (forall s, P s -> root s = Some r) -> emits_on P (self_root attr) r [] [].
Proof.
  intros HP s Hs. unfold self_root. rewrite (HP s Hs).
  now rewrite add_findings_nil.
Qed.

Lemma emits_self_metadata_on v :
  (forall s, P s -> metadata s = v) -> emits_on P self_metadata v [] [].
Proof.
  intros HP s Hs. unfold self_metadata. rewrite (HP s Hs).
  now rewrite add_findings_nil.
Qed.

(** A method without errors: it returns, and appends warnings only. *)
Lemma emits_for_each_clean {A} (body : A -> M unit) l :
  (forall x, In x l -> exists ws, emits_on P (body x) tt [] ws) ->
  exists ws, emits_on P (for_each body l) tt [] ws.
Proof.
  induction l as [|x l IH]; intros Hbody.
  - exists []. apply emits_ret.
  - destruct (Hbody x (or_introl eq_refl)) as (ws1 & H1).
    destruct IH as (ws2 & H2); [intros y Hy; apply Hbody; now right | ].
    exists (ws1 ++ ws2). cbn [for_each].
    change (@nil string) with (@nil string ++ []).
    now apply (emits_bind _ _ tt).
Qed.

Lemma emits_for_enumerate_clean {A} (body : nat -> A -> M unit) l :
  (forall i x, In x l -> exists ws, emits_on P (body i x) tt [] ws) ->
  forall i, exists ws, emits_on P (for_enumerate body i l) tt [] ws.
Proof.
  induction l as [|x l IH]; intros Hbody i.
  - exists []. apply emits_ret.
  - destruct (Hbody i x (or_introl eq_refl)) as (ws1 & H1).
    destruct (IH (fun j y Hy => Hbody j y (or_intror Hy)) (S i)) as (ws2 & H2).
    exists (ws1 ++ ws2). cbn [for_enumerate].
    change (@nil string) with (@nil string ++ []).
    now apply (emits_bind _ _ tt).
Qed.

End Emits.

(** Follow a method body whose tests are decided, collecting what it
    appends. *)
Ltac emits_run :=
  repeat match goal with
    | |- emits_on _ (bind _ _) _ _ _ =>
        eapply emits_bind; [solve [auto with safe_db] | | ]
    | |- emits_on _ (errors_append _) _ _ _ => apply emits_errors_append
    | |- emits_on _ (warnings_append _) _ _ _ => apply emits_warnings_append
    | |- emits_on _ (ret _) _ _ _ => apply emits_ret
    | |- emits_on (has_root _) (self_root _) _ _ _ =>
        apply emits_self_root_on; intros ? H; exact H
    end.

(** *** The root element *)

(** The cases of [_check_root_attributes], with what each appends. *)
Ltac root_attributes_cases r :=
  unfold _check_root_attributes;
  let role := fresh "role" in
  let Hrole := fresh "Hrole" in
  let Himg := fresh "Himg" in
  let Hlab := fresh "Hlab" in
  let Hxmlns := fresh "Hxmlns" in
  let Hns := fresh "Hns" in
  destruct (ET.get "role" r) as [role|] eqn:Hrole;
  [destruct (role =? "img") eqn:Himg | ];
  (destruct (ET.get "aria-labelledby" r) as [?|] eqn:Hlab);
  (destruct (ET.has_attr "xmlns" r) eqn:Hxmlns;
   [ | destruct (PyStr.contains NS_svg (ET.tag r)) eqn:Hns]);
  (eexists; eexists; split;
   [ eapply emits_bind;
     [ apply stable_has_root
     | apply emits_self_root_on; intros ? H; exact H
     | cbn [for_each]; rewrite ?Hrole, ?Hlab, ?Hxmlns, ?Hns;
       cbn [differs_from_expected PyStr.of_option];
       change ("img" =? "") with false; rewrite ?Himg;
       cbn [negb andb orb when]; emits_run ]
   | ]);
  cbn [app orb];
  try match goal with
    | H : (_ =? _) = true |- _ => apply String.eqb_eq in H
    | H : (_ =? _) = false |- _ => apply String.eqb_neq in H
    end;
  subst.

(** X1. [_check_root_attributes] never raises.  It adds no error exactly when
    the root has [role="img"] and an [aria-labelledby] attribute, whose
    value is not looked at; it names the attribute that is missing and
    quotes a wrong role.  Its only warning is for the namespace, given
    when the root has no [xmlns] attribute and its tag does not hold the
    SVG namespace. *)
Theorem X1_root_attributes r :
  exists es ws,
    emits r _check_root_attributes tt es ws
    /\ (es = [] <->
        ET.get "role" r = Some "img" /\ ET.get "aria-labelledby" r <> None)
    /\ (ET.get "role" r = None ->
        In "Missing required attribute on <svg>: role" es)
    /\ (forall v, ET.get "role" r = Some v -> v <> "img" ->
        In ("Incorrect value for <svg> attribute 'role': expected 'img', found '"
            ++ v ++ "'")%string es)
    /\ (ET.get "aria-labelledby" r = None ->
        In "Missing required attribute on <svg>: aria-labelledby" es)
    /\ ws = (if ET.has_attr "xmlns" r || PyStr.contains NS_svg (ET.tag r)
             then []
             else ["SVG namespace not explicitly declared"]).
Proof.
  root_attributes_cases r.
  all: repeat split; try discriminate; try congruence; try tauto.
  all: try (intros [H1 H2]; congruence).
  all: try (intros v Hv Hne; injection Hv as <-; try contradiction;
            now left).
  all: try (intros; now left).
  all: try (intros; right; now left).
Qed.

Lemma X1_root_attributes_witness :
  exists es ws,
    emits (Samples.document []) _check_root_attributes tt es ws
    /\ es = [] /\ ws = [].
Proof.
  destruct (X1_root_attributes (Samples.document []))
    as (es & ws & Hemits & Hclean & _ & _ & _ & Hws).
  exists es, ws. split; [exact Hemits | split].
  - apply Hclean. split; [reflexivity | discriminate].
  - exact Hws.
Defined.

(** *** Title and description *)

(** The cases of [_check_title_and_desc], with what each appends. *)
Ltac title_and_desc_cases r :=
  unfold _check_title_and_desc;
  let title := fresh "title" in
  let desc := fresh "desc" in
  let Htitle := fresh "Htitle" in
  let Hdesc := fresh "Hdesc" in
  let Htb := fresh "Htb" in
  let Hti := fresh "Hti" in
  let Hdb := fresh "Hdb" in
  let Hdi := fresh "Hdi" in
  destruct (find_svg_or_plain "title" r) as [title|] eqn:Htitle;
  [destruct (PyStr.blank (ET.text title)) eqn:Htb;
   destruct (PyStr.truthy (ET.get "id" title)) eqn:Hti | ];
  (destruct (find_svg_or_plain "desc" r) as [desc|] eqn:Hdesc;
   [destruct (PyStr.blank (ET.text desc)) eqn:Hdb;
    destruct (PyStr.truthy (ET.get "id" desc)) eqn:Hdi | ]);
  (eexists; eexists; split;
   [ eapply emits_bind;
     [ apply stable_has_root
     | apply emits_self_root_on; intros ? H; exact H
     | cbv zeta; rewrite ?Htitle, ?Hdesc, ?Htb, ?Hti, ?Hdb, ?Hdi;
       cbn [negb when]; emits_run ]
   | ]);
  cbn [app length].

(** X2. [_check_title_and_desc] never raises and adds at most two errors.  It
    adds none exactly when a title and a description are found, each
    with text that is more than white space.  A missing element is
    reported as missing and not as empty; an element without a non-empty
    [id] gets a warning; a missing element gets no warning. *)
Theorem X2_title_and_desc r :
  exists es ws,
    emits r _check_title_and_desc tt es ws
    /\ (es = [] <->
        (exists title, find_svg_or_plain "title" r = Some title
                       /\ PyStr.blank (ET.text title) = false)
        /\ (exists desc, find_svg_or_plain "desc" r = Some desc
                         /\ PyStr.blank (ET.text desc) = false))
    /\ length es <= 2
    /\ (find_svg_or_plain "title" r = None ->
        In "Missing required <title> element" es
        /\ ~ In "<title> element is empty" es
        /\ ~ In "<title> should have an 'id' attribute" ws)
    /\ (forall title, find_svg_or_plain "title" r = Some title ->
        (PyStr.blank (ET.text title) = true <->
         In "<title> element is empty" es)
        /\ (PyStr.truthy (ET.get "id" title) = false <->
            In "<title> should have an 'id' attribute" ws))
    /\ (find_svg_or_plain "desc" r = None ->
        In "Missing required <desc> element" es
        /\ ~ In "<desc> element is empty" es
        /\ ~ In "<desc> should have an 'id' attribute" ws)
    /\ (forall desc, find_svg_or_plain "desc" r = Some desc ->
        (PyStr.blank (ET.text desc) = true <->
         In "<desc> element is empty" es)
        /\ (PyStr.truthy (ET.get "id" desc) = false <->
            In "<desc> should have an 'id' attribute" ws)).
Proof.
  title_and_desc_cases r.
  all: repeat split; intros.
  all: repeat match goal with
         | H : _ /\ _ |- _ => destruct H
         | H : exists _, _ |- _ => destruct H
         | H : Some _ = Some _ |- _ => injection H as <-
         | H : In _ (_ :: _) |- _ => destruct H
         | H : In _ [] |- _ => destruct H
         end.
  all: try discriminate; try congruence; try lia.
  all: try (now left); try (right; now left).
  all: try (eexists; split; [reflexivity | assumption]).
  all: try (intros Hin; cbn in Hin; intuition discriminate).
Qed.

Lemma X2_title_and_desc_witness :
  exists es ws,
    emits Structure.untitled_doc _check_title_and_desc tt es ws
    /\ In "Missing required <title> element" es
    /\ ~ In "<title> element is empty" es
    /\ ~ In "<title> should have an 'id' attribute" ws.
Proof.
  destruct (X2_title_and_desc Structure.untitled_doc)
    as (es & ws & Hemits & _ & _ & Hmissing & _).
  exists es, ws. split; [exact Hemits | ].
  apply Hmissing. reflexivity.
Defined.

(** *** The embedded stylesheet *)

(** X3. [_check_embedded_stylesheet] never raises and never adds an error: it
    gives warnings only, at most four.  It gives none exactly when the
    root has a [defs] child with a [style] child whose text holds the two
    class names and the two media queries; without [defs], or without
    [style] in it, it gives the one warning that says so. *)
Theorem X3_embedded_stylesheet r :
  exists es ws,
    emits r _check_embedded_stylesheet tt es ws
    /\ es = []
    /\ length ws <= 4
    /\ (ws = [] <->
        exists defs style,
          find_svg_or_plain "defs" r = Some defs
          /\ find_svg_or_plain "style" defs = Some style
          /\ forall marker,
              In marker [".f"; ".k"; "@media (prefers-contrast: high)";
                         "@media (forced-colors: active)"] ->
              PyStr.contains marker
                (match ET.text style with Some t => t | None => "" end)
              = true)
    /\ (find_svg_or_plain "defs" r = None ->
        ws = ["No <defs> element found; embedded stylesheet recommended"])
    /\ (forall defs,
          find_svg_or_plain "defs" r = Some defs ->
          find_svg_or_plain "style" defs = None ->
          ws = ["No <style> element in <defs>; embedded stylesheet recommended"]).
Proof.
  unfold _check_embedded_stylesheet.
  destruct (find_svg_or_plain "defs" r) as [defs|] eqn:Hdefs;
    [destruct (find_svg_or_plain "style" defs) as [style|] eqn:Hstyle;
     [remember (match ET.text style with Some t => t | None => "" end)
        as style_text eqn:Htext;
      destruct (PyStr.contains ".f" style_text) eqn:Hf;
      destruct (PyStr.contains ".k" style_text) eqn:Hk;
      destruct (PyStr.contains "@media (prefers-contrast: high)" style_text)
        eqn:Hcontrast;
      destruct (PyStr.contains "@media (forced-colors: active)" style_text)
        eqn:Hforced | ] | ];
    (eexists; eexists; split;
     [ eapply emits_bind;
       [ apply stable_has_root
       | apply emits_self_root_on; intros ? H; exact H
       | rewrite ?Hdefs, ?Hstyle; cbv zeta;
         rewrite <- ?Htext; cbn [for_each];
         rewrite ?Hf, ?Hk, ?Hcontrast, ?Hforced;
         cbn [negb when]; emits_run ]
     | ]).
  all: cbn [app length].
  all: split; [reflexivity | split; [lia | split; [ | split]]].
  all: try (intros; congruence).
  all: try (intros defs0 Hd Hs; injection Hd as <-; congruence).
  all: split;
    [ intros Hnil; try discriminate
    | intros (defs0 & style0 & Hd & Hs & Hm); try discriminate;
      injection Hd as <-; rewrite Hstyle in Hs; try discriminate;
      injection Hs as <-;
      rewrite <- Htext in Hm;
      pose proof (Hm ".f" (or_introl eq_refl));
      pose proof (Hm ".k" (or_intror (or_introl eq_refl)));
      pose proof (Hm "@media (prefers-contrast: high)"
                     (or_intror (or_intror (or_introl eq_refl))));
      pose proof (Hm "@media (forced-colors: active)"
                     (or_intror (or_intror (or_intror (or_introl eq_refl)))));
      try reflexivity; congruence ].
  exists defs, style.
  split; [reflexivity | split; [exact Hstyle | ]].
  rewrite <- Htext.
  intros marker [<- | [<- | [<- | [<- | []]]]]; assumption.
Qed.

Lemma X3_embedded_stylesheet_witness :
  exists es ws,
    emits Structure.styled_doc _check_embedded_stylesheet tt es ws
    /\ es = [] /\ ws = [].
Proof.
  destruct (X3_embedded_stylesheet Structure.styled_doc)
    as (es & ws & Hemits & Hes & _ & Hclean & _).
  exists es, ws. split; [exact Hemits | split; [exact Hes | ]].
  apply Hclean.
  exists (Structure.defs_el Structure.style_text),
    (Element (svg "style") [] (Some Structure.style_text) []).
  split; [reflexivity | split; [reflexivity | ]].
  intros marker [<- | [<- | [<- | [<- | []]]]]; vm_compute; reflexivity.
Defined.

(** *** Loops whose turns return *)

Section Loops.

Variable P : validator -> Prop.
Hypothesis P_stable : stable P.

(** A loop adds no error exactly when no turn does. *)
Lemma for_each_clean_iff {A} (body : A -> M unit) (Q : A -> Prop) l :
  (forall x, exists es ws, emits_on P (body x) tt es ws /\ (es = [] <-> Q x)) ->
  exists es ws,
    emits_on P (for_each body l) tt es ws /\ (es = [] <-> Forall Q l).
Proof.
  intros Hbody. induction l as [|x l (es2 & ws2 & H2 & Hiff2)].
  - exists [], []. split; [apply emits_ret | ]. split; [constructor | reflexivity].
  - destruct (Hbody x) as (es1 & ws1 & H1 & Hiff1).
    exists (es1 ++ es2), (ws1 ++ ws2). split.
    + cbn [for_each]. now apply (emits_bind P P_stable _ _ tt).
    + split.
      * intros H. apply app_eq_nil in H as [Ha Hb]. constructor; tauto.
      * intros H. inversion H; subst.
        rewrite (proj2 Hiff1), (proj2 Hiff2) by assumption. reflexivity.
Qed.

Lemma for_enumerate_clean_iff {A} (body : nat -> A -> M unit) (Q : A -> Prop) l :
  (forall i x,
      exists es ws, emits_on P (body i x) tt es ws /\ (es = [] <-> Q x)) ->
  forall i,
  exists es ws,
    emits_on P (for_enumerate body i l) tt es ws /\ (es = [] <-> Forall Q l).
Proof.
  intros Hbody. induction l as [|x l IH]; intros i.
  - exists [], []. split; [apply emits_ret | ]. split; [constructor | reflexivity].
  - destruct (Hbody i x) as (es1 & ws1 & H1 & Hiff1).
    destruct (IH (S i)) as (es2 & ws2 & H2 & Hiff2).
    exists (es1 ++ es2), (ws1 ++ ws2). split.
    + cbn [for_enumerate]. now apply (emits_bind P P_stable _ _ tt).
    + split.
      * intros H. apply app_eq_nil in H as [Ha Hb]. constructor; tauto.
      * intros H. inversion H; subst.
        rewrite (proj2 Hiff1), (proj2 Hiff2) by assumption. reflexivity.
Qed.

End Loops.

(** *** Groups *)

(** One turn of the loop over the groups never raises and adds at most
    three errors.  It adds none exactly when the group has no
    [data-concept] or an empty one, or has [role="group"],
    [tabindex="0"] and an [aria-label].  It warns only about a group
    with [role="group"] and no [data-concept] attribute at all. *)
Lemma check_group_findings r i g :
  exists es ws,
    emits r (check_group i g) tt es ws
    /\ (es = [] <-> group_complete g)
    /\ length es <= 3
    /\ ws = (if match ET.get "data-concept" g with
                | None => PyStr.eq_opt (ET.get "role" g) "group"
                | Some _ => false
                end
             then [("Group '" ++ group_id_of i g
                    ++ "' has role='group' but no data-concept attribute")%string]
             else []).
Proof.
  unfold check_group, group_complete.
  destruct (ET.get "data-concept" g) as [dc|] eqn:Hdc;
    [destruct (PyStr.truthy (Some dc)) eqn:Htruthy;
     [destruct (ET.get "role" g) as [role|] eqn:Hrole;
      [destruct (role =? "group") eqn:Hr | ];
      (destruct (ET.get "tabindex" g) as [tabindex|] eqn:Htab;
       [destruct (tabindex =? "0") eqn:Ht | ]);
      destruct (ET.get "aria-label" g) as [label|] eqn:Hlabel | ]
    | destruct (PyStr.eq_opt (ET.get "role" g) "group") eqn:Hrole ];
    (eexists; eexists; split;
     [ cbv zeta; rewrite ?Htruthy; cbn [when PyStr.truthy for_each];
       rewrite ?Hrole, ?Htab, ?Hlabel;
       cbn [differs_from_expected PyStr.of_option];
       change ("group" =? "") with false; change ("0" =? "") with false;
       rewrite ?Hr, ?Ht; cbn [negb andb when]; emits_run
     | ]).
  all: cbn [app length].
  all: repeat match goal with
         | H : (_ =? _) = true |- _ => apply String.eqb_eq in H; subst
         | H : (_ =? _) = false |- _ => apply String.eqb_neq in H
         end.
  all: split; [ | split; [lia | reflexivity]].
  all: split; [intros Hnil; try discriminate | intros [Hc | (Hc1 & Hc2 & Hc3)]];
    try discriminate; try congruence; try reflexivity.
  all: try (right; repeat split; congruence).
  all: try (left; reflexivity).
Qed.

(** X4. [_check_semantic_groups] never raises.  It adds no error exactly
    when every group it visits has no [data-concept] or an empty one, or
    has [role="group"], [tabindex="0"] and an [aria-label]; a document
    without any group gets the one warning that says so, and no error. *)
Theorem X4_semantic_groups r :
  exists es ws,
    emits r _check_semantic_groups tt es ws
    /\ (es = [] <-> forall g, In g (find_groups r) -> group_complete g)
    /\ (find_groups r = [] ->
        ws = ["No <g> elements found; semantic grouping recommended"]).
Proof.
  unfold _check_semantic_groups.
  destruct (find_groups r) as [|g0 groups] eqn:Hgroups.
  - exists [], ["No <g> elements found; semantic grouping recommended"].
    split; [ | split; [ | reflexivity]].
    + change (@nil string) with (@nil string ++ []) at 1.
      change ["No <g> elements found; semantic grouping recommended"]
        with ([] ++ ["No <g> elements found; semantic grouping recommended"]).
      eapply emits_bind;
        [ apply stable_has_root
        | apply emits_self_root_on; intros ? H; exact H
        | rewrite Hgroups; apply emits_warnings_append ].
    + split; [intros _ g [] | reflexivity].
  - destruct (for_enumerate_clean_iff (has_root r) (stable_has_root r)
                check_group group_complete (g0 :: groups)) with (i := 0)
      as (es & ws & Hemits & Hiff).
    { intros i g. destruct (check_group_findings r i g)
        as (es & ws & H1 & H2 & _). now exists es, ws. }
    exists es, ws. split; [ | split; [ | discriminate]].
    + change es with ([] ++ es). change ws with ([] ++ ws).
      eapply emits_bind;
        [ apply stable_has_root
        | apply emits_self_root_on; intros ? H; exact H
        | rewrite Hgroups; exact Hemits ].
    + rewrite Hiff. apply Forall_forall.
Qed.

Lemma X4_semantic_groups_witness :
  exists es ws,
    emits (Samples.document []) _check_semantic_groups tt es ws
    /\ ws = ["No <g> elements found; semantic grouping recommended"].
Proof.
  destruct (X4_semantic_groups (Samples.document []))
    as (es & ws & Hemits & _ & Hnone).
  exists es, ws. split; [exact Hemits | ].
  apply Hnone. reflexivity.
Defined.

(** X5. The groups the checks visit are never a mix: when the document
    has a descendant tagged [g] in the SVG namespace, only such elements
    are visited, a descendant tagged plain [g] is not checked, and every
    group id comes from a namespaced element; plain [g] elements are
    visited only when there is no namespaced one. *)
Theorem X5_namespaced_groups_take_precedence r :
  (ET.findall_descendants (svg "g") r <> [] ->
   (forall g, In g (find_groups r) -> ET.tag g = svg "g")
   /\ (forall d, ET.tag d = "g" -> ~ In d (find_groups r))
   /\ (forall x, In x (group_ids_of (find_groups r)) ->
                 exists g, In g (flat_map ET.iter (ET.children r))
                           /\ ET.tag g = svg "g" /\ ET.get "id" g = Some x))
  /\ (ET.findall_descendants (svg "g") r = [] ->
      forall d, In d (flat_map ET.iter (ET.children r)) ->
                ET.tag d = "g" -> In d (find_groups r)).
Proof.
  assert (Hne : svg "g" <> "g") by discriminate.
  split.
  - intros Hns.
    assert (Hall : forall g, In g (find_groups r) ->
                             In g (flat_map ET.iter (ET.children r))
                             /\ ET.tag g = svg "g").
    { intros g Hg. unfold find_groups in Hg.
      destruct (ET.findall_descendants (svg "g") r) as [|g0 gs] eqn:Hfind;
        [contradiction | ].
      rewrite <- Hfind in Hg. unfold ET.findall_descendants in Hg.
      apply filter_In in Hg as [Hdesc Htag].
      now apply String.eqb_eq in Htag. }
    split; [intros g Hg; now apply Hall | split].
    + intros d Hd Hin. apply Hall in Hin as [_ Htag]. congruence.
    + intros x Hin.
      apply group_ids_of_In in Hin as (_ & g & Hg & Hid).
      destruct (Hall g Hg) as [Hdesc Htag]. now exists g.
  - intros Hns d Hd Htag. unfold find_groups. rewrite Hns.
    unfold ET.findall_descendants. apply filter_In. split; [exact Hd | ].
    now apply String.eqb_eq.
Qed.

Lemma X5_namespaced_groups_take_precedence_witness :
  In Mixed.plain_group (flat_map ET.iter (ET.children Mixed.mixed_doc))
  /\ ~ In Mixed.plain_group (find_groups Mixed.mixed_doc).
Proof.
  split.
  - vm_compute. tauto.
  - apply (proj1 (X5_namespaced_groups_take_precedence Mixed.mixed_doc)).
    + vm_compute. discriminate.
    + reflexivity.
Defined.

(** *** Concepts *)

Lemma stable_has_doc r m : stable (has_doc r m).
Proof. intros es ws s H. exact H. Qed.

Lemma dict_get_found k d cf v :
  Py.lookup k cf = Some v -> Py.dict_get k d cf = v.
Proof. intros H. unfold Py.dict_get. now rewrite H. Qed.

Lemma dict_get_string k cf x :
  Py.dict_get k JNull cf = JStr x -> Py.lookup k cf = Some (JStr x).
Proof.
  unfold Py.dict_get. destruct (Py.lookup k cf); [now intros -> | discriminate].
Qed.

(** What one turn of the loop over the concepts does is a function of
    the concept and of the group ids; the turn returns without an error
    exactly when the concept is accepted. *)
Lemma check_concept_yields E ids c :
  exists o es ws,
    (forall s, check_concept E ids c s = (o, add_findings es ws s))
    /\ ((o = Return tt /\ es = []) <-> concept_passes ids c).
Proof.
  unfold concept_passes.
  destruct c as [ | | | |text|items|cf];
    try (eexists (Raise _), [], []; split;
         [intros s; cbn; now rewrite add_findings_nil
         | split; [intros [H _]; discriminate
                  | intros (cf & H & _); discriminate]]).
  unfold check_concept. cbn [Py.get lift]. unfold bind, ret.
  destruct (Py.truthy (Py.dict_get "implicit" (JBool false) cf)) eqn:Himp.
  - destruct (Py.truthy (Py.dict_get "id" JNull cf)) eqn:Hid; cbn [when].
    + eexists (Return tt), [], [_]. split;
        [intros s; apply warnings_append_eq | ].
      split; [intros _; exists cf; split; [reflexivity | now left]
             | now intros _].
    + exists (Return tt), [], []. split;
        [intros s; unfold ret; now rewrite add_findings_nil | ].
      split; [intros _; exists cf; split; [reflexivity | now left]
             | now intros _].
  - assert (Hother : forall y, Py.lookup "id" cf = Some (JStr y) ->
                               Py.dict_get "id" JNull cf = JStr y)
      by (intros y Hy; now apply dict_get_found).
    destruct (Py.truthy (Py.dict_get "id" JNull cf)) eqn:Hid; cbn [negb].
    + destruct (Py.dict_get "id" JNull cf) as [ | | | |x|items|cf']
        eqn:Hget; cbn [Py.in_str_set lift];
        try discriminate;
        try (eexists (Return tt), [_], []; split;
             [intros s; unfold ret; cbn [negb when]; apply errors_append_eq
             | split; [intros [_ H]; discriminate
                      | intros (cf0 & H0 & [H1 | (y & H1 & _)]);
                        injection H0 as <-;
                        [congruence | apply Hother in H1; discriminate]]]);
        try (eexists (Raise _), [], []; split;
             [intros s; cbn; now rewrite add_findings_nil
             | split; [intros [H _]; discriminate
                      | intros (cf0 & H0 & [H1 | (y & H1 & _)]);
                        injection H0 as <-;
                        [congruence | apply Hother in H1; discriminate]]]).
      unfold ret. cbn [Py.truthy] in Hid.
      destruct (existsb (String.eqb x) ids) eqn:Hex; cbn [negb when].
      * exists (Return tt), [], []. split;
          [intros s; unfold ret; now rewrite add_findings_nil | ].
        split; [ | now intros _]. intros _. exists cf.
        split; [reflexivity | right]. exists x.
        split; [now apply dict_get_string
               | split; [ | now apply existsb_eqb_In]].
        intros ->. discriminate.
      * eexists (Return tt), [_], []. split;
          [intros s; apply errors_append_eq | ].
        split; [intros [_ H]; discriminate | ].
        intros (cf0 & H0 & [H1 | (y & H1 & _ & H2)]); injection H0 as <-;
          [congruence | ].
        apply Hother in H1. injection H1 as <-.
        apply existsb_eqb_In in H2. congruence.
    + eexists (Return tt), [_], []. split;
        [intros s; apply errors_append_eq | ].
      split; [intros [_ H]; discriminate | ].
      intros (cf0 & H0 & [H1 | (y & H1 & Hy & _)]); injection H0 as <-;
        [congruence | ].
      apply Hother in H1. rewrite H1 in Hid. cbn [Py.truthy] in Hid.
      apply negb_false_iff, String.eqb_eq in Hid. contradiction.
Qed.

(** A loop whose turns may raise returns without an error exactly when
    every turn does. *)
Lemma for_each_passes_iff {A} P (body : A -> M unit) (Q : A -> Prop) l :
  stable P ->
  (forall x,
      exists o es ws,
        yields_on P (body x) o es ws /\ ((o = Return tt /\ es = []) <-> Q x)) ->
  exists o es ws,
    yields_on P (for_each body l) o es ws
    /\ ((o = Return tt /\ es = []) <-> Forall Q l).
Proof.
  intros HP Hbody. induction l as [|x l (o2 & es2 & ws2 & H2 & Hiff2)].
  - exists (Return tt), [], []. split.
    + intros s _. cbn. now rewrite add_findings_nil.
    + split; [constructor | now intros _].
  - destruct (Hbody x) as (o1 & es1 & ws1 & H1 & Hiff1).
    destruct o1 as [[]|e].
    + exists o2, (es1 ++ es2), (ws1 ++ ws2). split.
      * intros s Hs. cbn [for_each]. unfold bind. rewrite (H1 s Hs).
        rewrite (H2 _ (HP es1 ws1 s Hs)). now rewrite add_findings_add.
      * split.
        -- intros [Ho H]. apply app_eq_nil in H as [Ha Hb].
           constructor; [apply Hiff1 | apply Hiff2]; now split.
        -- intros H. inversion H as [|? ? Hx Hl]; subst.
           apply Hiff1 in Hx as [_ ->]. apply Hiff2 in Hl as [-> ->].
           now split.
    + exists (Raise e), es1, ws1. split.
      * intros s Hs. cbn [for_each]. unfold bind. now rewrite (H1 s Hs).
      * split; [intros [Ho _]; discriminate | ].
        intros H. inversion H as [|? ? Hx Hl]; subst.
        apply Hiff1 in Hx as [Ho _]. discriminate.
Qed.

(** The correspondence check on a document and its decoded metadata, of
    any shape: what it does is a function of the two, and it returns
    without an error exactly when the metadata is accepted. *)
Lemma correspondence_yields E r m :
  exists o es ws,
    yields_on (has_doc r m) (_check_concept_group_correspondence E) o es ws
    /\ ((o = Return tt /\ es = [])
        <-> concepts_pass (group_ids_of (find_groups r)) m).
Proof.
  set (ids := group_ids_of (find_groups r)).
  unfold concepts_pass.
  assert (Hraise : forall e,
             (forall s, has_doc r m s ->
                        _check_concept_group_correspondence E s = (Raise e, s)) ->
             Py.truthy m = true ->
             (forall v items,
                 Py.contains "concepts" m = inr true ->
                 Py.getitem "concepts" m = inr v ->
                 Py.iter v = inr items -> False) ->
             Py.contains "concepts" m <> inr false ->
             exists o es ws,
               yields_on (has_doc r m) (_check_concept_group_correspondence E)
                         o es ws
               /\ ((o = Return tt /\ es = []) <->
                   Py.truthy m = false
                   \/ Py.contains "concepts" m = inr false
                   \/ exists v items,
                       Py.contains "concepts" m = inr true
                       /\ Py.getitem "concepts" m = inr v
                       /\ Py.iter v = inr items
                       /\ Forall (concept_passes ids) items)).
  { intros e Hrun Htruthy Hno Hcontains. exists (Raise e), [], []. split.
    - intros s Hs. rewrite add_findings_nil. now apply Hrun.
    - split; [intros [H _]; discriminate | ].
      intros [H | [H | (v & items & H1 & H2 & H3 & _)]];
        [congruence | contradiction | destruct (Hno v items H1 H2 H3)]. }
  destruct (Py.truthy m) eqn:Htruthy.
  2:{ exists (Return tt), [], []. split.
      - intros s [Hr Hm]. unfold _check_concept_group_correspondence.
        rewrite bind_self_metadata, Hm, Htruthy. cbn.
        now rewrite add_findings_nil.
      - split; [now left | now intros _]. }
  destruct (Py.contains "concepts" m) as [e|[|]] eqn:Hcontains.
  - apply (Hraise e); [ | reflexivity | intros; discriminate | discriminate].
    intros s [Hr Hm]. unfold _check_concept_group_correspondence.
    rewrite bind_self_metadata, Hm, Htruthy. cbn [negb].
    unfold bind at 1. now rewrite Hcontains.
  - destruct (Py.getitem "concepts" m) as [e|v] eqn:Hget.
    + apply (Hraise e); [ | reflexivity | intros; discriminate | discriminate].
      intros s [Hr Hm]. unfold _check_concept_group_correspondence.
      rewrite bind_self_metadata, Hm, Htruthy. cbn [negb].
      unfold bind at 1. rewrite Hcontains. cbn [lift ret negb].
      rewrite (bind_self_root r) by assumption.
      unfold bind at 1. now rewrite Hget.
    + destruct (Py.iter v) as [e|items] eqn:Hiter.
      * apply (Hraise e); [ | reflexivity | | discriminate].
        -- intros s [Hr Hm]. unfold _check_concept_group_correspondence.
           rewrite bind_self_metadata, Hm, Htruthy. cbn [negb].
           unfold bind at 1. rewrite Hcontains. cbn [lift ret negb].
           rewrite (bind_self_root r) by assumption.
           unfold bind at 1. rewrite Hget. cbn [lift ret].
           unfold bind at 1. now rewrite Hiter.
        -- intros v' items' _ Hv Hi. injection Hv as <-. congruence.
      * destruct (for_each_passes_iff (has_doc r m) (check_concept E ids)
                    (concept_passes ids) items (stable_has_doc r m))
          as (o & es & ws & Hloop & Hiff).
        { intros c. destruct (check_concept_yields E ids c)
            as (o & es & ws & H1 & H2).
          exists o, es, ws. split; [intros s _; apply H1 | exact H2]. }
        exists o, es, ws. split.
        -- intros s Hs. destruct Hs as [Hr Hm] eqn:Hdoc.
           unfold _check_concept_group_correspondence.
           rewrite bind_self_metadata, Hm, Htruthy. cbn [negb].
           unfold bind at 1. rewrite Hcontains. cbn [lift ret negb].
           rewrite (bind_self_root r) by assumption.
           unfold bind at 1. rewrite Hget. cbn [lift ret].
           unfold bind at 1. rewrite Hiter. cbn [lift ret].
           apply Hloop. now split.
        -- rewrite Hiff. split.
           ++ intros H. right. right. now exists v, items.
           ++ intros [H | [H | (v' & items' & _ & Hv & Hi & H)]];
                [discriminate | discriminate | ].
              injection Hv as <-. rewrite Hiter in Hi. now injection Hi as <-.
  - exists (Return tt), [], []. split.
    + intros s [Hr Hm]. unfold _check_concept_group_correspondence.
      rewrite bind_self_metadata, Hm, Htruthy. cbn [negb].
      unfold bind at 1. rewrite Hcontains. cbn.
      now rewrite add_findings_nil.
    + split; [intros _; right; now left | now intros _].
Qed.

(** *** When a run is valid *)

Lemma emits_weaken {A} (P Q : validator -> Prop) (m : M A) a es ws :
  (forall s, Q s -> P s) -> emits_on P m a es ws -> emits_on Q m a es ws.
Proof. intros HQ H s Hs. apply H, HQ, Hs. Qed.

Lemma has_doc_root r m s : has_doc r m s -> has_root r s.
Proof. now intros [H _]. Qed.

Lemma root_attributes_clean_iff r :
  exists es ws,
    emits r _check_root_attributes tt es ws
    /\ (es = [] <->
        ET.get "role" r = Some "img" /\ ET.get "aria-labelledby" r <> None).
Proof.
  root_attributes_cases r.
  all: split; [intros H; try discriminate | intros [H1 H2]; try congruence].
  all: split; [reflexivity | discriminate].
Qed.

Lemma title_and_desc_clean_iff r :
  exists es ws,
    emits r _check_title_and_desc tt es ws
    /\ (es = [] <->
        (exists title, find_svg_or_plain "title" r = Some title
                       /\ PyStr.blank (ET.text title) = false)
        /\ (exists desc, find_svg_or_plain "desc" r = Some desc
                         /\ PyStr.blank (ET.text desc) = false)).
Proof.
  title_and_desc_cases r.
  all: split;
    [ intros H; try discriminate
    | intros [(title0 & Ht1 & Ht2) (desc0 & Hd1 & Hd2)]; try discriminate;
      try (injection Ht1 as <-); try (injection Hd1 as <-); congruence ].
  all: split; eexists; split; try reflexivity; assumption.
Qed.

(** The root, title and description checks add no error exactly when the
    three meet the required rules. *)
Lemma head_clean_iff r :
  errors (root_and_title_findings r) = [] <-> head_complete r.
Proof.
  destruct (root_attributes_clean_iff r) as (es1 & ws1 & H1 & Hiff1).
  destruct (title_and_desc_clean_iff r) as (es2 & ws2 & H2 & Hiff2).
  pose proof (emits_bind (has_root r) (stable_has_root r)
                _check_root_attributes (fun _ => _check_title_and_desc)
                tt tt es1 ws1 es2 ws2 H1 H2) as H.
  unfold root_and_title_findings. rewrite H by reflexivity.
  cbn [snd add_findings errors app]. unfold head_complete.
  rewrite <- Hiff1, <- Hiff2. split.
  - intros Hnil. now apply app_eq_nil in Hnil.
  - intros [-> ->]. reflexivity.
Qed.

Lemma emits_after_root {B} r attr (f : element -> M B) b es ws :
  emits r (f r) b es ws -> emits r (bind (self_root attr) f) b es ws.
Proof.
  intros H s Hs. rewrite (bind_self_root r) by exact Hs. now apply H.
Qed.

Lemma stylesheet_adds_no_error r :
  exists ws, emits r _check_embedded_stylesheet tt [] ws.
Proof.
  assert (Hwhen : forall b w,
             exists ws, emits r (when b (warnings_append w)) tt [] ws).
  { intros [|] w; eexists; cbn [when];
      [apply emits_warnings_append | apply emits_ret]. }
  unfold _check_embedded_stylesheet.
  destruct (find_svg_or_plain "defs" r) as [defs|] eqn:Hdefs.
  - destruct (find_svg_or_plain "style" defs) as [style|] eqn:Hstyle.
    + set (style_text := match ET.text style with Some t => t | None => "" end).
      destruct (emits_for_each_clean (has_root r) (stable_has_root r)
                  (fun cls =>
                     when (negb (PyStr.contains cls style_text))
                       (warnings_append
                          ("Embedded stylesheet should define class '"
                           ++ cls ++ "'")))
                  [".f"; ".k"]) as (ws1 & H1); [intros; apply Hwhen | ].
      destruct (Hwhen (negb (PyStr.contains "@media (prefers-contrast: high)"
                                            style_text))
                      "Embedded stylesheet should include '@media (prefers-contrast: high)'")
        as (ws2 & H2).
      destruct (Hwhen (negb (PyStr.contains "@media (forced-colors: active)"
                                            style_text))
                      "Embedded stylesheet should include '@media (forced-colors: active)'")
        as (ws3 & H3).
      exists (ws1 ++ ws2 ++ ws3).
      apply emits_after_root. rewrite Hdefs, Hstyle. cbv zeta.
      fold style_text.
      apply (emits_bind _ (stable_has_root r) _ _ tt tt [] ws1 [] (ws2 ++ ws3));
        [exact H1 | ].
      apply (emits_bind _ (stable_has_root r) _ _ tt tt [] ws2 [] ws3);
        [exact H2 | exact H3].
    + eexists. apply emits_after_root. rewrite Hdefs, Hstyle.
      apply emits_warnings_append.
  - eexists. apply emits_after_root. rewrite Hdefs.
    apply emits_warnings_append.
Qed.

Lemma semantic_groups_clean_iff r :
  exists es ws,
    emits r _check_semantic_groups tt es ws
    /\ (es = [] <-> forall g, In g (find_groups r) -> group_complete g).
Proof.
  unfold _check_semantic_groups.
  destruct (find_groups r) as [|g0 groups] eqn:Hgroups.
  - exists [], ["No <g> elements found; semantic grouping recommended"].
    split.
    + apply emits_after_root. rewrite Hgroups. apply emits_warnings_append.
    + split; [intros _ g [] | reflexivity].
  - destruct (for_enumerate_clean_iff (has_root r) (stable_has_root r)
                check_group group_complete (g0 :: groups)) with (i := 0)
      as (es & ws & Hemits & Hiff).
    { intros i g. destruct (check_group_findings r i g)
        as (es & ws & H1 & H2 & _). now exists es, ws. }
    exists es, ws. split.
    + apply emits_after_root. rewrite Hgroups. exact Hemits.
    + rewrite Hiff. apply Forall_forall.
Qed.

Lemma valid_iff_clean_return E self o s :
  validate_body E (fresh self) = (o, s) ->
  is_valid_of (fst (validate E self)) = true
  <-> o = Return tt /\ errors s = [].
Proof.
  intros Hbody. destruct o as [[]|e].
  - rewrite (validate_returned E self s Hbody). unfold is_valid_of. cbn [fst].
    rewrite Nat.eqb_eq, length_zero_iff_nil. tauto.
  - rewrite (validate_raised E self e s Hbody). unfold is_valid_of. cbn [fst].
    split; [discriminate | intros [H _]; discriminate].
Qed.

(** A run whose metadata decodes and whose schema step returns goes
    through the three later checks; the object it ends on carries what
    each of them appended. *)
Lemma run_with_schema_state E self r el t m es1 ws1 :
  ET_parse E = ParseOk r -> is_svg_root r = true ->
  find_svg_or_plain "metadata" r = Some el ->
  ET.text el = Some t -> PyStr.strip_is_empty t = false ->
  json_loads E t = Decoded m ->
  emits_on (has_doc r m) (schema_stage E) tt es1 ws1 ->
  exists o esg esc ws2 ws3 ws4,
    validate_body E (fresh self)
    = (o, add_findings esc ws4
            (add_findings esg ws3
               (add_findings [] ws2
                  (add_findings es1 ws1
                     (with_metadata m
                        (add_findings [] (metadata_id_warning el)
                           (at_metadata r (fresh self))))))))
    /\ yields_on (has_doc r m) (_check_concept_group_correspondence E)
                 o esc ws4
    /\ (esg = [] <-> forall g, In g (find_groups r) -> group_complete g)
    /\ ((o = Return tt /\ esc = [])
        <-> concepts_pass (group_ids_of (find_groups r)) m).
Proof.
  intros Hp Hr Hf Ht Hb Hj Hschema.
  destruct (stylesheet_adds_no_error r) as (ws2 & Hstyle).
  destruct (semantic_groups_clean_iff r) as (esg & ws3 & Hgroups & Hiffg).
  destruct (correspondence_yields E r m) as (o & esc & ws4 & Hcorr & Hiffc).
  set (s0 := with_metadata m
               (add_findings [] (metadata_id_warning el)
                             (at_metadata r (fresh self)))).
  assert (Hdoc : has_doc r m s0) by (split; reflexivity).
  assert (Hst : stable (has_doc r m)) by apply stable_has_doc.
  exists o, esg, esc, ws2, ws3, ws4.
  split; [ | split; [exact Hcorr | split; assumption]].
  rewrite (validate_body_parsed E r _ Hp Hr). unfold bind at 1.
  rewrite (extract_decoded E r _ el t m) by (assumption || reflexivity).
  fold s0. rewrite (Hschema s0 Hdoc). unfold after_metadata.
  rewrite (bind_emits (has_doc r m) _ _ tt [] ws2 _
             (emits_weaken _ _ _ _ _ _ (has_doc_root r m) Hstyle))
    by now apply Hst.
  rewrite (bind_emits (has_doc r m) _ _ tt esg ws3 _
             (emits_weaken _ _ _ _ _ _ (has_doc_root r m) Hgroups))
    by now repeat apply Hst.
  apply Hcorr. now repeat apply Hst.
Qed.

(** The errors of such a run are those of the root and title checks, of
    the schema step, of the group check and of the correspondence check,
    in this order. *)
Lemma run_with_schema_findings E self r el t m es1 ws1 :
  ET_parse E = ParseOk r -> is_svg_root r = true ->
  find_svg_or_plain "metadata" r = Some el ->
  ET.text el = Some t -> PyStr.strip_is_empty t = false ->
  json_loads E t = Decoded m ->
  emits_on (has_doc r m) (schema_stage E) tt es1 ws1 ->
  exists o esg esc s,
    validate_body E (fresh self) = (o, s)
    /\ errors s = errors (root_and_title_findings r) ++ es1 ++ esg ++ esc
    /\ (esg = [] <-> forall g, In g (find_groups r) -> group_complete g)
    /\ ((o = Return tt /\ esc = [])
        <-> concepts_pass (group_ids_of (find_groups r)) m).
Proof.
  intros Hp Hr Hf Ht Hb Hj Hschema.
  destruct (run_with_schema_state E self r el t m es1 ws1
              Hp Hr Hf Ht Hb Hj Hschema)
    as (o & esg & esc & ws2 & ws3 & ws4 & Hbody & _ & Hiffg & Hiffc).
  exists o, esg, esc. eexists.
  split; [exact Hbody | split; [ | split; assumption]].
  cbn [add_findings errors with_metadata at_metadata loaded fresh app].
  now rewrite !app_nil_r, <- !app_assoc.
Qed.

(** Its warnings start with those of the root and title checks, the
    remark on the id of the metadata element, and those of the schema
    step. *)
Lemma run_with_schema_warnings E self r el t m es1 ws1 :
  ET_parse E = ParseOk r -> is_svg_root r = true ->
  find_svg_or_plain "metadata" r = Some el ->
  ET.text el = Some t -> PyStr.strip_is_empty t = false ->
  json_loads E t = Decoded m ->
  emits_on (has_doc r m) (schema_stage E) tt es1 ws1 ->
  exists rest,
    warnings_of (fst (validate E self))
    = warnings (root_and_title_findings r) ++ metadata_id_warning el
      ++ ws1 ++ rest.
Proof.
  intros Hp Hr Hf Ht Hb Hj Hschema.
  destruct (run_with_schema_state E self r el t m es1 ws1
              Hp Hr Hf Ht Hb Hj Hschema)
    as (o & esg & esc & ws2 & ws3 & ws4 & Hbody & _).
  exists (ws2 ++ ws3 ++ ws4).
  destruct o as [[]|e];
    [ rewrite (validate_returned E self _ Hbody)
    | rewrite (validate_raised E self e _ Hbody) ];
    unfold warnings_of;
    cbn [snd add_findings warnings with_metadata at_metadata loaded fresh app];
    now rewrite <- !app_assoc.
Qed.

(** The report of such a run is valid exactly when no check finds an
    error and the correspondence check returns. *)
Lemma validity_iff E self r el t m es1 ws1 :
  ET_parse E = ParseOk r -> is_svg_root r = true ->
  find_svg_or_plain "metadata" r = Some el ->
  ET.text el = Some t -> PyStr.strip_is_empty t = false ->
  json_loads E t = Decoded m ->
  emits_on (has_doc r m) (schema_stage E) tt es1 ws1 ->
  is_valid_of (fst (validate E self)) = true
  <-> head_complete r /\ es1 = []
      /\ (forall g, In g (find_groups r) -> group_complete g)
      /\ concepts_pass (group_ids_of (find_groups r)) m.
Proof.
  intros Hp Hr Hf Ht Hb Hj Hschema.
  destruct (run_with_schema_findings E self r el t m es1 ws1
              Hp Hr Hf Ht Hb Hj Hschema)
    as (o & esg & esc & s & Hbody & Herr & Hiffg & Hiffc).
  rewrite (valid_iff_clean_return E self o s Hbody), Herr.
  rewrite <- head_clean_iff, <- Hiffg, <- Hiffc. split.
  - intros [Ho Hnil].
    apply app_eq_nil in Hnil as [H0 Hnil].
    apply app_eq_nil in Hnil as [H1 Hnil].
    apply app_eq_nil in Hnil as [H2 H3]. tauto.
  - intros (H0 & H1 & H2 & Ho & H3). split; [exact Ho | ].
    now rewrite H0, H1, H2, H3.
Qed.

(** *** The full strategy *)

Lemma full_strategy_emits E r m schema :
  JSONSCHEMA_AVAILABLE E = true -> schema_path_exists E = true ->
  schema_load E = inr schema ->
  exists es,
    emits_on (has_doc r m) (schema_stage E) tt es []
    /\ (es = [] <-> jsonschema_validate E m schema = SchemaConforms).
Proof.
  intros Havail Hexists Hload.
  unfold schema_stage, _validate_metadata_schema.
  rewrite Havail, Hexists, Hload. cbn [negb].
  destruct (jsonschema_validate E m schema) as [|message|e] eqn:Hverdict;
    eexists; (split;
    [ intros s [Hr Hm]; rewrite bind_self_metadata, Hm, Hverdict;
      first [ apply errors_append_eq
            | unfold ret; now rewrite add_findings_nil ]
    | split; [intros H; try discriminate; reflexivity
             | intros H; try discriminate; reflexivity] ]).
Qed.

(** X6. With [jsonschema] and a schema that loads, for a document that
    parses and whose metadata decodes, to a value of any shape: the
    report is valid exactly when the root has [role="img"] and
    [aria-labelledby], title and description are present with text, the
    metadata conforms to the schema, every group visited is complete or
    untagged, and the correspondence check accepts the metadata.  The
    stylesheet plays no part, and neither does any warning. *)
Theorem X6_valid_with_full_strategy E self r el t m schema :
  ET_parse E = ParseOk r -> is_svg_root r = true ->
  find_svg_or_plain "metadata" r = Some el ->
  ET.text el = Some t -> PyStr.strip_is_empty t = false ->
  json_loads E t = Decoded m ->
  JSONSCHEMA_AVAILABLE E = true -> schema_path_exists E = true ->
  schema_load E = inr schema ->
  is_valid_of (fst (validate E self)) = true
  <-> head_complete r
      /\ jsonschema_validate E m schema = SchemaConforms
      /\ (forall g, In g (find_groups r) -> group_complete g)
      /\ concepts_pass (group_ids_of (find_groups r)) m.
Proof.
  intros Hp Hr Hf Ht Hb Hj Havail Hexists Hload.
  destruct (full_strategy_emits E r m schema Havail Hexists Hload)
    as (es & Hemits & Hiff).
  rewrite (validity_iff E self r el t m es [] Hp Hr Hf Ht Hb Hj Hemits).
  now rewrite Hiff.
Qed.

Lemma X6_valid_with_full_strategy_witness :
  is_valid_of (fst (validate Concepts.bed_only_env init)) = true.
Proof.
  assert (Hj : json_loads Concepts.bed_only_env
                          (Concepts.payload_with Concepts.bed_text)
               = Decoded (Concepts.metadata_with [JObj Concepts.bed_fields]))
    by (vm_compute; reflexivity).
  apply (proj2 (X6_valid_with_full_strategy
                  Concepts.bed_only_env init
                  (Concepts.doc_with Concepts.bed_text)
                  (Samples.metadata_el
                     (Concepts.payload_with Concepts.bed_text))
                  (Concepts.payload_with Concepts.bed_text)
                  (Concepts.metadata_with [JObj Concepts.bed_fields])
                  (JObj [])
                  eq_refl eq_refl eq_refl eq_refl eq_refl Hj
                  eq_refl eq_refl eq_refl)).
  split; [ | split; [reflexivity | split]].
  - split; [split; [reflexivity | discriminate] | split].
    + exists Samples.title_el. split; reflexivity.
    + exists Samples.desc_el. split; reflexivity.
  - intros g [<- | []]. right. repeat split. discriminate.
  - right. right.
    exists (JArr [JObj Concepts.bed_fields]), [JObj Concepts.bed_fields].
    repeat split. repeat constructor.
    exists Concepts.bed_fields. split; [reflexivity | right].
    exists "bed". split; [reflexivity | split; [discriminate | ]].
    vm_compute. tauto.
Defined.

(** *** Metadata that is not a container *)



(** *** The basic strategy on an object *)

Lemma basic_field_emits r fields field :
  exists es ws,
    emits_on (has_doc r (JObj fields))
      (m <- self_metadata ;;
       present <- lift (Py.contains field m) ;;
       when (negb present)
         (errors_append ("Missing required metadata field: " ++ field)))
      tt es ws
    /\ (es = [] <-> Py.has_key field fields = true).
Proof.
  destruct (Py.has_key field fields) eqn:Hkey; eexists; eexists;
    (split;
     [ intros s [Hr Hm]; rewrite bind_self_metadata, Hm;
       cbn [Py.contains lift]; unfold bind, ret; rewrite Hkey;
       cbn [negb when];
       first [ apply errors_append_eq
             | unfold ret; now rewrite add_findings_nil ]
     | split; intros H; try discriminate; reflexivity ]).
Qed.

Lemma basic_concept_emits E r fields i c :
  exists es ws,
    emits_on (has_doc r (JObj fields))
      (if negb (Py.isinstance_dict c)
       then errors_append
              ("metadata.concepts[" ++ PyStr.of_nat i ++ "] must be an object")
       else
         for_each
           (fun req_field =>
              present <- lift (Py.contains req_field c) ;;
              when (negb present)
                (errors_append
                   ("Missing required field '" ++ req_field
                    ++ "' in metadata.concepts[" ++ PyStr.of_nat i ++ "]")))
           ["role"; "label"] ;;
         is_implicit <- lift (Py.get "implicit" (JBool false) c) ;;
         has_id <- lift (Py.contains "id" c) ;;
         when (negb (Py.truthy is_implicit) && negb has_id)
           (role <- lift (Py.get "role" (JStr "unknown") c) ;;
            errors_append
              ("Missing required field 'id' in metadata.concepts["
               ++ PyStr.of_nat i ++ "] (role: " ++ str E role ++ "). "
               ++ "Explicit concepts must have an 'id' field.")))
      tt es ws
    /\ (es = [] <-> basic_concept_ok c).
Proof.
  set (P := has_doc r (JObj fields)).
  assert (HP : stable P) by apply stable_has_doc.
  unfold basic_concept_ok.
  destruct c as [ | | | |text|items|cf]; cbn [Py.isinstance_dict negb];
    try (eexists; eexists; split;
         [ apply emits_errors_append
         | split; [discriminate | intros (cf & H & _); discriminate] ]).
  cbn [Py.contains Py.get lift].
  destruct (for_each_clean_iff P HP
              (fun req_field =>
                 present <- ret (Py.has_key req_field cf) ;;
                 when (negb present)
                   (errors_append
                      ("Missing required field '" ++ req_field
                       ++ "' in metadata.concepts[" ++ PyStr.of_nat i ++ "]")))
              (fun k => Py.has_key k cf = true) ["role"; "label"])
    as (es1 & ws1 & H1 & Hiff1).
  { intros k. destruct (Py.has_key k cf) eqn:Hk; eexists; eexists;
      (split;
       [ intros s _; unfold bind, ret; cbn [negb when];
         first [ apply errors_append_eq
               | unfold ret; now rewrite add_findings_nil ]
       | split; intros H; try discriminate; reflexivity ]). }
  assert (H2 : exists es2,
             emits_on P
               (is_implicit <- ret (Py.dict_get "implicit" (JBool false) cf) ;;
                has_id <- ret (Py.has_key "id" cf) ;;
                when (negb (Py.truthy is_implicit) && negb has_id)
                  (role <- ret (Py.dict_get "role" (JStr "unknown") cf) ;;
                   errors_append
                     ("Missing required field 'id' in metadata.concepts["
                      ++ PyStr.of_nat i ++ "] (role: " ++ str E role ++ "). "
                      ++ "Explicit concepts must have an 'id' field.")))
               tt es2 []
             /\ (es2 = [] <->
                 Py.truthy (Py.dict_get "implicit" (JBool false) cf) = true
                 \/ Py.has_key "id" cf = true)).
  { destruct (Py.truthy (Py.dict_get "implicit" (JBool false) cf)) eqn:Himp;
      destruct (Py.has_key "id" cf) eqn:Hid; eexists;
        (split;
         [ intros s _; unfold bind, ret; try rewrite Himp; cbn [negb andb when];
           first [ apply errors_append_eq
                 | unfold ret; now rewrite add_findings_nil ]
         | split; [intros H; try discriminate; tauto
                  | intros [H | H]; try discriminate; reflexivity] ]). }
  destruct H2 as (es2 & H2 & Hiff2).
  exists (es1 ++ es2), (ws1 ++ []). split.
  - now apply (emits_bind P HP _ _ tt).
  - split.
    + intros H. apply app_eq_nil in H as [Ha Hb].
      apply Hiff1 in Ha. apply Hiff2 in Hb.
      inversion Ha as [|? ? Hrole Hrest]; subst.
      inversion Hrest as [|? ? Hlabel _]; subst.
      exists cf. repeat split; assumption.
    + intros (cf0 & H0 & Hrole & Hlabel & Hid). injection H0 as <-.
      rewrite (proj2 Hiff1) by (repeat constructor; assumption).
      now rewrite (proj2 Hiff2).
Qed.

(** The basic strategy on a decoded object never raises, and adds no
    error exactly when it accepts the object. *)
Lemma basic_emits E r fields :
  exists es ws,
    emits_on (has_doc r (JObj fields)) (_validate_metadata_basic E) tt es ws
    /\ (es = [] <-> basic_accepts fields).
Proof.
  set (P := has_doc r (JObj fields)).
  assert (HP : stable P) by apply stable_has_doc.
  unfold _validate_metadata_basic, basic_accepts. cbv zeta.
  match goal with
  | |- context [for_each ?body ?l] =>
      destruct (for_each_clean_iff P HP body
                  (fun field => Py.has_key field fields = true) l)
        as (es1 & ws1 & H1 & Hiff1);
      [intros field; apply basic_field_emits | ]
  end.
  assert (H2 : exists es2 ws2,
             emits_on P
               (m <- self_metadata ;;
                has_concepts <- lift (Py.contains "concepts" m) ;;
                when has_concepts
                  (concepts <- lift (Py.getitem "concepts" m) ;;
                   match concepts with
                   | JArr [] => errors_append "metadata.concepts array is empty"
                   | JArr items =>
                       for_enumerate
                         (fun i concept =>
                            if negb (Py.isinstance_dict concept)
                            then errors_append
                                   ("metadata.concepts[" ++ PyStr.of_nat i
                                    ++ "] must be an object")
                            else
                              for_each
                                (fun req_field =>
                                   present <- lift (Py.contains req_field concept) ;;
                                   when (negb present)
                                     (errors_append
                                        ("Missing required field '" ++ req_field
                                         ++ "' in metadata.concepts["
                                         ++ PyStr.of_nat i ++ "]")))
                                ["role"; "label"] ;;
                              is_implicit <-
                                lift (Py.get "implicit" (JBool false) concept) ;;
                              has_id <- lift (Py.contains "id" concept) ;;
                              when (negb (Py.truthy is_implicit) && negb has_id)
                                (role <-
                                   lift (Py.get "role" (JStr "unknown") concept) ;;
                                 errors_append
                                   ("Missing required field 'id' in metadata.concepts["
                                    ++ PyStr.of_nat i ++ "] (role: "
                                    ++ str E role ++ "). "
                                    ++ "Explicit concepts must have an 'id' field.")))
                         0 items
                   | _ => errors_append "metadata.concepts must be an array"
                   end))
               tt es2 ws2
             /\ (Py.has_key "concepts" fields = true ->
                 (es2 = [] <->
                  exists c items,
                    Py.lookup "concepts" fields = Some (JArr (c :: items))
                    /\ Forall basic_concept_ok (c :: items)))).
  { assert (Hstart : forall s (k : M unit),
               P s ->
               (forall v, Py.lookup "concepts" fields = Some v -> False) ->
               (m <- self_metadata ;;
                has_concepts <- lift (Py.contains "concepts" m) ;;
                when has_concepts k) s
               = (Return tt, add_findings [] [] s)).
    { intros s k [Hr Hm] Hnone. rewrite bind_self_metadata, Hm.
      cbn [Py.contains lift]. unfold bind, ret, Py.has_key.
      destruct (Py.lookup "concepts" fields) as [v|];
        [destruct (Hnone v eq_refl) | ].
      cbn [when]. unfold ret. now rewrite add_findings_nil. }
    destruct (Py.lookup "concepts" fields) as [concepts|] eqn:Hlook.
    2:{ exists [], []. split.
        - intros s Hs. apply Hstart; [exact Hs | intros v Hv; discriminate].
        - unfold Py.has_key. rewrite Hlook. discriminate. }
    assert (Hopen : forall s (k : json -> M unit),
               P s ->
               (m <- self_metadata ;;
                has_concepts <- lift (Py.contains "concepts" m) ;;
                when has_concepts
                  (concepts <- lift (Py.getitem "concepts" m) ;; k concepts)) s
               = k concepts s).
    { intros s k [Hr Hm]. rewrite bind_self_metadata, Hm.
      cbn [Py.contains Py.getitem lift]. unfold Py.has_key. rewrite Hlook.
      reflexivity. }
    destruct concepts as [ | | | |text|[|c items]|cf];
      try (eexists [_], []; split;
           [ intros s Hs;
             rewrite (Hopen s (fun concepts => match concepts with
                                               | JArr [] => _
                                               | JArr _ => _
                                               | _ => _
                                               end) Hs);
             apply errors_append_eq
           | intros _; split; [discriminate | ];
             intros (c0 & items0 & H0 & _); discriminate ]).
    destruct (for_enumerate_clean_iff P HP
                (fun i concept =>
                   if negb (Py.isinstance_dict concept)
                   then errors_append
                          ("metadata.concepts[" ++ PyStr.of_nat i
                           ++ "] must be an object")
                   else
                     for_each
                       (fun req_field =>
                          present <- lift (Py.contains req_field concept) ;;
                          when (negb present)
                            (errors_append
                               ("Missing required field '" ++ req_field
                                ++ "' in metadata.concepts["
                                ++ PyStr.of_nat i ++ "]")))
                       ["role"; "label"] ;;
                     is_implicit <-
                       lift (Py.get "implicit" (JBool false) concept) ;;
                     has_id <- lift (Py.contains "id" concept) ;;
                     when (negb (Py.truthy is_implicit) && negb has_id)
                       (role <- lift (Py.get "role" (JStr "unknown") concept) ;;
                        errors_append
                          ("Missing required field 'id' in metadata.concepts["
                           ++ PyStr.of_nat i ++ "] (role: "
                           ++ str E role ++ "). "
                           ++ "Explicit concepts must have an 'id' field.")))
                basic_concept_ok (c :: items)) with (i := 0)
      as (es2 & ws2 & Hloop & Hiff2).
    { intros i concept. apply basic_concept_emits. }
    exists es2, ws2. split.
    - intros s Hs.
      rewrite (Hopen s (fun concepts => match concepts with
                                        | JArr [] => _
                                        | JArr _ => _
                                        | _ => _
                                        end) Hs).
      now apply Hloop.
    - intros _. rewrite Hiff2. split.
      + intros H. now exists c, items.
      + intros (c0 & items0 & H0 & H). now injection H0 as <- <-. }
  destruct H2 as (es2 & ws2 & H2 & Hiff2).
  exists (es1 ++ es2), (ws1 ++ ws2). split.
  - now apply (emits_bind P HP _ _ tt).
  - split.
    + intros H. apply app_eq_nil in H as [Ha Hb].
      apply Hiff1 in Ha. split; [exact Ha | ].
      apply Hiff2; [ | exact Hb].
      apply (proj1 (Forall_forall _ _) Ha "concepts"%string).
      right; right; right; left; reflexivity.
    + intros [Ha Hb]. rewrite (proj2 Hiff1 Ha).
      assert (Hkey : Py.has_key "concepts" fields = true).
      { apply (proj1 (Forall_forall _ _) Ha "concepts"%string).
        right; right; right; left; reflexivity. }
      now rewrite (proj2 (Hiff2 Hkey) Hb).
Qed.

(** Whenever the basic strategy is in force the schema step first says
    why, and then runs the basic checks. *)
Lemma basic_stage_emits E r fields :
  basic_in_force E ->
  exists notice es ws,
    emits_on (has_doc r (JObj fields)) (schema_stage E) tt es (notice :: ws)
    /\ (es = [] <-> basic_accepts fields)
    /\ (JSONSCHEMA_AVAILABLE E = false ->
        notice = "Skipping JSON schema validation (jsonschema not installed)")
    /\ (JSONSCHEMA_AVAILABLE E = true -> schema_path_exists E = false ->
        notice = ("Schema file not found: " ++ schema_path E)%string)
    /\ (forall e,
           JSONSCHEMA_AVAILABLE E = true -> schema_path_exists E = true ->
           schema_load E = inl e ->
           notice = ("Could not load schema: " ++ e)%string).
Proof.
  intros Hbasic.
  set (P := has_doc r (JObj fields)).
  assert (HP : stable P) by apply stable_has_doc.
  destruct (basic_emits E r fields) as (es & ws & Hb & Hiff).
  unfold schema_stage, _validate_metadata_schema.
  destruct (JSONSCHEMA_AVAILABLE E) eqn:Havail;
    [destruct (schema_path_exists E) eqn:Hexists;
     [destruct (schema_load E) as [e|schema] eqn:Hload | ] | ];
    cbn [negb].
  4:{ exists "Skipping JSON schema validation (jsonschema not installed)", es, ws.
      split; [ | split; [exact Hiff | ]].
      - exact (emits_bind P HP _ _ tt tt [] [_] es ws
                 (emits_warnings_append P _) Hb).
      - repeat split; intros; congruence. }
  3:{ exists ("Schema file not found: " ++ schema_path E)%string, es, ws.
      split; [ | split; [exact Hiff | ]].
      - exact (emits_bind P HP _ _ tt tt [] [_] es ws
                 (emits_warnings_append P _) Hb).
      - repeat split; intros; congruence. }
  2:{ exfalso. destruct Hbasic as [H | [H | [e H]]]; congruence. }
  exists ("Could not load schema: " ++ e)%string, es, ws.
  split; [ | split; [exact Hiff | ]].
  - exact (emits_bind P HP _ _ tt tt [] [_] es ws
             (emits_warnings_append P _) Hb).
  - repeat split; intros; congruence.
Qed.

(** X8. Without a usable schema, for a document that parses and whose
    metadata decodes to an object: the report is valid exactly when the
    root has [role="img"] and [aria-labelledby], title and description
    are present with text, the object has the five required fields with
    [concepts] a non-empty array of objects that each have a role, a
    label and, unless implicit, an id, every group visited is complete
    or untagged, and the correspondence check accepts the metadata. *)
Theorem X8_valid_with_basic_strategy E self r el t fields :
  ET_parse E = ParseOk r -> is_svg_root r = true ->
  find_svg_or_plain "metadata" r = Some el ->
  ET.text el = Some t -> PyStr.strip_is_empty t = false ->
  json_loads E t = Decoded (JObj fields) ->
  basic_in_force E ->
  is_valid_of (fst (validate E self)) = true
  <-> head_complete r
      /\ basic_accepts fields
      /\ (forall g, In g (find_groups r) -> group_complete g)
      /\ concepts_pass (group_ids_of (find_groups r)) (JObj fields).
Proof.
  intros Hp Hr Hf Ht Hb Hj Hbasic.
  destruct (basic_stage_emits E r fields Hbasic)
    as (notice & es & ws & Hstage & Hiff & _).
  rewrite (validity_iff E self r el t (JObj fields) es (notice :: ws)
             Hp Hr Hf Ht Hb Hj Hstage).
  now rewrite Hiff.
Qed.

Lemma X8_valid_with_basic_strategy_witness :
  is_valid_of (fst (validate Fallback.bed_env init)) = true.
Proof.
  assert (Hj : json_loads Fallback.bed_env
                          (Concepts.payload_with Concepts.bed_text)
               = Decoded (Concepts.metadata_with [JObj Concepts.bed_fields]))
    by (vm_compute; reflexivity).
  apply (proj2 (X8_valid_with_basic_strategy
                  Fallback.bed_env init
                  (Concepts.doc_with Concepts.bed_text)
                  (Samples.metadata_el
                     (Concepts.payload_with Concepts.bed_text))
                  (Concepts.payload_with Concepts.bed_text)
                  [("version", JStr "1.0.0"); ("utterance", JStr "sleep");
                   ("nsm", JObj []);
                   ("concepts", JArr [JObj Concepts.bed_fields]);
                   ("provenance", JObj [])]
                  eq_refl eq_refl eq_refl eq_refl eq_refl Hj
                  (or_introl eq_refl))).
  split; [ | split; [ | split]].
  - split; [split; [reflexivity | discriminate] | split].
    + exists Samples.title_el. split; reflexivity.
    + exists Samples.desc_el. split; reflexivity.
  - split; [repeat constructor | ].
    exists (JObj Concepts.bed_fields), []. split; [reflexivity | ].
    repeat constructor. exists Concepts.bed_fields.
    repeat split. right. reflexivity.
  - intros g [<- | []]. right. repeat split. discriminate.
  - right. right.
    exists (JArr [JObj Concepts.bed_fields]), [JObj Concepts.bed_fields].
    repeat split. repeat constructor.
    exists Concepts.bed_fields. split; [reflexivity | right].
    exists "bed". split; [reflexivity | split; [discriminate | ]].
    vm_compute. tauto.
Defined.

(** X9. Without a usable schema, for a document that parses and whose
    metadata decodes to an object, the report says why the schema was
    not used: after the warnings of the root and title checks and the
    remark on the id of the metadata element comes one notice, which is
    the [Skipping] text when [jsonschema] is missing, else the
    [Schema file not found] text with the path when the file does not
    exist, else the [Could not load schema] text with the cause. *)
Theorem X9_fallback_is_announced E self r el t fields :
  ET_parse E = ParseOk r -> is_svg_root r = true ->
  find_svg_or_plain "metadata" r = Some el ->
  ET.text el = Some t -> PyStr.strip_is_empty t = false ->
  json_loads E t = Decoded (JObj fields) ->
  basic_in_force E ->
  exists notice rest,
    warnings_of (fst (validate E self))
    = warnings (root_and_title_findings r) ++ metadata_id_warning el
      ++ notice :: rest
    /\ (JSONSCHEMA_AVAILABLE E = false ->
        notice = "Skipping JSON schema validation (jsonschema not installed)")
    /\ (JSONSCHEMA_AVAILABLE E = true -> schema_path_exists E = false ->
        notice = ("Schema file not found: " ++ schema_path E)%string)
    /\ (forall e,
           JSONSCHEMA_AVAILABLE E = true -> schema_path_exists E = true ->
           schema_load E = inl e ->
           notice = ("Could not load schema: " ++ e)%string).
Proof.
  intros Hp Hr Hf Ht Hb Hj Hbasic.
  destruct (basic_stage_emits E r fields Hbasic)
    as (notice & es & ws & Hstage & _ & Hnotice).
  destruct (run_with_schema_warnings E self r el t (JObj fields) es
              (notice :: ws) Hp Hr Hf Ht Hb Hj Hstage) as (rest & Hws).
  exists notice, (ws ++ rest). split; [ | exact Hnotice].
  rewrite Hws. reflexivity.
Qed.

Lemma X9_fallback_is_announced_witness :
  exists notice rest,
    warnings_of (fst (validate Fallback.missing_schema_env init))
    = warnings (root_and_title_findings (Concepts.doc_with Concepts.bed_text))
      ++ metadata_id_warning
           (Samples.metadata_el (Concepts.payload_with Concepts.bed_text))
      ++ notice :: rest
    /\ (JSONSCHEMA_AVAILABLE Fallback.missing_schema_env = false ->
        notice = "Skipping JSON schema validation (jsonschema not installed)")
    /\ (JSONSCHEMA_AVAILABLE Fallback.missing_schema_env = true ->
        schema_path_exists Fallback.missing_schema_env = false ->
        notice = ("Schema file not found: "
                  ++ schema_path Fallback.missing_schema_env)%string)
    /\ (forall e,
           JSONSCHEMA_AVAILABLE Fallback.missing_schema_env = true ->
           schema_path_exists Fallback.missing_schema_env = true ->
           schema_load Fallback.missing_schema_env = inl e ->
           notice = ("Could not load schema: " ++ e)%string).
Proof.
  assert (Hj : json_loads Fallback.missing_schema_env
                          (Concepts.payload_with Concepts.bed_text)
               = Decoded (Concepts.metadata_with [JObj Concepts.bed_fields]))
    by (vm_compute; reflexivity).
  apply (X9_fallback_is_announced
           Fallback.missing_schema_env init
           (Concepts.doc_with Concepts.bed_text)
           (Samples.metadata_el (Concepts.payload_with Concepts.bed_text))
           (Concepts.payload_with Concepts.bed_text)
           [("version", JStr "1.0.0"); ("utterance", JStr "sleep");
            ("nsm", JObj []);
            ("concepts", JArr [JObj Concepts.bed_fields]);
            ("provenance", JObj [])]
           eq_refl eq_refl eq_refl eq_refl eq_refl Hj
           (or_intror (or_introl eq_refl))).
Defined.

(** ** The command line *)

Lemma validate_is_valid E self :
  is_valid_of (fst (validate E self)) = true
  <-> errors_of (fst (validate E self)) = [].
Proof.
  unfold validate, is_valid_of, errors_of. cbn [fst snd].
  now rewrite Nat.eqb_eq, length_zero_iff_nil.
Qed.

Lemma main_found E a :
  svg_file_exists a = true ->
  main E a
  = mkProcess
      (print_results (svg_path E) (is_valid_of (fst (validate E init)))
         (errors_of (fst (validate E init)))
         (if quiet a then [] else warnings_of (fst (validate E init))))
      []
      (if is_valid_of (fst (validate E init)) then 0%Z else 1%Z).
Proof.
  intros Hex. unfold main. rewrite Hex. cbn [negb].
  destruct (fst (validate E init)) as [[v es] ws]. reflexivity.
Qed.

(** X10. Once [exists()] has answered: the exit code is 2 exactly when
    the answer is no, and then nothing is validated and [main] makes one
    call to [print], on the error stream; it is 0 exactly when the file
    exists and the run found no error, and 1 exactly when it found one.
    The status text, which is given to the fifth call to [print] (index
    4 among the calls), agrees with the code.  [--quiet] has no part in
    it. *)
Theorem X10_exit_code E a :
  (exit_code (main E a) = 2%Z <-> svg_file_exists a = false)
  /\ (exit_code (main E a) = 0%Z
      <-> svg_file_exists a = true /\ errors_of (fst (validate E init)) = [])
  /\ (exit_code (main E a) = 1%Z
      <-> svg_file_exists a = true /\ errors_of (fst (validate E init)) <> [])
  /\ (exit_code (main E a) = 2%Z ->
      stdout (main E a) = []
      /\ stderr (main E a) = [("Error: File not found: " ++ svg_path E)%string])
  /\ (exit_code (main E a) = 0%Z ->
      nth_error (stdout (main E a)) 4
      = Some ("Status: " ++ check_mark ++ " VALID")%string)
  /\ (exit_code (main E a) = 1%Z ->
      nth_error (stdout (main E a)) 4
      = Some ("Status: " ++ ballot_x ++ " INVALID")%string).
Proof.
  destruct (svg_file_exists a) eqn:Hex.
  - rewrite (main_found E a Hex). cbn [exit_code stdout stderr].
    pose proof (validate_is_valid E init) as Hv.
    destruct (is_valid_of (fst (validate E init))).
    + assert (He : errors_of (fst (validate E init)) = []) by now apply Hv.
      rewrite He.
      repeat split; intros;
        first [discriminate | reflexivity | intuition congruence].
    + assert (He : errors_of (fst (validate E init)) <> []).
      { intros H. apply Hv in H. discriminate. }
      repeat split; intros;
        first [discriminate | reflexivity | intuition congruence].
  - unfold main. rewrite Hex. cbn [negb exit_code stdout stderr].
    repeat split; intros;
      first [discriminate | reflexivity | intuition congruence].
Qed.

Lemma X10_exit_code_witness :
  exit_code (main Fallback.bed_env Calls.hushed) = 0%Z
  /\ nth_error (stdout (main Fallback.bed_env Calls.hushed)) 4
     = Some ("Status: " ++ check_mark ++ " VALID")%string.
Proof.
  assert (He : errors_of (fst (validate Fallback.bed_env init)) = [])
    by (vm_compute; reflexivity).
  assert (Hc : exit_code (main Fallback.bed_env Calls.hushed) = 0%Z).
  { apply (proj2 (proj1 (proj2 (X10_exit_code Fallback.bed_env Calls.hushed)))).
    split; [reflexivity | exact He]. }
  split; [exact Hc | ].
  exact (proj1 (proj2 (proj2 (proj2 (proj2
           (X10_exit_code Fallback.bed_env Calls.hushed))))) Hc).
Defined.

Lemma nth_error_print_numbered start items i :
  nth_error (print_numbered start items) i
  = option_map
      (fun x => ("  " ++ PyStr.of_nat (start + i) ++ ". " ++ x)%string)
      (nth_error items i).
Proof.
  revert start i. induction items as [|x items IH]; intros start [|i];
    cbn [print_numbered nth_error option_map]; try reflexivity.
  - now rewrite Nat.add_0_r.
  - rewrite IH. now rewrite Nat.add_succ_comm.
Qed.

Lemma length_print_numbered start items :
  length (print_numbered start items) = length items.
Proof.
  revert start. induction items as [|x items IH]; intros start;
    cbn [print_numbered length]; [reflexivity | now rewrite IH].
Qed.

(** X11. Every error of the report is printed, in the order of the
    report and numbered from 1: the one at index [i] is the text of the
    call to [print] at index [8 + i], after the six calls of the head,
    the count and the rule.  The positions count calls to [print], not
    lines of the output: the first and the sixth call each write two
    lines. *)
Theorem X11_errors_are_numbered p v es ws i e :
  nth_error es i = Some e ->
  nth_error (print_results p v es ws) (8 + i)
  = Some ("  " ++ PyStr.of_nat (S i) ++ ". " ++ e)%string.
Proof.
  intros Hi. unfold print_results.
  destruct es as [|e0 es]; [destruct i; discriminate | ].
  cbn [nonempty]. set (l := e0 :: es) in *.
  cbn [app Nat.add nth_error].
  rewrite nth_error_app1.
  - rewrite nth_error_app1.
    + rewrite nth_error_print_numbered, Hi. reflexivity.
    + rewrite length_print_numbered. apply nth_error_Some. congruence.
  - rewrite length_app, length_print_numbered.
    assert (i < length l) by (apply nth_error_Some; congruence). lia.
Qed.

Lemma X11_errors_are_numbered_witness :
  nth_error (print_results "pictogram.svg" false
               ["Missing required <title> element";
                "Missing required <metadata> element"] [])
            (8 + 1)
  = Some "  2. Missing required <metadata> element".
Proof.
  apply (X11_errors_are_numbered "pictogram.svg" false
           ["Missing required <title> element";
            "Missing required <metadata> element"] [] 1
           "Missing required <metadata> element" eq_refl).
Defined.

Lemma nth_error_skip {A} (l1 l2 : list A) n :
  nth_error (l1 ++ l2) (length l1 + n) = nth_error l2 n.
Proof. induction l1 as [|x l1 IH]; [reflexivity | exact IH]. Qed.

(** X12. Every warning passed to the printer is printed, numbered from
    1, after the block of the errors: with no error the one at index [i]
    is the text of the call to [print] at index [8 + i], and with [n]
    errors, [n > 0], of the call at index [11 + n + i].  The positions
    count calls to [print], not lines of the output. *)
Theorem X12_warnings_are_numbered p v es ws i w :
  nth_error ws i = Some w ->
  nth_error (print_results p v es ws)
            (match es with [] => 8 | _ => 11 + length es end + i)
  = Some ("  " ++ PyStr.of_nat (S i) ++ ". " ++ w)%string.
Proof.
  intros Hi. unfold print_results.
  assert (Hlt : i < length ws) by (apply nth_error_Some; congruence).
  match goal with
  | |- nth_error (?h ++ ?b1 ++ ?b2) ?n = _ =>
      replace n with (length h + (length b1 + (2 + i)));
      [rewrite !nth_error_skip | ]
  end.
  - destruct ws as [|w0 ws]; [destruct i; discriminate | ].
    cbn [nonempty]. set (l := w0 :: ws) in *.
    cbn [app Nat.add nth_error].
    rewrite <- app_assoc.
    rewrite nth_error_app1 by (rewrite length_print_numbered; exact Hlt).
    rewrite nth_error_print_numbered, Hi. reflexivity.
  - destruct es as [|e0 es]; cbn [nonempty length app];
      rewrite ?length_app, ?length_print_numbered; cbn [length]; lia.
Qed.

Lemma X12_warnings_are_numbered_witness :
  nth_error (print_results "pictogram.svg" false
               ["Missing required <metadata> element"]
               ["No <defs> element found; embedded stylesheet recommended"])
            (11 + 1 + 0)
  = Some "  1. No <defs> element found; embedded stylesheet recommended".
Proof.
  apply (X12_warnings_are_numbered "pictogram.svg" false
           ["Missing required <metadata> element"]
           ["No <defs> element found; embedded stylesheet recommended"] 0
           "No <defs> element found; embedded stylesheet recommended" eq_refl).
Defined.






(** ** Findings that no later step can take back *)

(** X15. For every document that parses with an [svg] root, whatever
    its metadata and the surroundings: the errors and the warnings of
    the report start with those of the checks on the root, the title and
    the description, so that a valid report needs [role="img"] and
    [aria-labelledby] on the root and a title and a description with
    text. *)
Theorem X15_head_findings_are_kept E self r :
  ET_parse E = ParseOk r -> is_svg_root r = true ->
  (exists rest,
      errors_of (fst (validate E self))
      = errors (root_and_title_findings r) ++ rest)
  /\ (exists rest,
        warnings_of (fst (validate E self))
        = warnings (root_and_title_findings r) ++ rest)
  /\ (is_valid_of (fst (validate E self)) = true -> head_complete r).
Proof.
  intros Hp Hr.
  assert (Hgrow : growing (_extract_and_validate_metadata E ;; after_metadata E)).
  { apply growing_bind; [apply growing_extract_and_validate_metadata | ].
    intros _. apply appends_growing, appends_after_metadata. }
  pose proof (validate_body_parsed E r (fresh self) Hp Hr) as Hbody.
  destruct (Hgrow (at_metadata r (fresh self)))
    as (_ & _ & (es & He) & (ws & Hw)).
  rewrite <- Hbody in He, Hw.
  cbn [at_metadata add_findings errors warnings loaded fresh app] in He, Hw.
  assert (Herr : exists rest,
             errors_of (fst (validate E self))
             = errors (root_and_title_findings r) ++ rest).
  { destruct (validate_body E (fresh self)) as [[[]|e] s] eqn:Hrun;
      cbn [snd] in He, Hw.
    - rewrite (validate_returned E self s Hrun). unfold errors_of. cbn [fst snd].
      now exists es.
    - rewrite (validate_raised E self e s Hrun). unfold errors_of. cbn [fst snd].
      exists (es ++ [exn_entry e]). now rewrite He, app_assoc. }
  split; [exact Herr | split].
  - destruct (validate_body E (fresh self)) as [[[]|e] s] eqn:Hrun;
      cbn [snd] in He, Hw.
    + rewrite (validate_returned E self s Hrun). unfold warnings_of. cbn [snd].
      now exists ws.
    + rewrite (validate_raised E self e s Hrun). unfold warnings_of. cbn [snd].
      now exists ws.
  - intros Hvalid. apply validate_is_valid in Hvalid.
    destruct Herr as (rest & Herr). rewrite Herr in Hvalid.
    apply app_eq_nil in Hvalid as [Hhead _].
    now apply head_clean_iff.
Qed.

Lemma X15_head_findings_are_kept_witness :
  exists rest,
    errors_of (fst (validate Samples.no_metadata_env init))
    = errors (root_and_title_findings Samples.no_metadata_doc) ++ rest.
Proof.
  apply (X15_head_findings_are_kept Samples.no_metadata_env init
           Samples.no_metadata_doc eq_refl eq_refl).
Defined.

(** The schema step returns on every object, whichever strategy runs. *)
Lemma schema_stage_returns_on_object E r fields :
  exists es ws, emits_on (has_doc r (JObj fields)) (schema_stage E) tt es ws.
Proof.
  destruct (JSONSCHEMA_AVAILABLE E) eqn:Havail;
    [destruct (schema_path_exists E) eqn:Hexists;
     [destruct (schema_load E) as [e|schema] eqn:Hload | ] | ].
  - destruct (basic_stage_emits E r fields) as (notice & es & ws & H & _).
    { right. right. now exists e. }
    now exists es, (notice :: ws).
  - destruct (full_strategy_emits E r (JObj fields) schema Havail Hexists Hload)
      as (es & H & _).
    now exists es, [].
  - destruct (basic_stage_emits E r fields) as (notice & es & ws & H & _).
    { right. now left. }
    now exists es, (notice :: ws).
  - destruct (basic_stage_emits E r fields) as (notice & es & ws & H & _).
    { now left. }
    now exists es, (notice :: ws).
Qed.

(** X16. An entry of [concepts] that is not an object, reached by the
    correspondence loop (the entries before it being objects with
    hashable ids), stops the run: the report is invalid and its last
    error is the [Unexpected error] entry that names the type of the
    entry and the missing method [get]; the entries after it are not
    looked at.  This holds under either strategy. *)
Theorem X16_concept_that_is_not_an_object E self r el t fields before c after :
  ET_parse E = ParseOk r -> is_svg_root r = true ->
  find_svg_or_plain "metadata" r = Some el ->
  ET.text el = Some t -> PyStr.strip_is_empty t = false ->
  json_loads E t = Decoded (JObj fields) ->
  Py.lookup "concepts" fields = Some (JArr (before ++ c :: after)) ->
  Forall (fun x => concept_record x = true) before ->
  Py.isinstance_dict c = false ->
  is_valid_of (fst (validate E self)) = false
  /\ exists es,
      errors_of (fst (validate E self))
      = es ++ [("Unexpected error: '" ++ Py.type_name c
                ++ "' object has no attribute 'get'")%string].
Proof.
  intros Hp Hr Hf Ht Hb Hj Hlook Hbefore Hc.
  set (m := JObj fields).
  set (P := has_doc r m).
  assert (HP : stable P) by apply stable_has_doc.
  set (ids := group_ids_of (find_groups r)).
  set (exn := PyException ("'" ++ Py.type_name c
                           ++ "' object has no attribute 'get'")).
  destruct (schema_stage_returns_on_object E r fields) as (es1 & ws1 & Hstage).
  destruct (run_with_schema_state E self r el t m es1 ws1
              Hp Hr Hf Ht Hb Hj Hstage)
    as (o & esg & esc & ws2 & ws3 & ws4 & Hbody & Hcorr & _ & _).
  assert (Hraise : forall s, P s ->
             fst (_check_concept_group_correspondence E s) = Raise exn).
  { intros s [Hroot Hm].
    rewrite (correspondence_is_the_loop E r fields _ s Hroot Hm Hlook).
    destruct (for_each_reaches P HP (check_concept E ids) before c after)
      with (s := s) as (s1 & _ & Hrun).
    - intros y Hy. apply safe_check_concept; [exact HP | ].
      exact (proj1 (Forall_forall _ _) Hbefore y Hy).
    - split; assumption.
    - fold ids. rewrite Hrun. unfold bind, check_concept.
      destruct c; try discriminate Hc; reflexivity. }
  match type of Hbody with
  | _ = (_, add_findings _ _ ?s) =>
      assert (Hs : P s) by (split; reflexivity);
      pose proof (Hraise s Hs) as Ho; rewrite (Hcorr s Hs) in Ho
  end.
  cbn [fst] in Ho. subst o.
  rewrite (validate_raised E self exn _ Hbody).
  unfold is_valid_of, errors_of. cbn [fst snd].
  split; [reflexivity | ]. eexists. reflexivity.
Qed.

Lemma X16_concept_that_is_not_an_object_witness :
  is_valid_of (fst (validate Stray.with_number_env init)) = false
  /\ exists es,
      errors_of (fst (validate Stray.with_number_env init))
      = es ++ ["Unexpected error: 'int' object has no attribute 'get'"].
Proof.
  assert (Hj : json_loads Stray.with_number_env
                          (Concepts.payload_with Stray.number_text)
               = Decoded (Concepts.metadata_with Stray.with_number))
    by (vm_compute; reflexivity).
  apply (X16_concept_that_is_not_an_object
           Stray.with_number_env init
           (Concepts.doc_with Stray.number_text)
           (Samples.metadata_el (Concepts.payload_with Stray.number_text))
           (Concepts.payload_with Stray.number_text)
           [("version", JStr "1.0.0"); ("utterance", JStr "sleep");
            ("nsm", JObj []); ("concepts", JArr Stray.with_number);
            ("provenance", JObj [])]
           [JObj Concepts.bed_fields] (JInt 7) []
           eq_refl eq_refl eq_refl eq_refl eq_refl Hj eq_refl).
  - repeat constructor.
  - reflexivity.
Defined.
